(** * go-gcp-middleware: a shallow embedding and its checked properties

    The development follows the packages of the repository:

    - [Telemetry]  : telemetry/telemetry.go (configuration, provider
                     construction, sampler choice, package-level provider);
    - [Logger]     : logger/logger.go (levels, the HTTP-request log helper,
                     the panic-logging helper, the package-level logger);
    - [Middleware] : middleware.go and client.go of the root package (CORS,
                     Recovery, the chain builder, Client.Shutdown);
    - [Helpers]    : helpers/http.go (RecoverMiddleware).

    Go values are modelled as the code has them: [int] and [time.Duration]
    as [Z], [float64] as IEEE-754 binary64 data ([spec_float]) compared with
    the IEEE comparisons, [string] as [string], [map[string]T] as [gmap],
    structs as records, [error] as an option of an error value, and package
    variables as fields of an explicit state that every operation threads. *)

From Stdlib Require Import ZArith List Bool.
From Stdlib Require Import Floats.SpecFloat.
From stdpp Require Import base option strings gmap list pretty.

Local Open Scope Z_scope.
Local Open Scope string_scope.

(** ** Go runtime values shared by the packages *)

(** [error] values.  [Errorf] is [fmt.Errorf] with a fixed message,
    [Wrapf] is [fmt.Errorf("<prefix>: %w", inner)], [External] is an error
    handed back by a collaborator outside the repository, with the name of
    its dynamic type. *)
Inductive GoError : Type :=
| Errorf (msg : string)
| Wrapf (prefix : string) (inner : GoError)
| External (type_name : string) (msg : string).

(** [err.Error()]. *)
Fixpoint error_string (e : GoError) : string :=
  match e with
  | Errorf m => m
  | Wrapf p i => p ++ ": " ++ error_string i
  | External _ m => m
  end.

(** [fmt.Sprintf("%T", err)]. *)
Definition error_type (e : GoError) : string :=
  match e with
  | Errorf _ => "*errors.errorString"
  | Wrapf _ _ => "*fmt.wrapError"
  | External t _ => t
  end.

(** [errors.Unwrap] iterated: the innermost error of a [%w] chain. *)
Fixpoint error_root (e : GoError) : GoError :=
  match e with
  | Wrapf _ i => error_root i
  | _ => e
  end.

(** binary64 constants used by the sources. *)
Definition f64_zero : spec_float := S754_zero false.
Definition f64_one : spec_float := S754_finite false 4503599627370496 (-52).
Definition f64_tenth : spec_float := S754_finite false 7205759403792794 (-56).
Definition f64_half : spec_float := S754_finite false 4503599627370496 (-53).
Definition f64_one_and_half : spec_float := S754_finite false 6755399441055744 (-52).
Definition f64_valid (x : spec_float) : bool := valid_binary 53 1024 x.

(** Go's comparison operators on float64. *)
Definition f64_eq (x y : spec_float) : bool := SFeqb x y.
Definition f64_lt (x y : spec_float) : bool := SFltb x y.
Definition f64_le (x y : spec_float) : bool := SFleb x y.
Definition f64_gt (x y : spec_float) : bool := SFltb y x.
Definition f64_ge (x y : spec_float) : bool := SFleb y x.

(** [time.Duration] is an int64 count of nanoseconds. *)
Definition Second : Z := 1000000000.

(** ** Package telemetry *)
Module Telemetry.

(** [type Config struct].  [Attributes] is a Go map, which may be nil. *)
Record Config : Type := mkConfig {
  ServiceName : string;
  ServiceVersion : string;
  Environment : string;
  ProjectID : string;
  EnableTracing : bool;
  EnableMetrics : bool;
  TraceRatio : spec_float;
  EnableDebug : bool;
  ExportTimeout : Z;
  BatchTimeout : Z;
  MaxBatchSize : Z;
  MaxQueueSize : Z;
  Attributes : option (gmap string string)
}.

Definition set_ServiceName v c := mkConfig v (ServiceVersion c) (Environment c) (ProjectID c) (EnableTracing c) (EnableMetrics c) (TraceRatio c) (EnableDebug c) (ExportTimeout c) (BatchTimeout c) (MaxBatchSize c) (MaxQueueSize c) (Attributes c).
Definition set_ServiceVersion v c := mkConfig (ServiceName c) v (Environment c) (ProjectID c) (EnableTracing c) (EnableMetrics c) (TraceRatio c) (EnableDebug c) (ExportTimeout c) (BatchTimeout c) (MaxBatchSize c) (MaxQueueSize c) (Attributes c).
Definition set_Environment v c := mkConfig (ServiceName c) (ServiceVersion c) v (ProjectID c) (EnableTracing c) (EnableMetrics c) (TraceRatio c) (EnableDebug c) (ExportTimeout c) (BatchTimeout c) (MaxBatchSize c) (MaxQueueSize c) (Attributes c).
Definition set_ProjectID v c := mkConfig (ServiceName c) (ServiceVersion c) (Environment c) v (EnableTracing c) (EnableMetrics c) (TraceRatio c) (EnableDebug c) (ExportTimeout c) (BatchTimeout c) (MaxBatchSize c) (MaxQueueSize c) (Attributes c).
Definition set_TraceRatio v c := mkConfig (ServiceName c) (ServiceVersion c) (Environment c) (ProjectID c) (EnableTracing c) (EnableMetrics c) v (EnableDebug c) (ExportTimeout c) (BatchTimeout c) (MaxBatchSize c) (MaxQueueSize c) (Attributes c).
Definition set_ExportTimeout v c := mkConfig (ServiceName c) (ServiceVersion c) (Environment c) (ProjectID c) (EnableTracing c) (EnableMetrics c) (TraceRatio c) (EnableDebug c) v (BatchTimeout c) (MaxBatchSize c) (MaxQueueSize c) (Attributes c).
Definition set_BatchTimeout v c := mkConfig (ServiceName c) (ServiceVersion c) (Environment c) (ProjectID c) (EnableTracing c) (EnableMetrics c) (TraceRatio c) (EnableDebug c) (ExportTimeout c) v (MaxBatchSize c) (MaxQueueSize c) (Attributes c).
Definition set_MaxBatchSize v c := mkConfig (ServiceName c) (ServiceVersion c) (Environment c) (ProjectID c) (EnableTracing c) (EnableMetrics c) (TraceRatio c) (EnableDebug c) (ExportTimeout c) (BatchTimeout c) v (MaxQueueSize c) (Attributes c).
Definition set_MaxQueueSize v c := mkConfig (ServiceName c) (ServiceVersion c) (Environment c) (ProjectID c) (EnableTracing c) (EnableMetrics c) (TraceRatio c) (EnableDebug c) (ExportTimeout c) (BatchTimeout c) (MaxBatchSize c) v (Attributes c).
Definition set_Attributes v c := mkConfig (ServiceName c) (ServiceVersion c) (Environment c) (ProjectID c) (EnableTracing c) (EnableMetrics c) (TraceRatio c) (EnableDebug c) (ExportTimeout c) (BatchTimeout c) (MaxBatchSize c) (MaxQueueSize c) v.

(** What the package reads from outside the repository: the process
    environment, the GCP resource detector, [resource.Merge] and the Cloud
    Trace exporter constructor. *)
Record Env : Type := mkEnv {
  getenv : string -> string;
  gcp_detect : option (gmap string string);
  resource_merge_error : option GoError;
  exporter_error : option GoError
}.

(** [func (c *Config) SetDefaults()]: the method is a sequence of
    independent conditional assignments, one per field; each statement is a
    function on the struct and the method is their composition in source
    order. *)
Definition d_ServiceName (c : Config) : Config :=
  if String.eqb (ServiceName c) "" then set_ServiceName "default-service" c else c.
Definition d_ServiceVersion (c : Config) : Config :=
  if String.eqb (ServiceVersion c) "" then set_ServiceVersion "1.0.0" c else c.
Definition d_Environment (env : Env) (c : Config) : Config :=
  if String.eqb (Environment c) "" then
    let c := set_Environment (getenv env "ENVIRONMENT") c in
    if String.eqb (Environment c) "" then set_Environment "production" c else c
  else c.
Definition d_TraceRatio (c : Config) : Config :=
  if f64_eq (TraceRatio c) f64_zero then set_TraceRatio f64_tenth c else c.
Definition d_ProjectID (env : Env) (c : Config) : Config :=
  if String.eqb (ProjectID c) "" then
    let c := set_ProjectID (getenv env "GOOGLE_CLOUD_PROJECT") c in
    if String.eqb (ProjectID c) "" then set_ProjectID (getenv env "GCP_PROJECT") c else c
  else c.
Definition d_ExportTimeout (c : Config) : Config :=
  if Z.eqb (ExportTimeout c) 0 then set_ExportTimeout (30 * Second)%Z c else c.
Definition d_BatchTimeout (c : Config) : Config :=
  if Z.eqb (BatchTimeout c) 0 then set_BatchTimeout (5 * Second)%Z c else c.
Definition d_MaxBatchSize (c : Config) : Config :=
  if Z.eqb (MaxBatchSize c) 0 then set_MaxBatchSize 512 c else c.
Definition d_MaxQueueSize (c : Config) : Config :=
  if Z.eqb (MaxQueueSize c) 0 then set_MaxQueueSize 2048 c else c.
Definition d_Attributes (c : Config) : Config :=
  match Attributes c with None => set_Attributes (Some ∅) c | Some _ => c end.

Definition SetDefaults (env : Env) (c : Config) : Config :=
  d_Attributes (d_MaxQueueSize (d_MaxBatchSize (d_BatchTimeout (d_ExportTimeout
    (d_ProjectID env (d_TraceRatio (d_Environment env (d_ServiceVersion
      (d_ServiceName c))))))))).

(** [func (c *Config) Validate() error]. *)
Definition Validate (c : Config) : option GoError :=
  if String.eqb (ServiceName c) "" then Some (Errorf "ServiceName is required")
  else if EnableTracing c && String.eqb (ProjectID c) "" then
    Some (Errorf "ProjectID is required when tracing is enabled")
  else if f64_lt (TraceRatio c) f64_zero || f64_gt (TraceRatio c) f64_one then
    Some (Errorf "TraceRatio must be between 0.0 and 1.0")
  else if Z.leb (MaxBatchSize c) 0 then Some (Errorf "MaxBatchSize must be positive")
  else if Z.leb (MaxQueueSize c) 0 then Some (Errorf "MaxQueueSize must be positive")
  else None.

(** The three samplers of the tracing SDK that [setupTracing] chooses from. *)
Inductive Sampler : Type :=
| AlwaysSample
| NeverSample
| TraceIDRatioBased (fraction : spec_float).

Record Exporter : Type := mkExporter {
  exp_project : string;
  exp_timeout : Z
}.

(** The arguments [sdktrace.NewTracerProvider] is called with. *)
Record TracerProvider : Type := mkTracerProvider {
  tp_resource : gmap string string;
  tp_sampler : Sampler;
  tp_exporter : Exporter;
  tp_batchTimeout : Z;
  tp_maxExportBatchSize : Z;
  tp_maxQueueSize : Z
}.

(** A tracer remembers its name and the tracer provider it came from
    ([None]: the process-wide OpenTelemetry provider). *)
Record Tracer : Type := mkTracer {
  tr_name : string;
  tr_from : option TracerProvider
}.

(** [type Provider struct].  Providers are used through pointers;
    [p_addr] is the identity of the allocation. *)
Record Provider : Type := mkProvider {
  p_addr : nat;
  tracerProvider : option TracerProvider;
  config : Config;
  tracer : option Tracer
}.

(** Package-level and process-level state the package writes:
    [var globalProvider *Provider], the allocator, and the OpenTelemetry
    globals set by [otel.SetTracerProvider] and
    [otel.SetTextMapPropagator]. *)
Record State : Type := mkState {
  globalProvider : option Provider;
  next_addr : nat;
  otel_tracer_provider : option TracerProvider;
  otel_propagators : list string
}.

Definition init_state : State := mkState None 0 None [].

(** [func (p *Provider) createResource(ctx)]. *)
Definition createResource (env : Env) (c : Config) : GoError + gmap string string :=
  let baseAttrs : gmap string string :=
    <["service.name" := ServiceName c]>
      (<["service.version" := ServiceVersion c]>
        (<["deployment.environment" := Environment c]> ∅)) in
  let baseRes := default ∅ (Attributes c) ∪ baseAttrs in
  match gcp_detect env with
  | None => inr baseRes
  | Some gcpRes =>
      match resource_merge_error env with
      | Some e => inl e
      | None => inr (gcpRes ∪ baseRes)
      end
  end.

(** The sampler choice of [setupTracing]. *)
Definition choose_sampler (ratio : spec_float) : Sampler :=
  if f64_ge ratio f64_one then AlwaysSample
  else if f64_le ratio f64_zero then NeverSample
  else TraceIDRatioBased ratio.

(** [func (p *Provider) setupTracing(ctx) error]: on success the tracer
    provider it built, which it also installs process-wide. *)
Definition setupTracing (env : Env) (c : Config) (st : State)
  : (GoError + TracerProvider) * State :=
  match createResource env c with
  | inl e => (inl (Wrapf "failed to create resource" e), st)
  | inr res =>
      match exporter_error env with
      | Some e => (inl (Wrapf "failed to create Google Cloud Trace exporter" e), st)
      | None =>
          let exporter := mkExporter (ProjectID c) (ExportTimeout c) in
          let sampler := choose_sampler (TraceRatio c) in
          let tp := mkTracerProvider res sampler exporter
                      (BatchTimeout c) (MaxBatchSize c) (MaxQueueSize c) in
          (inr tp, mkState (globalProvider st) (next_addr st) (Some tp) (otel_propagators st))
      end
  end.

(** [func (p *Provider) setupPropagation()]. *)
Definition setupPropagation (st : State) : State :=
  mkState (globalProvider st) (next_addr st) (otel_tracer_provider st)
          ["tracecontext"; "baggage"].

(** [func (p *Provider) GetTracer(name)]. *)
Definition GetTracer (tp : option TracerProvider) (st : State) (name : string) : Tracer :=
  match tp with
  | Some t => mkTracer name (Some t)
  | None => mkTracer name (otel_tracer_provider st)
  end.

(** [func NewProvider(ctx, config)], returning a provider pointer or an error. *)
Definition NewProvider (env : Env) (c : Config) (st : State)
  : (GoError + Provider) * State :=
  let c := SetDefaults env c in
  match Validate c with
  | Some e => (inl (Wrapf "invalid telemetry config" e), st)
  | None =>
      let addr := next_addr st in
      let st := mkState (globalProvider st) (S addr)
                        (otel_tracer_provider st) (otel_propagators st) in
      let '(r, st) :=
        if EnableTracing c then
          match setupTracing env c st with
          | (inl e, st) => (inl (Wrapf "failed to setup tracing" e), st)
          | (inr tp, st) => (inr (Some tp), st)
          end
        else (inr None, st) in
      match r with
      | inl e => (inl e, st)
      | inr tp =>
          let st := setupPropagation st in
          (inr (mkProvider addr tp c (Some (GetTracer tp st (ServiceName c)))), st)
      end
  end.

(** [func InitGlobal(ctx, config) error]. *)
Definition InitGlobal (env : Env) (c : Config) (st : State) : option GoError * State :=
  match NewProvider env c st with
  | (inl e, st) => (Some e, st)
  | (inr p, st) =>
      (None, mkState (Some p) (next_addr st) (otel_tracer_provider st) (otel_propagators st))
  end.

(** [func Global() *Provider]. *)
Definition Global (st : State) : option Provider := globalProvider st.

(** [func (p *Provider) GetProjectID() string] and
    [func GetGlobalProjectID() string]. *)
Definition GetProjectID (p : Provider) : string := ProjectID (config p).

Definition GetGlobalProjectID (st : State) : string :=
  match globalProvider st with
  | Some p => GetProjectID p
  | None => ""
  end.

(** The sampler a provider samples its spans with, when it has one. *)
Definition installed_sampler (p : Provider) : option Sampler :=
  tp_sampler <$> tracerProvider p.

(** The decision of the SDK's samplers, which live outside the repository,
    as the SDK documents it: the ratio sampler keeps a trace when the low
    eight bytes of its identifier, read big-endian and shifted right by
    one, are below [fraction * 2^63] (given for fractions strictly between
    0 and 1, the only ones [choose_sampler] hands to it). *)
Definition ratio_upper_bound (fraction : spec_float) : Z :=
  match fraction with
  | S754_finite false m e => Z.shiftl (Z.pos m) (e + 63)
  | _ => 0
  end.

Definition ShouldSample (s : Sampler) (trace_id_low : Z) : bool :=
  match s with
  | AlwaysSample => true
  | NeverSample => false
  | TraceIDRatioBased f => Z.ltb (Z.shiftr trace_id_low 1) (ratio_upper_bound f)
  end.


(** The state is well formed when the allocator is ahead of the provider
    the package variable points to. *)
Definition wf_state (st : State) : Prop :=
  match globalProvider st with
  | Some p => (p_addr p < next_addr st)%nat
  | None => True
  end.

(** Configurations used in examples. *)
Definition test_env : Env := mkEnv (fun _ => "") None None None.

Definition base_config : Config :=
  mkConfig "test-service" "" "" "test-project" false false f64_zero false 0 0 0 0 None.

(** [base_config] with tracing switched on and a given sampling ratio. *)
Definition tracing_config (ratio : spec_float) : Config :=
  mkConfig "test-service" "" "" "test-project" true false ratio false 0 0 0 0 None.

(** [base_config] for another project. *)
Definition other_config : Config :=
  mkConfig "test-service" "" "" "test-project-123" false false f64_zero false 0 0 0 0 None.

End Telemetry.

(** ** The request-handling world

    Handlers and middleware run against one explicit world: the response
    recorder of the request, the spans that contexts point to, the calls
    made on the structured-logging backend, the package variables of
    package logger, and the panic state of the goroutine. *)
Module Runtime.

(** Values of type [any] that the sources pass as log arguments, span
    attributes and JSON fields.  [ASeconds d] is the text
    [fmt.Sprintf("%fs", d.Seconds())] of a duration [d]. *)
#[warnings="-register-all"]
Inductive Any : Type :=
| AStr (s : string)
| AInt (z : Z)
| ABool (b : bool)
| ASeconds (nanos : Z)
| AErr (e : GoError)
| AMap (fields : list (string * Any)).

(** A [context.Context] is used for the span it carries: [Some k] points
    at span [k] of the world, [None] carries no span, in which case
    [trace.SpanFromContext] hands back the no-op span. *)
Definition Context : Type := option nat.

(** [*http.Request], with the fields the sources read.  [req_fmt] is the
    text [fmt] prints for the request under [%v]. *)
Record Request : Type := mkRequest {
  Method : string;
  RequestURI : string;
  RemoteAddr : string;
  ReqHeader : gmap string (list string);
  req_ctx : Context;
  req_fmt : string
}.

(** [http.Header.Get]: the first value stored under the key, or the empty
    string. *)
Definition header_get (h : gmap string (list string)) (k : string) : string :=
  match h !! k with
  | Some (v :: _) => v
  | _ => ""
  end.

(** The value a goroutine panics with: its dynamic type and what the
    sources use of it.  A panic value is never nil (from Go 1.21 on,
    [panic(nil)] panics with a [*runtime.PanicNilError]). *)
Inductive PanicValue : Type :=
| PanicString (s : string)
| PanicErr (e : GoError)
| PanicRequest (r : Request)
| PanicRuntime (msg : string)
| PanicOther (type_name : string) (text : string).

(** The dynamic type, as the runtime prints it. *)
Definition type_name_of (v : PanicValue) : string :=
  match v with
  | PanicString _ => "string"
  | PanicErr e => error_type e
  | PanicRequest _ => "*http.Request"
  | PanicRuntime _ => "runtime.Error"
  | PanicOther t _ => t
  end.

(** [fmt.Sprintf("%v", v)]. *)
Definition fmt_v (v : PanicValue) : string :=
  match v with
  | PanicString s => s
  | PanicErr e => error_string e
  | PanicRequest r => req_fmt r
  | PanicRuntime m => m
  | PanicOther _ t => t
  end.

(** Span status codes of the tracing API ([codes.Unset], [codes.Error],
    [codes.Ok]). *)
Inductive StatusCode : Type := Unset | Error | Ok.

Definition status_rank (c : StatusCode) : Z :=
  match c with Unset => 0 | Error => 1 | Ok => 2 end.

(** A span of the tracing backend, as far as the sources drive it. *)
Record Span : Type := mkSpan {
  sp_valid : bool;
  sp_recording : bool;
  sp_trace_id : string;
  sp_span_id : string;
  sp_sampled : bool;
  sp_status : StatusCode * string;
  sp_attrs : list (string * Any);
  sp_events : list (string * list (string * Any));
  sp_errors : list (string * list (string * Any));
  sp_ended : bool
}.

(** What has been written on the connection, one entry per write: raw
    text, or a value written by [json.Encoder.Encode] (its JSON text
    followed by a newline). *)
Inductive Chunk : Type :=
| Raw (s : string)
| JSONLine (v : Any).

(** The base [http.ResponseWriter] of a request, with the contract of
    net/http as [httptest.ResponseRecorder] implements it: the first
    [WriteHeader] fixes the status code and takes a snapshot of the header
    map, later calls are ignored; a [Write] before any [WriteHeader] first
    writes the header with status 200. *)
Record Recorder : Type := mkRecorder {
  HeaderMap : gmap string (list string);
  wroteHeader : bool;
  Code : Z;
  snapHeader : gmap string (list string);
  Body : list Chunk
}.

Definition new_recorder : Recorder := mkRecorder ∅ false 200 ∅ [].

(** The headers a client sees: the snapshot once the header is written
    ([ResponseRecorder.Result]). *)
Definition result_header (r : Recorder) : gmap string (list string) :=
  if wroteHeader r then snapHeader r else HeaderMap r.

(** The handler a logger writes through, as [createHandler] builds it. *)
#[warnings="-register-all"]
Inductive SlogHandler : Type :=
| DiscardText
| ConsoleText (min : Z)
| ConsoleJSON (min : Z)
| GCPHandler (min : Z)
| MultiHandler (hs : list SlogHandler).

(** A call on the structured-logging backend: the
    [Log(ctx, level, msg, args...)] method of a slog logger, with the
    trace name the context carries for the GCP handler ([gcp.WithTrace]),
    and the handler and bound attributes of the logger it was made on. *)
Record LogCall : Type := mkLogCall {
  lc_gcp_trace : option string;
  lc_handler : SlogHandler;
  lc_bound : list Any;
  lc_level : Z;
  lc_msg : string;
  lc_args : list Any
}.

(** [logger.Config]. *)
Record LoggerConfig : Type := mkLoggerConfig {
  lcfg_ProjectID : string;
  lcfg_ServiceName : string;
  lcfg_ServiceVersion : string;
  lcfg_LogName : string;
  lcfg_EnableConsole : bool;
  lcfg_EnableGCP : bool;
  lcfg_Level : Z;
  lcfg_Pretty : bool
}.

(** [logger.Logger]: the slog logger (its handler and the attributes
    bound by [With]) and the configuration. *)
Record LoggerT : Type := mkLogger {
  lg_handler : SlogHandler;
  lg_bound : list Any;
  lg_config : LoggerConfig
}.

(** Status cells of the [responseWriter] wrappers that middleware
    allocates: the captured status code and, for the wrapper of package
    helpers, its [written] flag. *)
Record StatusCell : Type := mkCell {
  statusCode : Z;
  written : bool
}.

(** An [http.ResponseWriter] value: the recorder of the request, or a
    [responseWriter] wrapper around another writer (the one of the root
    package, or the one of package helpers). *)
Inductive Writer : Type :=
| Base
| Wrapped (cell : nat) (inner : Writer)
| WrappedOnce (cell : nat) (inner : Writer).

Record World : Type := mkWorld {
  resp : Recorder;
  cells : gmap nat StatusCell;
  spans : gmap nat Span;
  slog_calls : list LogCall;
  stdout : list string;
  globalLogger : option LoggerT;
  once_done : bool;
  slog_default : option SlogHandler;
  panicking : option PanicValue;
  journal : list string;
  stack_trace : string;
  sniff : Chunk -> string;
  now_unix_nano : Z
}.

Definition set_resp v w := mkWorld v (cells w) (spans w) (slog_calls w) (stdout w) (globalLogger w) (once_done w) (slog_default w) (panicking w) (journal w) (stack_trace w) (sniff w) (now_unix_nano w).
Definition set_cells v w := mkWorld (resp w) v (spans w) (slog_calls w) (stdout w) (globalLogger w) (once_done w) (slog_default w) (panicking w) (journal w) (stack_trace w) (sniff w) (now_unix_nano w).
Definition set_spans v w := mkWorld (resp w) (cells w) v (slog_calls w) (stdout w) (globalLogger w) (once_done w) (slog_default w) (panicking w) (journal w) (stack_trace w) (sniff w) (now_unix_nano w).
Definition set_slog_calls v w := mkWorld (resp w) (cells w) (spans w) v (stdout w) (globalLogger w) (once_done w) (slog_default w) (panicking w) (journal w) (stack_trace w) (sniff w) (now_unix_nano w).
Definition set_stdout v w := mkWorld (resp w) (cells w) (spans w) (slog_calls w) v (globalLogger w) (once_done w) (slog_default w) (panicking w) (journal w) (stack_trace w) (sniff w) (now_unix_nano w).
Definition set_globalLogger v w := mkWorld (resp w) (cells w) (spans w) (slog_calls w) (stdout w) v (once_done w) (slog_default w) (panicking w) (journal w) (stack_trace w) (sniff w) (now_unix_nano w).
Definition set_once_done v w := mkWorld (resp w) (cells w) (spans w) (slog_calls w) (stdout w) (globalLogger w) v (slog_default w) (panicking w) (journal w) (stack_trace w) (sniff w) (now_unix_nano w).
Definition set_slog_default v w := mkWorld (resp w) (cells w) (spans w) (slog_calls w) (stdout w) (globalLogger w) (once_done w) v (panicking w) (journal w) (stack_trace w) (sniff w) (now_unix_nano w).
Definition set_panicking v w := mkWorld (resp w) (cells w) (spans w) (slog_calls w) (stdout w) (globalLogger w) (once_done w) (slog_default w) v (journal w) (stack_trace w) (sniff w) (now_unix_nano w).
Definition set_journal v w := mkWorld (resp w) (cells w) (spans w) (slog_calls w) (stdout w) (globalLogger w) (once_done w) (slog_default w) (panicking w) v (stack_trace w) (sniff w) (now_unix_nano w).

(** A fresh world: nothing written, no span, no logger initialised. *)
Definition empty_world : World :=
  mkWorld new_recorder ∅ ∅ [] [] None false None None [] "goroutine 1 [running]:"
          (fun _ => "text/plain; charset=utf-8") 0.

(** *** Running Go code

    A piece of Go code either returns a value or panics; both leave a
    world behind. *)
Inductive Res (A : Type) : Type :=
| Returned (a : A) (w : World)
| Panicked (v : PanicValue) (w : World).
Arguments Returned {A} a w.
Arguments Panicked {A} v w.

Definition M (A : Type) : Type := World -> Res A.

Definition ret {A} (a : A) : M A := fun w => Returned a w.

Definition bind {A B} (m : M A) (k : A -> M B) : M B := fun w =>
  match m w with
  | Returned a w' => k a w'
  | Panicked v w' => Panicked v w'
  end.

Declare Scope go_scope.
Delimit Scope go_scope with go.
Notation "'let*' x ':=' c1 'in' c2" := (bind c1 (fun x => c2))
  (at level 10, x name, c1 at level 100, c2 at level 200) : go_scope.
Notation "c1 ;;; c2" := (bind c1 (fun _ => c2))
  (at level 100, c2 at level 200, right associativity) : go_scope.
Local Open Scope go_scope.

Definition res_world {A} (r : Res A) : World :=
  match r with
  | Returned _ w => w
  | Panicked _ w => w
  end.

Definition get {A} (f : World -> A) : M A := fun w => Returned (f w) w.
Definition modify (f : World -> World) : M unit := fun w => Returned tt (f w).

(** [panic(v)]. *)
Definition panic_ {A} (v : PanicValue) : M A := fun w => Panicked v w.

(** How the function that calls [recover()] was itself called: run as a
    deferred call, or called like any other function. *)
Inductive CallKind : Type := DeferredCall | PlainCall.

(** [recover()]: it returns the panic value, and stops the panic, only
    when the goroutine is panicking and the caller is the deferred
    function itself; anywhere else it returns nil. *)
Definition recover_ (k : CallKind) : M (option PanicValue) := fun w =>
  match k with
  | DeferredCall => Returned (panicking w) (set_panicking None w)
  | PlainCall => Returned None w
  end.

(** [defer d(); body]: [d] runs when [body] returns or panics.  When
    [body] panics, [d] runs with the goroutine panicking; the panic goes
    on afterwards unless [d] recovered it, and a panic raised by [d]
    takes its place.  A panic that was already under way when [body] was
    entered is not visible to [d]. *)
Definition defer_ (d : M unit) (body : M unit) : M unit := fun w =>
  let outer := panicking w in
  match body w with
  | Returned _ w1 =>
      match d (set_panicking None w1) with
      | Returned _ w2 => Returned tt (set_panicking outer w2)
      | Panicked v w2 => Panicked v (set_panicking outer w2)
      end
  | Panicked v w1 =>
      match d (set_panicking (Some v) w1) with
      | Returned _ w2 =>
          match panicking w2 with
          | None => Returned tt (set_panicking outer w2)
          | Some v' => Panicked v' (set_panicking outer w2)
          end
      | Panicked v' w2 => Panicked v' (set_panicking outer w2)
      end
  end.

(** [fmt.Printf]. *)
Definition printf (s : string) : M unit :=
  modify (fun w => set_stdout (stdout w ++ [s]) w).

(** *** Spans *)

(** Apply [f] to the span a context carries; nothing happens without a
    span, on a span that does not record, and after [End]. *)
Definition update_span (ctx : Context) (f : Span -> Span) (w : World) : World :=
  match ctx with
  | None => w
  | Some k =>
      match spans w !! k with
      | Some s =>
          if sp_recording s && negb (sp_ended s)
          then set_spans (<[k := f s]> (spans w)) w
          else w
      | None => w
      end
  end.

Definition on_span (ctx : Context) (f : Span -> Span) : M unit :=
  modify (update_span ctx f).

(** [span.SetStatus(code, description)]: a status never replaces one of
    higher rank, and only [Error] keeps a description. *)
Definition span_SetStatus (ctx : Context) (c : StatusCode) (d : string) : M unit :=
  on_span ctx (fun s =>
    if Z.ltb (status_rank c) (status_rank (fst (sp_status s))) then s
    else mkSpan (sp_valid s) (sp_recording s) (sp_trace_id s) (sp_span_id s)
                (sp_sampled s) (c, match c with Error => d | _ => "" end)
                (sp_attrs s) (sp_events s) (sp_errors s) (sp_ended s)).

(** [span.SetAttributes(kv...)]. *)
Definition span_SetAttributes (ctx : Context) (kv : list (string * Any)) : M unit :=
  on_span ctx (fun s =>
    mkSpan (sp_valid s) (sp_recording s) (sp_trace_id s) (sp_span_id s)
           (sp_sampled s) (sp_status s) (sp_attrs s ++ kv) (sp_events s)
           (sp_errors s) (sp_ended s)).

(** [span.AddEvent(name, trace.WithAttributes(kv...))]. *)
Definition span_AddEvent (ctx : Context) (name : string) (kv : list (string * Any)) : M unit :=
  on_span ctx (fun s =>
    mkSpan (sp_valid s) (sp_recording s) (sp_trace_id s) (sp_span_id s)
           (sp_sampled s) (sp_status s) (sp_attrs s) (sp_events s ++ [(name, kv)])
           (sp_errors s) (sp_ended s)).

(** [span.RecordError(err, trace.WithAttributes(kv...))], with the text
    of the error. *)
Definition span_RecordError (ctx : Context) (err : string) (kv : list (string * Any)) : M unit :=
  on_span ctx (fun s =>
    mkSpan (sp_valid s) (sp_recording s) (sp_trace_id s) (sp_span_id s)
           (sp_sampled s) (sp_status s) (sp_attrs s) (sp_events s)
           (sp_errors s ++ [(err, kv)]) (sp_ended s)).

(** [span.End()]. *)
Definition span_End (ctx : Context) : M unit :=
  on_span ctx (fun s =>
    mkSpan (sp_valid s) (sp_recording s) (sp_trace_id s) (sp_span_id s)
           (sp_sampled s) (sp_status s) (sp_attrs s) (sp_events s)
           (sp_errors s) true).

(** The span a context carries, when it is a valid one
    ([span.SpanContext().IsValid()]). *)
Definition valid_span (ctx : Context) (w : World) : option Span :=
  match ctx with
  | None => None
  | Some k =>
      match spans w !! k with
      | Some s => if sp_valid s then Some s else None
      | None => None
      end
  end.

(** *** Response writers *)

(** [w.Header().Set(k, v)] and [w.Header().Del(k)]: every wrapper embeds
    the writer it wraps, so the header map is the recorder's. *)
Definition header_Set (k v : string) : M unit :=
  modify (fun w =>
    let r := resp w in
    set_resp (mkRecorder (<[k := [v]]> (HeaderMap r)) (wroteHeader r) (Code r)
                         (snapHeader r) (Body r)) w).

Definition header_Del (k : string) : M unit :=
  modify (fun w =>
    let r := resp w in
    set_resp (mkRecorder (delete k (HeaderMap r)) (wroteHeader r) (Code r)
                         (snapHeader r) (Body r)) w).

Definition recorder_WriteHeader (code : Z) (r : Recorder) : Recorder :=
  if wroteHeader r then r
  else mkRecorder (HeaderMap r) true code (HeaderMap r) (Body r).

Definition recorder_Write (sniffed : string) (c : Chunk) (r : Recorder) : Recorder :=
  let r :=
    if wroteHeader r then r
    else
      let h := HeaderMap r in
      let h := match h !! "Content-Type" with
               | Some _ => h
               | None => if String.eqb (header_get h "Transfer-Encoding") ""
                         then <["Content-Type" := [sniffed]]> h else h
               end in
      recorder_WriteHeader 200
        (mkRecorder h (wroteHeader r) (Code r) (snapHeader r) (Body r)) in
  mkRecorder (HeaderMap r) (wroteHeader r) (Code r) (snapHeader r) (Body r ++ [c]).

(** Writers made only of the recorder and of wrappers of the root
    package. *)
Fixpoint root_writer (wr : Writer) : bool :=
  match wr with
  | Base => true
  | Wrapped _ inner => root_writer inner
  | WrappedOnce _ _ => false
  end.

(** [w.WriteHeader(code)], through the wrappers down to the recorder.
    The root package's wrapper stores every code it is handed; the one of
    package helpers stores, and forwards, only the first. *)
Fixpoint WriteHeader (wr : Writer) (code : Z) : M unit :=
  match wr with
  | Base => modify (fun w => set_resp (recorder_WriteHeader code (resp w)) w)
  | Wrapped c inner =>
      modify (fun w => set_cells (<[c := mkCell code false]> (cells w)) w) ;;;
      WriteHeader inner code
  | WrappedOnce c inner =>
      let* wr_done := get (fun w => match cells w !! c with
                                    | Some cell => written cell
                                    | None => false
                                    end) in
      if wr_done then ret tt
      else
        modify (fun w => set_cells (<[c := mkCell code true]> (cells w)) w) ;;;
        WriteHeader inner code
  end.

(** [w.Write(b)]. *)
Fixpoint Write (wr : Writer) (c : Chunk) : M unit :=
  match wr with
  | Base => modify (fun w => set_resp (recorder_Write (sniff w c) c (resp w)) w)
  | Wrapped _ inner => Write inner c
  | WrappedOnce cell inner =>
      let* wr_done := get (fun w => match cells w !! cell with
                                    | Some cl => written cl
                                    | None => false
                                    end) in
      (if wr_done then ret tt else WriteHeader wr 200) ;;;
      Write inner c
  end.

(** [json.NewEncoder(w).Encode(v)]; a write on these writers does not
    fail. *)
Definition json_Encode (wr : Writer) (v : Any) : M (option GoError) :=
  Write wr (JSONLine v) ;;; ret None.

(** [http.Error(w, msg, code)]. *)
Definition http_Error (wr : Writer) (msg : string) (code : Z) : M unit :=
  header_Del "Content-Length" ;;;
  header_Set "Content-Type" "text/plain; charset=utf-8" ;;;
  header_Set "X-Content-Type-Options" "nosniff" ;;;
  WriteHeader wr code ;;;
  Write wr (Raw (msg ++ String (Ascii.ascii_of_nat 10) EmptyString)).

(** [time.Now()], as nanoseconds of the clock of the world, and the
    passing of time while a handler works. *)
Definition time_Now : M Z := get now_unix_nano.

Definition sleep (d : Z) : M unit :=
  modify (fun w => mkWorld (resp w) (cells w) (spans w) (slog_calls w) (stdout w)
                     (globalLogger w) (once_done w) (slog_default w) (panicking w)
                     (journal w) (stack_trace w) (sniff w) (now_unix_nano w + d)).

(** A note in the journal of the world, for instrumented handlers and
    for calls on collaborators. *)
Definition note (s : string) : M unit :=
  modify (fun w => set_journal (journal w ++ [s]) w).

(** [&responseWriter{ResponseWriter: w, statusCode: code}]: a new status
    cell. *)
Definition new_cell (code : Z) : M nat := fun w =>
  let c := fresh (dom (cells w)) in
  Returned c (set_cells (<[c := mkCell code false]> (cells w)) w).

(** The [statusCode] field of a wrapper. *)
Definition cell_status (c : nat) : M Z :=
  get (fun w => match cells w !! c with
                | Some cell => statusCode cell
                | None => 0
                end).

(** [http.Handler]: [ServeHTTP(w, r)]. *)
Definition Handler : Type := Writer -> Request -> M unit.

(** Lookup of a field in a JSON object. *)
Definition json_field (v : Any) (k : string) : option Any :=
  match v with
  | AMap fs => snd <$> List.find (fun kv => String.eqb (fst kv) k) fs
  | _ => None
  end.

End Runtime.

(** ** Package logger *)
Module Logger.
Import Runtime.
Local Open Scope go_scope.

(** [type Level slog.Level] and the level constants;
    [gcp.LevelCritical] is [slog.Level(12)]. *)
Definition Level : Type := Z.
Definition LevelDebug : Level := -4.
Definition LevelInfo : Level := 0.
Definition LevelWarn : Level := 4.
Definition LevelError : Level := 8.
Definition LevelCritical : Level := 12.

Definition Config : Type := LoggerConfig.
Definition Logger : Type := LoggerT.

(** [func (c *Config) SetDefaults()]. *)
Definition SetDefaults (c : Config) : Config :=
  let c := if String.eqb (lcfg_ServiceName c) ""
           then mkLoggerConfig (lcfg_ProjectID c) "default-service" (lcfg_ServiceVersion c)
                  (lcfg_LogName c) (lcfg_EnableConsole c) (lcfg_EnableGCP c)
                  (lcfg_Level c) (lcfg_Pretty c)
           else c in
  let c := if String.eqb (lcfg_ServiceVersion c) ""
           then mkLoggerConfig (lcfg_ProjectID c) (lcfg_ServiceName c) "1.0.0"
                  (lcfg_LogName c) (lcfg_EnableConsole c) (lcfg_EnableGCP c)
                  (lcfg_Level c) (lcfg_Pretty c)
           else c in
  if String.eqb (lcfg_LogName c) ""
  then mkLoggerConfig (lcfg_ProjectID c) (lcfg_ServiceName c) (lcfg_ServiceVersion c)
         (lcfg_ServiceName c) (lcfg_EnableConsole c) (lcfg_EnableGCP c)
         (lcfg_Level c) (lcfg_Pretty c)
  else c.

(** [func (c *Config) Validate() error]. *)
Definition Validate (c : Config) : option GoError :=
  if lcfg_EnableGCP c && String.eqb (lcfg_ProjectID c) ""
  then Some (Errorf "ProjectID is required when GCP logging is enabled")
  else None.

(** [func createHandler(config Config) slog.Handler]. *)
Definition createHandler (c : Config) : SlogHandler :=
  let handlers : list SlogHandler := [] in
  let handlers :=
    if lcfg_EnableConsole c then
      if lcfg_Pretty c then (handlers ++ [ConsoleText (lcfg_Level c)])%list
      else (handlers ++ [ConsoleJSON (lcfg_Level c)])%list
    else handlers in
  let handlers :=
    if lcfg_EnableGCP c then (handlers ++ [GCPHandler (lcfg_Level c)])%list else handlers in
  match handlers with
  | [] => DiscardText
  | [h] => h
  | _ => MultiHandler handlers
  end.

(** [Enabled(ctx, level)] of a handler; [multiHandler.Enabled] asks each
    of its handlers in turn.  The discarding text handler is built with
    nil options, so its threshold is [slog.LevelInfo]. *)
Fixpoint Enabled (h : SlogHandler) (level : Z) : bool :=
  match h with
  | DiscardText => Z.leb LevelInfo level
  | ConsoleText m | ConsoleJSON m | GCPHandler m => Z.leb m level
  | MultiHandler hs => existsb (fun h' => Enabled h' level) hs
  end.

(** The output streams a record reaches through a handler that does not
    fail: [multiHandler.Handle] hands the record to each of its handlers
    that is enabled for the level. *)
Fixpoint sinks (h : SlogHandler) (level : Z) : list string :=
  match h with
  | DiscardText => []
  | ConsoleText m | ConsoleJSON m => if Z.leb m level then ["stdout"] else []
  | GCPHandler m => if Z.leb m level then ["stderr"] else []
  | MultiHandler hs => flat_map (fun h' => sinks h' level) hs
  end.

(** [func NewLogger(ctx, config)], returning a logger or an error. *)
Definition NewLogger (config : Config) : GoError + Logger :=
  let config := SetDefaults config in
  match Validate config with
  | Some err => inl (Wrapf "invalid config" err)
  | None => inr (mkLogger (createHandler config) [] config)
  end.

(** [func InitGlobal(ctx, config) error]: the body runs under
    [once.Do]. *)
Definition InitGlobal (config : Config) : M (option GoError) := fun w =>
  if once_done w then Returned None w
  else
    let w := set_once_done true w in
    match NewLogger config with
    | inl err => Returned (Some err) (set_globalLogger None w)
    | inr l => Returned None (set_slog_default (Some (lg_handler l))
                               (set_globalLogger (Some l) w))
    end.

(** The logger [Global] builds when the package variable is nil. *)
Definition discard_logger : Logger :=
  mkLogger DiscardText [] (mkLoggerConfig "" "" "" "" false false 0 false).

(** [func Global() *Logger]. *)
Definition Global : M Logger :=
  get (fun w => match globalLogger w with
                | None => discard_logger
                | Some l => l
                end).

(** [func addTraceContext(ctx, projectID, attrs) []any], given the valid
    span of the context if there is one. *)
Definition addTraceContext (sp : option Span) (projectID : string) (attrs : list Any)
  : list Any :=
  match sp with
  | None => attrs
  | Some s =>
      let traceID := sp_trace_id s in
      let spanID := sp_span_id s in
      let attrs := (attrs ++ [AStr "trace_id"; AStr traceID;
                              AStr "span_id"; AStr spanID;
                              AStr "trace_sampled"; ABool (sp_sampled s)])%list in
      if negb (String.eqb projectID "") then
        let traceStr := "projects/" ++ projectID ++ "/traces/" ++ traceID in
        (attrs ++ [AStr "logging.googleapis.com/trace"; AStr traceStr;
                   AStr "logging.googleapis.com/spanId"; AStr spanID;
                   AStr "logging.googleapis.com/trace_sampled"; ABool (sp_sampled s)])%list
      else attrs
  end.

(** [func (l *Logger) enrichContext(ctx) context.Context]: the trace name
    it attaches to the context, if any. *)
Definition enrichContext (l : Logger) (sp : option Span) : option string :=
  match sp with
  | None => None
  | Some s =>
      if negb (String.eqb (lcfg_ProjectID (lg_config l)) "")
      then Some ("projects/" ++ lcfg_ProjectID (lg_config l) ++ "/traces/" ++ sp_trace_id s)
      else None
  end.

(** [l.logger.Log(ctx, level, msg, args...)]. *)
Definition slog_Log (l : Logger) (ctx_trace : option string) (level : Z) (msg : string)
    (args : list Any) : M unit :=
  modify (fun w =>
    set_slog_calls
      (slog_calls w ++ [mkLogCall ctx_trace (lg_handler l) (lg_bound l) level msg args]) w).

(** [Debug], [Info], [Warn], [Error], [Critical]. *)
Definition Debug (l : Logger) msg args : M unit := slog_Log l None LevelDebug msg args.
Definition Info (l : Logger) msg args : M unit := slog_Log l None LevelInfo msg args.
Definition Warn (l : Logger) msg args : M unit := slog_Log l None LevelWarn msg args.
Definition Error (l : Logger) msg args : M unit := slog_Log l None LevelError msg args.
Definition Critical (l : Logger) msg args : M unit := slog_Log l None LevelCritical msg args.

(** The five [...Context] methods share one body up to the level. *)
Definition logContext (level : Z) (l : Logger) (ctx : Context) (msg : string)
    (args : list Any) : M unit :=
  let* sp := get (valid_span ctx) in
  let args := addTraceContext sp (lcfg_ProjectID (lg_config l)) args in
  slog_Log l (enrichContext l sp) level msg args.

Definition DebugContext := logContext LevelDebug.
Definition InfoContext := logContext LevelInfo.
Definition WarnContext := logContext LevelWarn.
Definition ErrorContext := logContext LevelError.
Definition CriticalContext := logContext LevelCritical.

(** [func isSystemLogField(key string) bool]. *)
Definition isSystemLogField (key : string) : bool :=
  String.eqb key "logging.googleapis.com/trace" ||
  String.eqb key "logging.googleapis.com/spanId" ||
  String.eqb key "logging.googleapis.com/trace_sampled" ||
  String.eqb key "trace_id" ||
  String.eqb key "span_id" ||
  String.eqb key "trace_sampled".

(** The loop of [addLogToSpan] over the argument list, two at a time: a
    pair whose key is a string that is no system field becomes the
    attribute [log.<key>]; a trailing key without value is skipped. *)
Fixpoint log_attrs (args : list Any) : list (string * Any) :=
  match args with
  | k :: v :: rest =>
      match k with
      | AStr key =>
          if negb (isSystemLogField key) then ("log." ++ key, v) :: log_attrs rest
          else log_attrs rest
      | _ => log_attrs rest
      end
  | _ => []
  end.

(** [slog.Level(level).String()] for the five levels of the package. *)
Definition level_string (level : Z) : string :=
  if Z.eqb level LevelDebug then "DEBUG"
  else if Z.eqb level LevelInfo then "INFO"
  else if Z.eqb level LevelWarn then "WARN"
  else if Z.eqb level LevelError then "ERROR"
  else if Z.eqb level LevelCritical then "ERROR+4"
  else "".

(** [func (l *Logger) addLogToSpan(ctx, span, level, msg, err, args...)]. *)
Definition addLogToSpan (span : Context) (level : Z) (msg : string)
    (err : option GoError) (args : list Any) : M unit :=
  let* sp := get (valid_span span) in
  match sp with
  | None => ret tt
  | Some _ =>
      let attrs := ([("log.severity", AStr (level_string level));
                     ("log.message", AStr msg)] ++ log_attrs args)%list in
      span_AddEvent span "log" attrs ;;;
      if Z.eqb level LevelError || Z.eqb level LevelCritical then
        match err with
        | Some e =>
            span_RecordError span (error_string e)
              [("error.message", AStr (error_string e));
               ("error.type", AStr (error_type e))] ;;;
            span_SetStatus span Runtime.Error msg
        | None => span_SetStatus span Runtime.Error msg
        end
      else ret tt
  end.

(** [func (l *Logger) With(args ...any) *Logger] and
    [func (l *Logger) WithLogName(logName string) *Logger]. *)
Definition With (l : Logger) (args : list Any) : Logger :=
  mkLogger (lg_handler l) (lg_bound l ++ args) (lg_config l).

Definition WithLogName (l : Logger) (logName : string) : Logger :=
  let c := lg_config l in
  mkLogger (lg_handler l) (lg_bound l ++ [AStr "log_name"; AStr logName])
    (mkLoggerConfig (lcfg_ProjectID c) (lcfg_ServiceName c) (lcfg_ServiceVersion c)
       logName (lcfg_EnableConsole c) (lcfg_EnableGCP c) (lcfg_Level c) (lcfg_Pretty c)).

(** [func (l *Logger) WithTrace(ctx) *Logger]. *)
Definition WithTrace (l : Logger) (sp : option Span) : Logger :=
  match sp with
  | None => l
  | Some s => With l [AStr "trace_id"; AStr (sp_trace_id s);
                      AStr "span_id"; AStr (sp_span_id s)]
  end.

(** [func (l *Logger) LogHTTPRequest(ctx, method, path, statusCode,
    duration, args...)]. *)
Definition LogHTTPRequest (l : Logger) (ctx : Context) (method path : string)
    (statusCode : Z) (duration : Z) (args : list Any) : M unit :=
  let level := LevelInfo in
  let msg := "HTTP request completed" in
  let '(level, msg) :=
    if Z.leb 500 statusCode then (LevelError, "HTTP request failed")
    else if Z.leb 400 statusCode then (LevelWarn, "HTTP request client error")
    else (level, msg) in
  let logArgs := [AStr "http.method"; AStr method;
                  AStr "http.path"; AStr path;
                  AStr "http.status_code"; AInt statusCode;
                  AStr "duration_ms"; AInt (Z.quot duration 1000000)] in
  let logArgs := (logArgs ++ [AStr "httpRequest";
                              AMap [("requestMethod", AStr method);
                                    ("requestUrl", AStr path);
                                    ("status", AInt statusCode);
                                    ("latency", ASeconds duration)]])%list in
  let logArgs := (logArgs ++ args)%list in
  let* sp := get (valid_span ctx) in
  let logArgs := addTraceContext sp (lcfg_ProjectID (lg_config l)) logArgs in
  slog_Log l (enrichContext l sp) level msg logArgs.

(** [func (l *Logger) LogError(ctx, err, msg, args...)]. *)
Definition LogError (l : Logger) (ctx : Context) (err : option GoError)
    (msg : string) (args : list Any) : M unit :=
  match err with
  | None => ErrorContext l ctx msg args
  | Some e =>
      let errorArgs := ([AStr "error"; AStr (error_string e);
                         AStr "error.type"; AStr (error_type e)] ++ args)%list in
      let* sp := get (valid_span ctx) in
      let errorArgs := addTraceContext sp (lcfg_ProjectID (lg_config l)) errorArgs in
      span_RecordError ctx (error_string e)
        [("error.message", AStr (error_string e));
         ("error.type", AStr (error_type e))] ;;;
      span_SetStatus ctx Runtime.Error msg ;;;
      slog_Log l (enrichContext l sp) LevelError msg errorArgs
  end.

(** [func (l *Logger) LogPanic(ctx)].  [how] says how this very call was
    made, which decides what its [recover()] returns. *)
Definition LogPanic (how : CallKind) (l : Logger) (ctx : Context) : M unit :=
  let* r := recover_ how in
  match r with
  | Some v =>
      let* stackTrace := get stack_trace in
      let logArgs := [AStr "panic.value"; AStr (fmt_v v);
                      AStr "panic.stack_trace"; AStr stackTrace] in
      let* sp := get (valid_span ctx) in
      let logArgs := addTraceContext sp (lcfg_ProjectID (lg_config l)) logArgs in
      span_SetStatus ctx Runtime.Error "panic recovered" ;;;
      span_RecordError ctx ("panic: " ++ fmt_v v)
        [("panic.value", AStr (fmt_v v)); ("panic.stack_trace", AStr stackTrace)] ;;;
      slog_Log l (enrichContext l sp) LevelCritical "Panic recovered" logArgs ;;;
      panic_ v
  | None => ret tt
  end.

(** [func (l *Logger) SetLevel(level Level)]. *)
Definition SetLevel (l : Logger) (level : Z) : Logger :=
  let c := lg_config l in
  let c := mkLoggerConfig (lcfg_ProjectID c) (lcfg_ServiceName c) (lcfg_ServiceVersion c)
             (lcfg_LogName c) (lcfg_EnableConsole c) (lcfg_EnableGCP c) level
             (lcfg_Pretty c) in
  mkLogger (createHandler c) [] c.

(** [func (l *Logger) Close() error]: there is nothing to release. *)
Definition Close (l : Logger) : M (option GoError) :=
  note "logger.Close" ;;;
  ret None.

(** [func Shutdown(ctx) error]. *)
Definition Shutdown : M (option GoError) :=
  let* g := get globalLogger in
  match g with
  | Some l => Close l
  | None => ret None
  end.

(** The records of level [level] among the calls made on the backend. *)
Definition calls_at (level : Z) (w : World) : list LogCall :=
  filter (fun c => lc_level c = level) (slog_calls w).

End Logger.

(** ** The root package: middleware.go and client.go *)
Module Middleware.
Import Runtime.
Local Open Scope go_scope.

(** A middleware: [func(http.Handler) http.Handler]. *)
Abbreviation MiddlewareT := (Handler -> Handler).

(** [r.UserAgent()]. *)
Definition UserAgent (r : Request) : string := header_get (ReqHeader r) "User-Agent".

(** [func Logging(next http.Handler) http.Handler].  The wrapper it hands
    to [next] is the root package's [responseWriter]. *)
Definition Logging (next : Handler) : Handler := fun w r =>
  let* start := time_Now in
  let* cell := new_cell 200 in
  let wrapped := Wrapped cell w in
  let span := req_ctx r in
  next wrapped r ;;;
  let* now := time_Now in
  let duration := now - start in
  let* code := cell_status cell in
  span_SetAttributes span
    [("http.method", AStr (Method r));
     ("http.url", AStr (RequestURI r));
     ("http.remote_addr", AStr (RemoteAddr r));
     ("http.status_code", AInt code);
     ("http.duration_ms", AInt (Z.quot duration 1000000))] ;;;
  (if Z.leb 400 code
   then span_SetStatus span Error ("HTTP " ++ pretty code)%string
   else ret tt) ;;;
  let* l := Logger.Global in
  Logger.LogHTTPRequest l (req_ctx r) (Method r) (RequestURI r) code duration
    [AStr "remote_addr"; AStr (RemoteAddr r);
     AStr "user_agent"; AStr (UserAgent r)].

(** The five headers [CORS] sets on every response. *)
Definition cors_headers : list (string * string) :=
  [("Access-Control-Allow-Origin", "*");
   ("Access-Control-Allow-Methods", "GET, POST, PUT, DELETE, OPTIONS");
   ("Access-Control-Allow-Headers",
    "Accept, Content-Type, Content-Length, Accept-Encoding, X-CSRF-Token, Authorization, X-User-Email, X-User-Groups");
   ("Access-Control-Allow-Credentials", "true");
   ("Access-Control-Max-Age", "86400")].

(** [func CORS(next http.Handler) http.Handler]. *)
Definition CORS (next : Handler) : Handler := fun w r =>
  span_AddEvent (req_ctx r) "cors.processing"
    [("cors.origin", AStr (header_get (ReqHeader r) "Origin"));
     ("cors.method", AStr (Method r))] ;;;
  header_Set "Access-Control-Allow-Origin" "*" ;;;
  header_Set "Access-Control-Allow-Methods" "GET, POST, PUT, DELETE, OPTIONS" ;;;
  header_Set "Access-Control-Allow-Headers"
    "Accept, Content-Type, Content-Length, Accept-Encoding, X-CSRF-Token, Authorization, X-User-Email, X-User-Groups" ;;;
  header_Set "Access-Control-Allow-Credentials" "true" ;;;
  header_Set "Access-Control-Max-Age" "86400" ;;;
  if String.eqb (Method r) "OPTIONS" then
    header_Set "Content-Type" "text/plain" ;;;
    WriteHeader w 204 ;;;
    span_SetAttributes (req_ctx r) [("cors.preflight", ABool true)]
  else
    next w r.

(** [func CorsMiddleware(next http.HandlerFunc) http.HandlerFunc]. *)
Definition CorsMiddleware (next : Handler) : Handler := fun w r => CORS next w r.

(** The body of the function [Recovery] defers. *)
Definition recovery_deferred (w : Writer) (r : Request) : M unit :=
  let* err := recover_ DeferredCall in
  match err with
  | Some v =>
      span_SetStatus (req_ctx r) Error "panic recovered" ;;;
      span_RecordError (req_ctx r) ("panic: " ++ fmt_v v)%string
        [("panic.value", AStr (fmt_v v))] ;;;
      (let* l := Logger.Global in Logger.LogPanic PlainCall l (req_ctx r)) ;;;
      header_Set "Content-Type" "application/json" ;;;
      WriteHeader w 500 ;;;
      let errorResponse :=
        AMap [("code", AInt 500);
              ("details", AMap [("panic", AStr (fmt_v v))]);
              ("error", AStr "Internal server error")] in
      let* encErr := json_Encode w errorResponse in
      match encErr with
      | Some e => printf ("Failed to encode error response: " ++ error_string e)%string
      | None => ret tt
      end
  | None => ret tt
  end.

(** [func Recovery(next http.Handler) http.Handler]. *)
Definition Recovery (next : Handler) : Handler := fun w r =>
  defer_ (recovery_deferred w r) (next w r).

(** [func RequestID(next http.Handler) http.Handler].  Header keys are
    kept in the canonical form [http.Header] stores them in, so
    [X-Request-ID] reads and writes the key [X-Request-Id]. *)
Definition RequestID (next : Handler) : Handler := fun w r =>
  let requestID := header_get (ReqHeader r) "X-Request-Id" in
  let* requestID :=
    if String.eqb requestID "" then
      let* sp := get (valid_span (req_ctx r)) in
      let requestID := match sp with
                       | Some s => sp_trace_id s
                       | None => requestID
                       end in
      if String.eqb requestID "" then
        let* now := time_Now in ret (pretty now)
      else ret requestID
    else ret requestID in
  span_SetAttributes (req_ctx r) [("http.request_id", AStr requestID)] ;;;
  header_Set "X-Request-Id" requestID ;;;
  next w r.

(** [type MiddlewareChain struct]. *)
Record MiddlewareChain : Type := mkChain {
  middlewares : list MiddlewareT
}.

(** [func NewChain(middlewares ...)]. *)
Definition NewChain (mws : list MiddlewareT) : MiddlewareChain := mkChain mws.

(** The loop of [Then]: [for i := len - 1; i >= 0; i-- { handler =
    mc.middlewares[i](handler) }], entered with [n = i + 1].  The index
    is always in range; were it not, the handler would be left as it is. *)
Fixpoint then_loop (mws : list MiddlewareT) (n : nat) (handler : Handler) : Handler :=
  match n with
  | O => handler
  | S i =>
      match mws !! i with
      | Some m => then_loop mws i (m handler)
      | None => handler
      end
  end.

(** [func (mc *MiddlewareChain) Then(handler http.Handler) http.Handler]. *)
Definition Then (mc : MiddlewareChain) (handler : Handler) : Handler :=
  then_loop (middlewares mc) (length (middlewares mc)) handler.

(** [func (mc *MiddlewareChain) ThenFunc(handlerFunc)]. *)
Definition ThenFunc (mc : MiddlewareChain) (handlerFunc : Handler) : Handler :=
  Then mc handlerFunc.

(** [func (mc *MiddlewareChain) Append(middlewares ...)]: the chain after
    the call (the method updates the chain in place and returns it). *)
Definition Append (mc : MiddlewareChain) (mws : list MiddlewareT) : MiddlewareChain :=
  mkChain (middlewares mc ++ mws).

(** [func (c *Client) StandardChain(operationName)] and
    [func (c *Client) APIChain(operationName, timeout)].  The two
    middleware built on collaborators, [OTelHTTP(operationName)] and
    [Timeout(timeout)], are taken as given. *)
Definition StandardChain (otel : MiddlewareT) : MiddlewareChain :=
  NewChain [otel; RequestID; Logging; Recovery; CORS].

Definition APIChain (otel : MiddlewareT) (timeoutMw : Z -> MiddlewareT) (timeout : Z)
  : MiddlewareChain :=
  let chain := NewChain [otel; RequestID; Logging; Recovery] in
  let chain := if Z.ltb 0 timeout then Append chain [timeoutMw timeout] else chain in
  Append chain [CORS].

(** [func (c *Client) HTTPHandler(handler, operationName)] and
    [func (c *Client) Handler(handler, operationName)]. *)
Definition HTTPHandler (otel : MiddlewareT) (handler : Handler) : Handler :=
  otel (RequestID (Logging (Recovery (CORS handler)))).

Definition ClientHandler (otel : MiddlewareT) (handler : Handler) : Handler :=
  otel (RequestID (Logging (Recovery handler))).

(** A middleware with a hook before and a hook after the call of the
    next handler, and the one that notes its entry and its exit in the
    journal. *)
Definition hooked (pre post : Handler) : MiddlewareT := fun next w r =>
  pre w r ;;;
  next w r ;;;
  post w r.

Definition instrumented (name : string) : MiddlewareT :=
  hooked (fun _ _ => note (name ++ ":pre")%string)
         (fun _ _ => note (name ++ ":post")%string).

(** The hooks of a list of handlers, run one after the other. *)
Fixpoint run_all (hs : list Handler) (w : Writer) (r : Request) : M unit :=
  match hs with
  | [] => ret tt
  | h :: rest => h w r ;;; run_all rest w r
  end.

(** *** client.go *)

(** [type Config struct] of the root package. *)
Record Config : Type := mkConfig {
  ServiceName : string;
  ServiceVersion : string;
  Environment : string;
  ProjectID : string;
  LogName : string;
  EnableConsole : bool;
  EnableGCP : bool;
  LogLevel : Z;
  PrettyLog : bool;
  EnableTracing : bool;
  EnableMetrics : bool;
  TraceRatio : spec_float;
  Attributes : option (gmap string string)
}.

(** [func (c *Config) SetDefaults()]. *)
Definition SetDefaults (c : Config) : Config :=
  let c := if String.eqb (ServiceName c) ""
           then mkConfig "default-service" (ServiceVersion c) (Environment c) (ProjectID c)
                  (LogName c) (EnableConsole c) (EnableGCP c) (LogLevel c) (PrettyLog c)
                  (EnableTracing c) (EnableMetrics c) (TraceRatio c) (Attributes c)
           else c in
  let c := if String.eqb (ServiceVersion c) ""
           then mkConfig (ServiceName c) "1.0.0" (Environment c) (ProjectID c)
                  (LogName c) (EnableConsole c) (EnableGCP c) (LogLevel c) (PrettyLog c)
                  (EnableTracing c) (EnableMetrics c) (TraceRatio c) (Attributes c)
           else c in
  let c := if String.eqb (Environment c) ""
           then mkConfig (ServiceName c) (ServiceVersion c) "production" (ProjectID c)
                  (LogName c) (EnableConsole c) (EnableGCP c) (LogLevel c) (PrettyLog c)
                  (EnableTracing c) (EnableMetrics c) (TraceRatio c) (Attributes c)
           else c in
  let c := if String.eqb (LogName c) ""
           then mkConfig (ServiceName c) (ServiceVersion c) (Environment c) (ProjectID c)
                  (ServiceName c) (EnableConsole c) (EnableGCP c) (LogLevel c) (PrettyLog c)
                  (EnableTracing c) (EnableMetrics c) (TraceRatio c) (Attributes c)
           else c in
  let c := if f64_eq (TraceRatio c) f64_zero
           then mkConfig (ServiceName c) (ServiceVersion c) (Environment c) (ProjectID c)
                  (LogName c) (EnableConsole c) (EnableGCP c) (LogLevel c) (PrettyLog c)
                  (EnableTracing c) (EnableMetrics c) f64_tenth (Attributes c)
           else c in
  if Z.eqb (LogLevel c) 0
  then mkConfig (ServiceName c) (ServiceVersion c) (Environment c) (ProjectID c)
         (LogName c) (EnableConsole c) (EnableGCP c) Logger.LevelInfo (PrettyLog c)
         (EnableTracing c) (EnableMetrics c) (TraceRatio c) (Attributes c)
  else c.

(** [func (c *Config) Validate() error]. *)
Definition Validate (c : Config) : option GoError :=
  if String.eqb (ServiceName c) "" then Some (Errorf "ServiceName is required")
  else if String.eqb (ProjectID c) "" then Some (Errorf "ProjectID is required")
  else if f64_lt (TraceRatio c) f64_zero || f64_gt (TraceRatio c) f64_one then
    Some (Errorf "TraceRatio must be between 0.0 and 1.0")
  else None.

(** [type Client struct]. *)
Record Client : Type := mkClient {
  client_config : Config;
  client_logger : Logger.Logger;
  client_telemetry : option Telemetry.Provider
}.

(** [func (p *Provider) Shutdown(ctx) error] of package telemetry: the
    result of the SDK's tracer-provider shutdown, [sdk], when the provider
    has a tracer provider, nil otherwise. *)
Definition telemetry_Shutdown (sdk : option GoError) (p : Telemetry.Provider)
  : M (option GoError) :=
  note "telemetry.Shutdown" ;;;
  match Telemetry.tracerProvider p with
  | Some _ => ret sdk
  | None => ret None
  end.

(** [func (c *Client) Shutdown(ctx) error]. *)
Definition Shutdown (sdk : option GoError) (c : Client) (ctx : Context)
  : M (option GoError) :=
  Logger.InfoContext (client_logger c) ctx "Shutting down middleware client" [] ;;;
  let* telErr :=
    match client_telemetry c with
    | Some p => telemetry_Shutdown sdk p
    | None => ret None
    end in
  match telErr with
  | Some err =>
      Logger.ErrorContext (client_logger c) ctx "Failed to shutdown telemetry"
        [AStr "error"; AErr err] ;;;
      ret (Some (Wrapf "failed to shutdown telemetry" err))
  | None =>
      let* closeErr := Logger.Close (client_logger c) in
      match closeErr with
      | Some err => ret (Some (Wrapf "failed to close logger" err))
      | None => ret None
      end
  end.

End Middleware.

(** ** Package helpers: helpers/http.go *)
Module Helpers.
Import Runtime.
Local Open Scope go_scope.

(** The panic of a failed type assertion [x.(T)] on a value [v]. *)
Definition type_assertion_error (v : PanicValue) (target : string) : PanicValue :=
  PanicRuntime ("interface conversion: interface {} is " ++ type_name_of v
                ++ ", not " ++ target)%string.

(** The function [RecoverMiddleware] defers.  Inside it [r] names the
    recovered value, which is asserted to be a request. *)
Definition recover_deferred (log : Logger.Logger) (w : Writer) : M unit :=
  let* rv := recover_ DeferredCall in
  match rv with
  | Some v =>
      match v with
      | PanicRequest req =>
          let ctx := req_ctx req in
          Logger.LogPanic PlainCall log ctx ;;;
          span_End ctx ;;;
          http_Error w "Internal Server Error" 500
      | _ => panic_ (type_assertion_error v "*http.Request")
      end
  | None => ret tt
  end.

(** [func RecoverMiddleware(log *logger.Logger) func(http.Handler)
    http.Handler]. *)
Definition RecoverMiddleware (log : Logger.Logger) (next : Handler) : Handler :=
  fun w r => defer_ (recover_deferred log w) (next w r).

(** [func ExtractTraceContext(r *http.Request) context.Context]. *)
Definition ExtractTraceContext (r : Request) : Context := req_ctx r.

End Helpers.

(** ** The root package: the constructor of client.go *)
Module ClientInit.
Import Runtime Middleware.
Local Open Scope go_scope.

(** The [logger.Config] literal [NewClient] builds. *)
Definition logger_config (config : Config) : Logger.Config :=
  mkLoggerConfig (ProjectID config) (ServiceName config) (ServiceVersion config)
    (LogName config) (EnableConsole config) (EnableGCP config) (LogLevel config)
    (PrettyLog config).

(** The [telemetry.Config] literal [NewClient] builds; the fields it does
    not name keep their zero values. *)
Definition telemetry_config (config : Config) : Telemetry.Config :=
  Telemetry.mkConfig (ServiceName config) (ServiceVersion config) (Environment config)
    (ProjectID config) (EnableTracing config) (EnableMetrics config) (TraceRatio config)
    false 0 0 0 0 (Attributes config).

(** The telemetry part of [NewClient], run when tracing is enabled: a
    provider for the client, then the package-level one. *)
Definition init_telemetry (env : Telemetry.Env) (config : Config) (st : Telemetry.State)
  : (GoError + option Telemetry.Provider) * Telemetry.State :=
  if EnableTracing config then
    let telemetryConfig := telemetry_config config in
    match Telemetry.NewProvider env telemetryConfig st with
    | (inl err, st) => (inl (Wrapf "failed to initialize telemetry" err), st)
    | (inr provider, st) =>
        match Telemetry.InitGlobal env telemetryConfig st with
        | (Some err, st) => (inl (Wrapf "failed to initialize global telemetry" err), st)
        | (None, st) => (inr (Some provider), st)
        end
    end
  else (inr None, st).

(** [func NewClient(ctx, config)], returning a client or an error, and the
    state of package telemetry it leaves. *)
Definition NewClient (env : Telemetry.Env) (ctx : Context) (config : Config)
    (st : Telemetry.State) : M ((GoError + Client) * Telemetry.State) :=
  let config := SetDefaults config in
  match Validate config with
  | Some err => ret (inl (Wrapf "invalid config" err), st)
  | None =>
      let loggerConfig := logger_config config in
      match Logger.NewLogger loggerConfig with
      | inl err => ret (inl (Wrapf "failed to initialize logger" err), st)
      | inr log =>
          let* gerr := Logger.InitGlobal loggerConfig in
          match gerr with
          | Some err => ret (inl (Wrapf "failed to initialize global logger" err), st)
          | None =>
              match init_telemetry env config st with
              | (inl err, st) => ret (inl err, st)
              | (inr tel, st) =>
                  Logger.InfoContext log ctx "Middleware client initialized"
                    [AStr "service"; AStr (ServiceName config);
                     AStr "version"; AStr (ServiceVersion config);
                     AStr "environment"; AStr (Environment config);
                     AStr "tracing_enabled"; ABool (EnableTracing config)] ;;;
                  ret (inr (mkClient config log tel), st)
              end
          end
      end
  end.

End ClientInit.

(** ** Package telemetry: the span helpers of tracing.go *)
Module Tracing.
Import Runtime.
Local Open Scope go_scope.

(** The span a context carries, valid or not; a context without a span
    yields the no-op span, whose span context is all zero. *)
Definition span_of (ctx : Context) (w : World) : option Span :=
  match ctx with
  | Some k => spans w !! k
  | None => None
  end.

(** [func RecordError(span, err, description, attrs...)]. *)
Definition RecordError (span : Context) (err : option GoError) (description : string)
    (attrs : list (string * Any)) : M unit :=
  match err with
  | None => ret tt
  | Some e =>
      span_SetStatus span Error description ;;;
      let allAttrs := ([("error.type", AStr (error_type e));
                        ("error.message", AStr (error_string e))] ++ attrs)%list in
      span_RecordError span (error_string e) allAttrs
  end.

(** [func RecordErrorContext(ctx, err, description, attrs...)]. *)
Definition RecordErrorContext (ctx : Context) (err : option GoError) (description : string)
    (attrs : list (string * Any)) : M unit :=
  RecordError ctx err description attrs.

(** [func AddSpanAttributes(span, attrs...)] and
    [func AddSpanAttributesContext(ctx, attrs...)]. *)
Definition AddSpanAttributes (span : Context) (attrs : list (string * Any)) : M unit :=
  if Nat.ltb 0 (length attrs) then span_SetAttributes span attrs else ret tt.

Definition AddSpanAttributesContext (ctx : Context) (attrs : list (string * Any)) : M unit :=
  AddSpanAttributes ctx attrs.

(** [func SetSpanStatus(span, code, description)] and
    [func SetSpanStatusContext(ctx, code, description)]. *)
Definition SetSpanStatus (span : Context) (code : StatusCode) (description : string) : M unit :=
  span_SetStatus span code description.

Definition SetSpanStatusContext (ctx : Context) (code : StatusCode) (description : string)
  : M unit :=
  SetSpanStatus ctx code description.

(** [func GetTraceID(ctx) string] and [func GetSpanID(ctx) string]. *)
Definition GetTraceID (ctx : Context) (w : World) : string :=
  match span_of ctx w with
  | Some s => if sp_valid s then sp_trace_id s else ""
  | None => ""
  end.

Definition GetSpanID (ctx : Context) (w : World) : string :=
  match span_of ctx w with
  | Some s => if sp_valid s then sp_span_id s else ""
  | None => ""
  end.

(** [func GetTraceContext(ctx) (traceID, spanID string, sampled bool)]. *)
Definition GetTraceContext (ctx : Context) (w : World) : string * string * bool :=
  match span_of ctx w with
  | Some s => if sp_valid s then (sp_trace_id s, sp_span_id s, sp_sampled s)
              else ("", "", false)
  | None => ("", "", false)
  end.

(** [func IsTraceEnabled(ctx) bool] and [func IsSampled(ctx) bool]. *)
Definition IsTraceEnabled (ctx : Context) (w : World) : bool :=
  match span_of ctx w with
  | Some s => sp_valid s
  | None => false
  end.

Definition IsSampled (ctx : Context) (w : World) : bool :=
  match span_of ctx w with
  | Some s => sp_sampled s
  | None => false
  end.

(** [defer d(); body] in a function with one unnamed result: when [d]
    recovers a panic of [body] the function returns the zero value. *)
Definition defer_value {A} (zero : A) (d : M unit) (body : M A) : M A := fun w =>
  let outer := panicking w in
  match body w with
  | Returned a w1 =>
      match d (set_panicking None w1) with
      | Returned _ w2 => Returned a (set_panicking outer w2)
      | Panicked v w2 => Panicked v (set_panicking outer w2)
      end
  | Panicked v w1 =>
      match d (set_panicking (Some v) w1) with
      | Returned _ w2 =>
          match panicking w2 with
          | None => Returned zero (set_panicking outer w2)
          | Some v' => Panicked v' (set_panicking outer w2)
          end
      | Panicked v' w2 => Panicked v' (set_panicking outer w2)
      end
  end.

(** [func TraceFunction(ctx, spanName, fn) error].  The span is the one
    the tracer starts: [start] stands for
    [StartSpanFromContext(ctx, spanName)] and yields the context that
    carries it. *)
Definition TraceFunction (start : M Context) (fn : Context -> M (option GoError))
  : M (option GoError) :=
  let* span := start in
  defer_value None (span_End span)
    (let* t0 := time_Now in
     let* err := fn span in
     let* t1 := time_Now in
     span_SetAttributes span [("duration_ms", AInt (Z.quot (t1 - t0) 1000000))] ;;;
     (match err with
      | Some _ => RecordError span err "function execution failed" []
      | None => ret tt
      end) ;;;
     ret err).

End Tracing.

(** ** Package logger: the methods that take an explicit span *)
Module LoggerSpan.
Import Runtime Logger.
Local Open Scope go_scope.

(** [DebugWithSpan], [InfoWithSpan], [WarnWithSpan], [ErrorWithSpan]. *)
Definition DebugWithSpan (l : Logger) (ctx span : Context) msg args : M unit :=
  addLogToSpan span LevelDebug msg None args ;;;
  DebugContext l ctx msg args.

Definition InfoWithSpan (l : Logger) (ctx span : Context) msg args : M unit :=
  addLogToSpan span LevelInfo msg None args ;;;
  InfoContext l ctx msg args.

Definition WarnWithSpan (l : Logger) (ctx span : Context) msg args : M unit :=
  addLogToSpan span LevelWarn msg None args ;;;
  WarnContext l ctx msg args.

Definition ErrorWithSpan (l : Logger) (ctx span : Context) msg args : M unit :=
  addLogToSpan span LevelError msg None args ;;;
  ErrorContext l ctx msg args.

(** [func (l *Logger) LogErrorWithSpan(ctx, span, err, msg, args...)]. *)
Definition LogErrorWithSpan (l : Logger) (ctx span : Context) (err : option GoError)
    (msg : string) (args : list Any) : M unit :=
  match err with
  | None => ErrorWithSpan l ctx span msg args
  | Some e =>
      let errorArgs := ([AStr "error"; AStr (error_string e);
                         AStr "error.type"; AStr (error_type e)] ++ args)%list in
      span_RecordError span (error_string e)
        [("error.message", AStr (error_string e));
         ("error.type", AStr (error_type e))] ;;;
      span_SetStatus span Runtime.Error msg ;;;
      addLogToSpan span LevelError msg err errorArgs ;;;
      let* sp := get (valid_span ctx) in
      let errorArgs := addTraceContext sp (lcfg_ProjectID (lg_config l)) errorArgs in
      slog_Log l (enrichContext l sp) LevelError msg errorArgs
  end.

End LoggerSpan.
(** ** Properties of package telemetry *)
Module TelemetryProps.
Import Telemetry.

(** *** binary64 comparisons *)

Lemma f64_constants_valid :
  f64_valid f64_zero = true /\ f64_valid f64_one = true /\
  f64_valid f64_tenth = true /\ f64_valid f64_half = true /\
  f64_valid f64_one_and_half = true.
Proof. repeat split; reflexivity. Qed.

(** A value that compares equal to zero is one of the two zeros. *)
Lemma f64_eq_zero_inv r : f64_eq r f64_zero = true -> exists s, r = S754_zero s.
Proof.
  destruct r as [s|s| |s m e]; cbn; try discriminate.
  - intros _. now exists s.
  - destruct s; discriminate.
  - destruct s; discriminate.
Qed.

(** A value that compares equal to 1.0 is the (canonical) 1.0. *)
Lemma f64_eq_one_inv r : f64_eq r f64_one = true -> r = f64_one.
Proof.
  unfold f64_eq, f64_one, SFeqb, SFcompare.
  generalize 4503599627370496%positive as p. intros p.
  destruct r as [s|s| |s m e]; try destruct s; try discriminate.
  destruct (Z.compare e (-52)) eqn:He; try discriminate.
  destruct (Pos.compare_cont Eq m p) eqn:Hm; try discriminate.
  intros _. apply Z.compare_eq in He. apply Pos.compare_eq in Hm.
  now subst.
Qed.

(** After the zero test fails, and with [r < 0] excluded, [r <= 0] fails. *)
Lemma f64_le_zero_split r :
  f64_le r f64_zero = true -> f64_eq r f64_zero = true \/ f64_lt r f64_zero = true.
Proof.
  unfold f64_le, f64_eq, f64_lt, SFleb, SFeqb, SFltb.
  destruct (SFcompare r f64_zero) as [[ | | ]|]; intros H; try discriminate; auto.
Qed.

(** *** [SetDefaults], field by field *)

Lemma SetDefaults_stages env c :
  SetDefaults env c =
  d_Attributes (d_MaxQueueSize (d_MaxBatchSize (d_BatchTimeout (d_ExportTimeout
    (d_ProjectID env (d_TraceRatio (d_Environment env (d_ServiceVersion
      (d_ServiceName c))))))))).
Proof. reflexivity. Qed.

Section Frame.
Context {A : Type} (f : Config -> A).

(** A stage that rewrites one field leaves a projection [f] alone when
    [f] ignores that field. *)
Lemma frame_ServiceName : (forall v c, f (set_ServiceName v c) = f c) ->
  forall c, f (d_ServiceName c) = f c.
Proof. intros H c. unfold d_ServiceName. case_match; auto. Qed.
Lemma frame_ServiceVersion : (forall v c, f (set_ServiceVersion v c) = f c) ->
  forall c, f (d_ServiceVersion c) = f c.
Proof. intros H c. unfold d_ServiceVersion. case_match; auto. Qed.
Lemma frame_Environment : (forall v c, f (set_Environment v c) = f c) ->
  forall env c, f (d_Environment env c) = f c.
Proof.
  intros H env c. unfold d_Environment. cbv zeta.
  repeat case_match; rewrite ?H; auto.
Qed.
Lemma frame_TraceRatio : (forall v c, f (set_TraceRatio v c) = f c) ->
  forall c, f (d_TraceRatio c) = f c.
Proof. intros H c. unfold d_TraceRatio. case_match; auto. Qed.
Lemma frame_ProjectID : (forall v c, f (set_ProjectID v c) = f c) ->
  forall env c, f (d_ProjectID env c) = f c.
Proof.
  intros H env c. unfold d_ProjectID. cbv zeta.
  repeat case_match; rewrite ?H; auto.
Qed.
Lemma frame_ExportTimeout : (forall v c, f (set_ExportTimeout v c) = f c) ->
  forall c, f (d_ExportTimeout c) = f c.
Proof. intros H c. unfold d_ExportTimeout. case_match; auto. Qed.
Lemma frame_BatchTimeout : (forall v c, f (set_BatchTimeout v c) = f c) ->
  forall c, f (d_BatchTimeout c) = f c.
Proof. intros H c. unfold d_BatchTimeout. case_match; auto. Qed.
Lemma frame_MaxBatchSize : (forall v c, f (set_MaxBatchSize v c) = f c) ->
  forall c, f (d_MaxBatchSize c) = f c.
Proof. intros H c. unfold d_MaxBatchSize. case_match; auto. Qed.
Lemma frame_MaxQueueSize : (forall v c, f (set_MaxQueueSize v c) = f c) ->
  forall c, f (d_MaxQueueSize c) = f c.
Proof. intros H c. unfold d_MaxQueueSize. case_match; auto. Qed.
Lemma frame_Attributes : (forall v c, f (set_Attributes v c) = f c) ->
  forall c, f (d_Attributes c) = f c.
Proof. intros H c. unfold d_Attributes. case_match; auto. Qed.
End Frame.

Ltac frames :=
  repeat first
    [ rewrite frame_Attributes by reflexivity
    | rewrite frame_MaxQueueSize by reflexivity
    | rewrite frame_MaxBatchSize by reflexivity
    | rewrite frame_BatchTimeout by reflexivity
    | rewrite frame_ExportTimeout by reflexivity
    | rewrite frame_ProjectID by reflexivity
    | rewrite frame_TraceRatio by reflexivity
    | rewrite frame_Environment by reflexivity
    | rewrite frame_ServiceVersion by reflexivity
    | rewrite frame_ServiceName by reflexivity ].

Lemma SetDefaults_MaxBatchSize env c :
  MaxBatchSize (SetDefaults env c) =
  if Z.eqb (MaxBatchSize c) 0 then 512%Z else MaxBatchSize c.
Proof.
  rewrite SetDefaults_stages. frames.
  unfold d_MaxBatchSize at 1. frames. case_match; [reflexivity|]. now frames.
Qed.

Lemma SetDefaults_MaxQueueSize env c :
  MaxQueueSize (SetDefaults env c) =
  if Z.eqb (MaxQueueSize c) 0 then 2048%Z else MaxQueueSize c.
Proof.
  rewrite SetDefaults_stages. frames.
  unfold d_MaxQueueSize at 1. frames. case_match; [reflexivity|]. now frames.
Qed.

Lemma SetDefaults_TraceRatio env c :
  TraceRatio (SetDefaults env c) =
  if f64_eq (TraceRatio c) f64_zero then f64_tenth else TraceRatio c.
Proof.
  rewrite SetDefaults_stages. frames.
  unfold d_TraceRatio at 1. frames. case_match; [reflexivity|]. now frames.
Qed.

Lemma SetDefaults_EnableTracing env c :
  EnableTracing (SetDefaults env c) = EnableTracing c.
Proof. rewrite SetDefaults_stages. now frames. Qed.

Lemma SetDefaults_ServiceName env c :
  ServiceName (SetDefaults env c) =
  if String.eqb (ServiceName c) "" then "default-service" else ServiceName c.
Proof.
  rewrite SetDefaults_stages. frames.
  unfold d_ServiceName. case_match; reflexivity.
Qed.



(** What a successful construction returns. *)
Lemma NewProvider_ok_inv env c st p st' :
  NewProvider env c st = (inr p, st') ->
  Validate (SetDefaults env c) = None /\
  p_addr p = next_addr st /\
  config p = SetDefaults env c /\
  next_addr st' = S (next_addr st) /\
  globalProvider st' = globalProvider st /\
  (EnableTracing c = true ->
   exists tp, tracerProvider p = Some tp /\
              tp_sampler tp = choose_sampler (TraceRatio (SetDefaults env c))) /\
  (EnableTracing c = false -> tracerProvider p = None).
Proof.
  unfold NewProvider. cbv zeta.
  pose proof (SetDefaults_EnableTracing env c) as HE.
  generalize dependent (SetDefaults env c). intros c' HE.
  destruct (Validate c') eqn:HV; [discriminate|].
  rewrite HE.
  destruct (EnableTracing c) eqn:HT.
  - unfold setupTracing.
    destruct (createResource env c'); [discriminate|].
    destruct (exporter_error env); [discriminate|].
    cbn. intros [= <- <-]. cbn. repeat split; eauto; discriminate.
  - cbn. intros [= <- <-]. cbn. repeat split; eauto; discriminate.
Qed.

Lemma NewProvider_err_state env c st e st' :
  NewProvider env c st = (inl e, st') -> globalProvider st' = globalProvider st.
Proof.
  unfold NewProvider. cbv zeta. generalize (SetDefaults env c) as c'. intros c'.
  destruct (Validate c'); [now intros [= _ <-]|].
  destruct (EnableTracing c').
  - unfold setupTracing.
    destruct (createResource env c'); [now intros [= _ <-]|].
    destruct (exporter_error env); [now intros [= _ <-]|].
    discriminate.
  - discriminate.
Qed.

(** A failed construction has allocated at most the one provider. *)
Lemma NewProvider_err_next env c st e st' :
  NewProvider env c st = (inl e, st') ->
  (next_addr st <= next_addr st')%nat.
Proof.
  unfold NewProvider. cbv zeta. generalize (SetDefaults env c) as c'. intros c'.
  destruct (Validate c'); [now intros [= _ <-]|].
  destruct (EnableTracing c').
  - unfold setupTracing.
    destruct (createResource env c'); [intros [= _ <-]; cbn; lia|].
    destruct (exporter_error env); [intros [= _ <-]; cbn; lia|].
    discriminate.
  - discriminate.
Qed.


(** *** Sampler choice *)

(** After defaulting and validation the ratio is neither zero nor
    negative, so the never-sample branch of [setupTracing] is not taken. *)
Lemma accepted_ratio_not_le_zero env c :
  Validate (SetDefaults env c) = None ->
  f64_le (TraceRatio (SetDefaults env c)) f64_zero = false.
Proof.
  intros HV.
  destruct (f64_le (TraceRatio (SetDefaults env c)) f64_zero) eqn:Hle; [|reflexivity].
  exfalso. apply f64_le_zero_split in Hle as [Hz|Hneg].
  - rewrite SetDefaults_TraceRatio in Hz.
    destruct (f64_eq (TraceRatio c) f64_zero) eqn:Hc; [discriminate Hz|congruence].
  - revert HV Hneg. generalize (SetDefaults env c) as c'. intros c' HV Hneg.
    unfold Validate in HV. rewrite Hneg in HV. cbn [orb] in HV.
    repeat case_match; discriminate.
Qed.

(** C3 (as amended): for every configuration that [NewProvider] accepts
    with tracing enabled, a ratio equal to 1 installs the always-sample
    sampler, so every span is sampled; a ratio equal to 0 is replaced by
    the default 0.1 before validation, so the trace-id-ratio sampler with
    ratio 0.1 is installed; and the never-sample sampler is installed for
    no accepted configuration. *)
Theorem NewProvider_sampler_choice env c st p st' :
  NewProvider env c st = (inr p, st') ->
  EnableTracing c = true ->
  (f64_eq (TraceRatio c) f64_one = true ->
     installed_sampler p = Some AlwaysSample /\
     forall s x, installed_sampler p = Some s -> ShouldSample s x = true) /\
  (f64_eq (TraceRatio c) f64_zero = true ->
     installed_sampler p = Some (TraceIDRatioBased f64_tenth)) /\
  installed_sampler p <> Some NeverSample.
Proof.
  intros HN HT.
  apply NewProvider_ok_inv in HN as (HV & _ & _ & _ & _ & Htp & _).
  destruct (Htp HT) as (tp & Hp & Hs). clear Htp.
  unfold installed_sampler. rewrite Hp. cbn. rewrite Hs.
  rewrite SetDefaults_TraceRatio.
  pose proof (accepted_ratio_not_le_zero env c HV) as Hnz.
  rewrite SetDefaults_TraceRatio in Hnz.
  repeat split.
  - apply f64_eq_one_inv in H. rewrite H. reflexivity.
  - intros s x. apply f64_eq_one_inv in H. rewrite H. cbn. now intros [= <-].
  - intros ->. reflexivity.
  - unfold choose_sampler. rewrite Hnz.
    destruct (f64_ge _ f64_one); discriminate.
Qed.

(** *** Validation at construction *)


(** *** The package-level provider *)

Lemma InitGlobal_ok_inv env c st st' :
  InitGlobal env c st = (None, st') ->
  exists p st1, NewProvider env c st = (inr p, st1) /\
                globalProvider st' = Some p /\ next_addr st' = next_addr st1.
Proof.
  unfold InitGlobal. destruct (NewProvider env c st) as [[e|p] st1] eqn:HN.
  - discriminate.
  - intros [= <-]. exists p, st1. auto.
Qed.

Lemma InitGlobal_preserves_wf env c st err st' :
  wf_state st -> InitGlobal env c st = (err, st') -> wf_state st'.
Proof.
  intros Hwf. unfold InitGlobal.
  destruct (NewProvider env c st) as [[e|p] st1] eqn:HN.
  - intros [= <- <-]. unfold wf_state.
    pose proof (NewProvider_err_state _ _ _ _ _ HN) as Hg. rewrite Hg.
    pose proof (NewProvider_err_next _ _ _ _ _ HN) as Hn. clear HN.
    unfold wf_state in Hwf. destruct (globalProvider st) as [q|]; [|exact I].
    lia.
  - intros [= <- <-]. unfold wf_state.
    apply NewProvider_ok_inv in HN as (_ & Ha & _ & Hn & _).
    cbn [globalProvider next_addr]. lia.
Qed.

(** C4 (as amended): [telemetry.InitGlobal] has no once-guard.  Every
    successful call stores a freshly allocated provider, built from the
    defaulted configuration of that call, in the package variable, so the
    provider seen by [Global] after a second successful call is a different
    instance from the one the first call installed; a failing call leaves
    the package variable unchanged. *)
Theorem InitGlobal_last_success_wins env c st err st' :
  wf_state st ->
  InitGlobal env c st = (err, st') ->
  match err with
  | None => exists p, Global st' = Some p /\ config p = SetDefaults env c /\
                      p_addr p = next_addr st /\ Global st' <> Global st
  | Some _ => Global st' = Global st
  end.
Proof.
  intros Hwf HI. destruct err as [e|].
  - revert HI. unfold InitGlobal.
    destruct (NewProvider env c st) as [[e'|p] st1] eqn:HN; [|discriminate].
    intros [= _ <-]. unfold Global. exact (NewProvider_err_state _ _ _ _ _ HN).
  - apply InitGlobal_ok_inv in HI as (p & st1 & HN & Hg & _).
    apply NewProvider_ok_inv in HN as (_ & Ha & Hc & _).
    exists p. unfold Global. rewrite Hg.
    split; [reflexivity|]. split; [exact Hc|]. split; [exact Ha|].
    unfold wf_state in Hwf. destruct (globalProvider st) as [q|]; [|discriminate].
    intros Hpq. assert (p = q) as -> by congruence. clear Hc Hpq Hg. lia.
Qed.


(** *** Concrete runs *)

(** The provider a run of [NewProvider] returns (a run that fails has
    none). *)
Definition provider_of (r : (GoError + Provider) * State) : option Provider :=
  match r with
  | (inr p, _) => Some p
  | (inl _, _) => None
  end.

(** Whether a run ended without an error. *)
Definition succeeded {A : Type} (r : (GoError + A) * State) : bool :=
  match r with
  | (inr _, _) => true
  | (inl _, _) => false
  end.

(** A run that is known to succeed, by evaluation, has a result. *)
Ltac run_succeeds HN p st' :=
  lazymatch goal with
  | |- context [NewProvider ?env ?c ?st] =>
      let Hok := fresh "Hok" in
      assert (Hok : succeeded (NewProvider env c st) = true) by (vm_compute; reflexivity);
      destruct (NewProvider env c st) as [[?|p] st'] eqn:HN;
      [discriminate Hok|clear Hok]
  end.

Lemma NewProvider_sampler_choice_witness :
  exists p st',
    NewProvider test_env (tracing_config f64_one) init_state = (inr p, st') /\
    installed_sampler p = Some AlwaysSample.
Proof.
  run_succeeds HN p st'.
  exists p, st'. split; [reflexivity|].
  destruct (NewProvider_sampler_choice _ _ _ _ _ HN eq_refl) as (H1 & _ & _).
  apply H1. reflexivity.
Defined.

(** C3, as stated, fails: a configuration with tracing enabled and ratio
    0 is accepted, and the provider built from it samples with the ratio
    sampler at 0.1, which keeps (for one) the trace whose identifier ends in
    eight zero bytes. *)
Lemma zero_ratio_installs_ratio_sampler :
  exists p,
    provider_of (NewProvider test_env (tracing_config f64_zero) init_state) = Some p /\
    f64_eq (TraceRatio (tracing_config f64_zero)) f64_zero = true /\
    installed_sampler p = Some (TraceIDRatioBased f64_tenth) /\
    installed_sampler p <> Some NeverSample /\
    ShouldSample (TraceIDRatioBased f64_tenth) 0 = true.
Proof.
  run_succeeds HN p st'.
  exists p. split; [reflexivity|]. split; [reflexivity|].
  apply NewProvider_ok_inv in HN as (_ & _ & _ & _ & _ & Htp & _).
  destruct (Htp eq_refl) as (tp & Hp & Hs).
  assert (Hi : installed_sampler p = Some (TraceIDRatioBased f64_tenth)).
  { unfold installed_sampler. rewrite Hp. cbn [fmap option_fmap option_map]. rewrite Hs.
    vm_compute. reflexivity. }
  split; [exact Hi|]. split; [rewrite Hi; discriminate|].
  vm_compute. reflexivity.
Qed.



Lemma InitGlobal_last_success_wins_witness :
  exists p, Global (snd (InitGlobal test_env base_config init_state)) = Some p /\
            config p = SetDefaults test_env base_config /\
            p_addr p = next_addr init_state /\
            Global (snd (InitGlobal test_env base_config init_state)) <> Global init_state.
Proof.
  assert (Hok : match fst (InitGlobal test_env base_config init_state) with
               | None => true
               | Some _ => false
               end = true) by (vm_compute; reflexivity).
  destruct (InitGlobal test_env base_config init_state) as [[e|] st'] eqn:HI;
    [discriminate Hok|].
  exact (InitGlobal_last_success_wins test_env base_config init_state None st' I HI).
Defined.

(** C4, as stated, fails: after a successful [InitGlobal], a second
    successful [InitGlobal] with another configuration replaces the
    package-level provider. *)
Lemma second_InitGlobal_replaces_provider :
  let '(err1, st1) := InitGlobal test_env base_config init_state in
  let '(err2, st2) := InitGlobal test_env other_config st1 in
  err1 = None /\ err2 = None /\
  GetGlobalProjectID st1 = "test-project" /\
  GetGlobalProjectID st2 = "test-project-123" /\
  Global st2 <> Global st1.
Proof.
  vm_compute. repeat split; try reflexivity. discriminate.
Qed.

End TelemetryProps.

(** ** Properties of the runtime model *)
Module RuntimeProps.
Import Runtime.
Local Open Scope go_scope.

(** *** Sequencing, pointwise *)

Lemma bind_assoc_pt {A B C} (m : M A) (f : A -> M B) (g : B -> M C) w :
  bind (bind m f) g w = bind m (fun a => bind (f a) g) w.
Proof. unfold bind. destruct (m w); reflexivity. Qed.

Lemma bind_ext_pt {A B} (m : M A) (f g : A -> M B) w :
  (forall a w', f a w' = g a w') -> bind m f w = bind m g w.
Proof. intros H. unfold bind. destruct (m w); auto. Qed.

Lemma bind_cong_pt {A B} (m m' : M A) (k : A -> M B) w :
  m w = m' w -> bind m k w = bind m' k w.
Proof. intros H. unfold bind. now rewrite H. Qed.

Lemma bind_modify {B} f (k : unit -> M B) w : bind (modify f) k w = k tt (f w).
Proof. reflexivity. Qed.

Lemma bind_get {A B} (f : World -> A) (k : A -> M B) w : bind (get f) k w = k (f w) w.
Proof. reflexivity. Qed.

Lemma bind_ret {A B} (a : A) (k : A -> M B) w : bind (ret a) k w = k a w.
Proof. reflexivity. Qed.

Lemma bind_returned {A B} (m : M A) (k : A -> M B) w a w' :
  m w = Returned a w' -> bind m k w = k a w'.
Proof. intros H. unfold bind. now rewrite H. Qed.

Lemma bind_panicked {A B} (m : M A) (k : A -> M B) w v w' :
  m w = Panicked v w' -> bind m k w = Panicked v w'.
Proof. intros H. unfold bind. now rewrite H. Qed.

(** *** Span updates touch the spans only *)

Lemma update_span_resp ctx f w : resp (update_span ctx f w) = resp w.
Proof. unfold update_span. repeat case_match; reflexivity. Qed.
Lemma update_span_cells ctx f w : cells (update_span ctx f w) = cells w.
Proof. unfold update_span. repeat case_match; reflexivity. Qed.
Lemma update_span_slog_calls ctx f w : slog_calls (update_span ctx f w) = slog_calls w.
Proof. unfold update_span. repeat case_match; reflexivity. Qed.
Lemma update_span_stdout ctx f w : stdout (update_span ctx f w) = stdout w.
Proof. unfold update_span. repeat case_match; reflexivity. Qed.
Lemma update_span_globalLogger ctx f w :
  globalLogger (update_span ctx f w) = globalLogger w.
Proof. unfold update_span. repeat case_match; reflexivity. Qed.
Lemma update_span_panicking ctx f w : panicking (update_span ctx f w) = panicking w.
Proof. unfold update_span. repeat case_match; reflexivity. Qed.
Lemma update_span_journal ctx f w : journal (update_span ctx f w) = journal w.
Proof. unfold update_span. repeat case_match; reflexivity. Qed.
Lemma update_span_sniff ctx f w : sniff (update_span ctx f w) = sniff w.
Proof. unfold update_span. repeat case_match; reflexivity. Qed.
Lemma update_span_now ctx f w : now_unix_nano (update_span ctx f w) = now_unix_nano w.
Proof. unfold update_span. repeat case_match; reflexivity. Qed.

(** On a recording span that has not ended the update is applied. *)
Lemma update_span_lookup k f w s :
  spans w !! k = Some s -> sp_recording s = true -> sp_ended s = false ->
  spans (update_span (Some k) f w) !! k = Some (f s).
Proof.
  intros Hs Hr He. unfold update_span. rewrite Hs, Hr, He. cbn.
  apply lookup_insert_eq.
Qed.

(** A span that has ended, or does not record, is left as it is. *)
Lemma update_span_inert k f w s :
  spans w !! k = Some s -> sp_recording s = false \/ sp_ended s = true ->
  update_span (Some k) f w = w.
Proof.
  intros Hs [H|H]; unfold update_span; rewrite Hs, H; [reflexivity|].
  now rewrite andb_false_r.
Qed.

(** Without a span in the context nothing changes at all. *)
Lemma update_span_none f w : update_span None f w = w.
Proof. reflexivity. Qed.

(** *** Writers of the root package *)

(** The world after [WriteHeader] on a writer of the root package: every
    wrapper on the way stores the code, the recorder takes it if it is
    the first. *)
Fixpoint header_written (wr : Writer) (code : Z) (w : World) : World :=
  match wr with
  | Base => set_resp (recorder_WriteHeader code (resp w)) w
  | Wrapped c inner =>
      header_written inner code (set_cells (<[c := mkCell code false]> (cells w)) w)
  | WrappedOnce _ _ => w
  end.

Lemma WriteHeader_root wr code : root_writer wr = true ->
  forall w, WriteHeader wr code w = Returned tt (header_written wr code w).
Proof.
  induction wr as [|c inner IH|c inner IH]; intros Hr w; cbn in *.
  - reflexivity.
  - unfold bind, modify. now rewrite IH.
  - discriminate.
Qed.

Lemma header_written_resp wr code : root_writer wr = true ->
  forall w, resp (header_written wr code w) = recorder_WriteHeader code (resp w).
Proof.
  induction wr as [|c inner IH|c inner IH]; intros Hr w; cbn in *; try discriminate.
  - reflexivity.
  - now rewrite IH.
Qed.

Lemma header_written_slog_calls wr code w :
  slog_calls (header_written wr code w) = slog_calls w.
Proof. revert w. induction wr; intros w; cbn; try reflexivity. now rewrite IHwr. Qed.
Lemma header_written_panicking wr code w :
  panicking (header_written wr code w) = panicking w.
Proof. revert w. induction wr; intros w; cbn; try reflexivity. now rewrite IHwr. Qed.
Lemma header_written_spans wr code w : spans (header_written wr code w) = spans w.
Proof. revert w. induction wr; intros w; cbn; try reflexivity. now rewrite IHwr. Qed.
Lemma header_written_sniff wr code w : sniff (header_written wr code w) = sniff w.
Proof. revert w. induction wr; intros w; cbn; try reflexivity. now rewrite IHwr. Qed.
Lemma header_written_journal wr code w : journal (header_written wr code w) = journal w.
Proof. revert w. induction wr; intros w; cbn; try reflexivity. now rewrite IHwr. Qed.
Lemma header_written_stdout wr code w : stdout (header_written wr code w) = stdout w.
Proof. revert w. induction wr; intros w; cbn; try reflexivity. now rewrite IHwr. Qed.
Lemma header_written_globalLogger wr code w :
  globalLogger (header_written wr code w) = globalLogger w.
Proof. revert w. induction wr; intros w; cbn; try reflexivity. now rewrite IHwr. Qed.

Lemma Write_root wr c : root_writer wr = true ->
  forall w, Write wr c w = Returned tt (set_resp (recorder_Write (sniff w c) c (resp w)) w).
Proof.
  induction wr as [|k inner IH|k inner IH]; intros Hr w; cbn in *; try discriminate.
  - reflexivity.
  - now apply IH.
Qed.

(** *** Response headers *)

(** The world after [header_Set]. *)
Definition header_set (k v : string) (w : World) : World :=
  set_resp (mkRecorder (<[k := [v]]> (HeaderMap (resp w))) (wroteHeader (resp w))
              (Code (resp w)) (snapHeader (resp w)) (Body (resp w))) w.

Lemma header_Set_run k v w : header_Set k v w = Returned tt (header_set k v w).
Proof. reflexivity. Qed.

Lemma bind_header_Set {B} k v (K : unit -> M B) w :
  bind (header_Set k v) K w = K tt (header_set k v w).
Proof. reflexivity. Qed.

Lemma header_set_HeaderMap k v w :
  HeaderMap (resp (header_set k v w)) = <[k := [v]]> (HeaderMap (resp w)).
Proof. reflexivity. Qed.
Lemma header_set_wroteHeader k v w :
  wroteHeader (resp (header_set k v w)) = wroteHeader (resp w).
Proof. reflexivity. Qed.
Lemma header_set_Code k v w : Code (resp (header_set k v w)) = Code (resp w).
Proof. reflexivity. Qed.
Lemma header_set_snapHeader k v w :
  snapHeader (resp (header_set k v w)) = snapHeader (resp w).
Proof. reflexivity. Qed.
Lemma header_set_Body k v w : Body (resp (header_set k v w)) = Body (resp w).
Proof. reflexivity. Qed.
Lemma header_set_cells k v w : cells (header_set k v w) = cells w.
Proof. reflexivity. Qed.
Lemma header_set_spans k v w : spans (header_set k v w) = spans w.
Proof. reflexivity. Qed.
Lemma header_set_slog_calls k v w : slog_calls (header_set k v w) = slog_calls w.
Proof. reflexivity. Qed.
Lemma header_set_panicking k v w : panicking (header_set k v w) = panicking w.
Proof. reflexivity. Qed.
Lemma header_set_journal k v w : journal (header_set k v w) = journal w.
Proof. reflexivity. Qed.
Lemma header_set_sniff k v w : sniff (header_set k v w) = sniff w.
Proof. reflexivity. Qed.
Lemma header_set_stdout k v w : stdout (header_set k v w) = stdout w.
Proof. reflexivity. Qed.

(** A header set after the header was written does not reach the client. *)
Lemma header_set_result_header k v w :
  wroteHeader (resp w) = true ->
  result_header (resp (header_set k v w)) = result_header (resp w).
Proof. unfold result_header. cbn. now intros ->. Qed.

Create Rewrite HintDb world.
#[export] Hint Rewrite header_set_HeaderMap header_set_wroteHeader header_set_Code
  header_set_snapHeader header_set_Body header_set_cells header_set_spans
  header_set_slog_calls header_set_panicking header_set_journal header_set_sniff
  header_set_stdout : world.
#[export] Hint Rewrite update_span_resp update_span_cells update_span_slog_calls
  update_span_stdout update_span_globalLogger update_span_panicking
  update_span_journal update_span_sniff update_span_now
  header_written_slog_calls header_written_panicking
  header_written_spans header_written_sniff header_written_journal
  header_written_stdout header_written_globalLogger : world.

(** Projections of a world built by setters, span updates and header
    writes. *)
Ltac wsimpl :=
  repeat progress
    (cbn [resp cells spans slog_calls stdout globalLogger once_done slog_default
          panicking journal stack_trace sniff now_unix_nano
          set_resp set_cells set_spans set_slog_calls set_stdout set_globalLogger
          set_once_done set_slog_default set_panicking set_journal];
     autorewrite with world).

(** *** The recorder *)

(** Once the header is written neither the status code nor the headers a
    client sees change any more. *)
Lemma recorder_WriteHeader_written code r :
  wroteHeader r = true -> recorder_WriteHeader code r = r.
Proof. unfold recorder_WriteHeader. now intros ->. Qed.

Lemma recorder_WriteHeader_first code r :
  wroteHeader r = false ->
  Code (recorder_WriteHeader code r) = code /\
  wroteHeader (recorder_WriteHeader code r) = true /\
  result_header (recorder_WriteHeader code r) = HeaderMap r.
Proof. unfold recorder_WriteHeader, result_header. intros ->. now cbn. Qed.

(** A header set, the header written, one chunk written: the recorder
    that results, when no header had been written before and when one
    had. *)
Lemma recorder_answer_first (r0 : Recorder) (s : string) (c : Chunk) code k v :
  wroteHeader r0 = false ->
  recorder_Write s c
    (recorder_WriteHeader code
       (mkRecorder (<[k := v]> (HeaderMap r0)) (wroteHeader r0) (Code r0)
          (snapHeader r0) (Body r0))) =
  mkRecorder (<[k := v]> (HeaderMap r0)) true code (<[k := v]> (HeaderMap r0))
    (Body r0 ++ [c]).
Proof. destruct r0 as [h [|] cd sh b]; [discriminate|reflexivity]. Qed.

Lemma recorder_answer_late (r0 : Recorder) (s : string) (c : Chunk) code k v :
  wroteHeader r0 = true ->
  recorder_Write s c
    (recorder_WriteHeader code
       (mkRecorder (<[k := v]> (HeaderMap r0)) (wroteHeader r0) (Code r0)
          (snapHeader r0) (Body r0))) =
  mkRecorder (<[k := v]> (HeaderMap r0)) true (Code r0) (snapHeader r0) (Body r0 ++ [c]).
Proof. destruct r0 as [h [|] cd sh b]; [reflexivity|discriminate]. Qed.

(** *** [defer] and [recover] *)

(** A deferred function that does not call [recover] lets the panic go
    on. *)
Lemma defer_no_recover (d body : M unit) w v w1 w2 :
  body w = Panicked v w1 ->
  d (set_panicking (Some v) w1) = Returned tt w2 ->
  panicking w2 = Some v ->
  defer_ d body w = Panicked v (set_panicking (panicking w) w2).
Proof.
  intros Hb Hd Hp. unfold defer_. now rewrite Hb, Hd, Hp.
Qed.

(** When the body returns, the deferred function runs once, after it. *)
Lemma defer_returns (d body : M unit) w w1 :
  body w = Returned tt w1 ->
  defer_ d body w =
  match d (set_panicking None w1) with
  | Returned _ w2 => Returned tt (set_panicking (panicking w) w2)
  | Panicked v w2 => Panicked v (set_panicking (panicking w) w2)
  end.
Proof. intros Hb. unfold defer_. now rewrite Hb. Qed.

End RuntimeProps.

(** ** Properties of the middleware chain (client.go) *)
Module ChainProps.
Import Runtime Middleware RuntimeProps.
Local Open Scope go_scope.

(** The loop of [Then], entered at [n], wraps the handler in the first
    [n] middleware, the last of them innermost. *)
Lemma then_loop_take mws : forall n h, (n <= length mws)%nat ->
  then_loop mws n h = fold_right (fun m acc => m acc) h (take n mws).
Proof.
  induction n as [|i IH]; intros h Hn; [reflexivity|].
  simpl then_loop.
  destruct (mws !! i) as [m|] eqn:Hm.
  - rewrite IH by lia.
    rewrite (take_S_r _ _ _ Hm), fold_right_app. reflexivity.
  - apply lookup_ge_None in Hm. lia.
Qed.

(** [Then] is the right fold of the list: the first middleware declared
    is the outermost. *)
Lemma Then_fold mc h :
  Then mc h = fold_right (fun m acc => m acc) h (middlewares mc).
Proof.
  unfold Then. rewrite then_loop_take by lia. now rewrite firstn_all.
Qed.

Lemma run_all_app hs1 hs2 wr r w :
  run_all (hs1 ++ hs2)%list wr r w = (run_all hs1 wr r ;;; run_all hs2 wr r) w.
Proof.
  revert w. induction hs1 as [|h hs1 IH]; intros w; cbn [run_all app].
  - reflexivity.
  - rewrite bind_assoc_pt. apply bind_ext_pt. intros _ w'. apply IH.
Qed.

Lemma fold_hooked (hs : list (Handler * Handler)) h wr r w :
  fold_right (fun m acc => m acc) h (map (fun p => hooked (fst p) (snd p)) hs) wr r w =
  (run_all (map fst hs) wr r ;;; h wr r ;;; run_all (rev (map snd hs)) wr r) w.
Proof.
  revert w. induction hs as [|[pre post] hs IH]; intros w;
    cbn [map fold_right fst snd rev run_all].
  - change ((ret tt ;;; h wr r ;;; ret tt) w) with ((h wr r ;;; ret tt) w).
    unfold bind, ret. destruct (h wr r w) as [[] ?|]; reflexivity.
  - unfold hooked at 1. rewrite (bind_assoc_pt (pre wr r)).
    apply bind_ext_pt. intros _ w1. cbv beta.
    rewrite (bind_cong_pt _ _ _ _ (IH w1)).
    rewrite !bind_assoc_pt. apply bind_ext_pt. intros _ w2. cbv beta.
    rewrite !bind_assoc_pt. apply bind_ext_pt. intros _ w3. cbv beta.
    rewrite run_all_app. cbn [run_all].
    apply bind_ext_pt. intros _ w4.
    unfold bind, ret. destruct (post wr r w4) as [[] ?|]; reflexivity.
Qed.

(** C1: a chain built from decorators in declaration order, by [NewChain]
    and [Append] in any split, composed with a terminal handler by [Then]
    or [ThenFunc], is the right fold of the list (the first decorator is
    the outermost wrapper), so a request runs the pre-hooks in declaration
    order, then the handler, then the post-hooks in the reverse order. *)
Theorem chain_runs_in_onion_order (hs1 hs2 : list (Handler * Handler)) h wr r w :
  let mk := map (fun p => hooked (fst p) (snd p)) in
  Then (Append (NewChain (mk hs1)) (mk hs2)) h =
    fold_right (fun m acc => m acc) h (mk hs1 ++ mk hs2)%list /\
  ThenFunc (Append (NewChain (mk hs1)) (mk hs2)) h =
    Then (NewChain (mk (hs1 ++ hs2)%list)) h /\
  Then (Append (NewChain (mk hs1)) (mk hs2)) h wr r w =
    (run_all (map fst (hs1 ++ hs2)%list) wr r ;;; h wr r ;;;
     run_all (rev (map snd (hs1 ++ hs2)%list)) wr r) w.
Proof.
  intros mk. split; [|split].
  - now rewrite Then_fold.
  - unfold ThenFunc. rewrite !Then_fold. unfold Append, NewChain, mk.
    cbn [middlewares]. now rewrite map_app.
  - rewrite Then_fold. unfold Append, NewChain, mk. cbn [middlewares].
    rewrite <- map_app. apply fold_hooked.
Qed.

(** The two decorators of the specification's test, recording into the
    shared journal: A's pre-hook, B's pre-hook, the handler, B's
    post-hook, A's post-hook. *)
Lemma two_instrumented_decorators wr r w :
  journal (res_world
    (Then (Append (NewChain [instrumented "A"]) [instrumented "B"])
          (fun _ _ => note "handler") wr r w)) =
  (journal w ++ ["A:pre"; "B:pre"; "handler"; "B:post"; "A:post"])%list.
Proof.
  cbn. now rewrite <- !app_assoc.
Qed.

(** For two arbitrary middleware the composition is [A (B h)], whichever
    way the chain was put together. *)
Lemma two_middleware_nest (A B : MiddlewareT) h :
  Then (NewChain [A; B]) h = A (B h) /\
  Then (Append (NewChain [A]) [B]) h = A (B h) /\
  Then (Append (Append (NewChain []) [A]) [B]) h = A (B h).
Proof. repeat split. Qed.

(** A panic of the terminal handler skips the post-hooks of plain
    decorators. *)
Lemma hooked_panic_skips_post pre post (h : Handler) wr r w w1 v w2 :
  pre wr r w = Returned tt w1 ->
  h wr r w1 = Panicked v w2 ->
  hooked pre post h wr r w = Panicked v w2.
Proof.
  intros Hp Hh. unfold hooked.
  rewrite (bind_returned _ _ _ _ _ Hp). now rewrite (bind_panicked _ _ _ _ _ Hh).
Qed.

End ChainProps.

(** ** Properties of panic recovery (middleware.go, logger.go,
    helpers/http.go) *)
Module RecoveryProps.
Import Runtime Middleware RuntimeProps.
Local Open Scope go_scope.

(** The JSON object [Recovery] answers with. *)
Definition error_body (v : PanicValue) : Any :=
  AMap [("code", AInt 500);
        ("details", AMap [("panic", AStr (fmt_v v))]);
        ("error", AStr "Internal server error")].

(** Called like any other function, [LogPanic] sees no panic: its
    [recover()] returns nil and it does nothing at all. *)
Lemma LogPanic_plain l ctx w : Logger.LogPanic PlainCall l ctx w = Returned tt w.
Proof. reflexivity. Qed.

(** The world [Recovery]'s deferred function leaves when it recovers [v]:
    the span is marked, the content type is set, the header is written
    with 500 and the JSON body is written. *)
Definition recovered (wr : Writer) (r : Request) (v : PanicValue) (w : World) : World :=
  let w := set_panicking None w in
  let w := update_span (req_ctx r)
             (fun s => if Z.ltb (status_rank Error) (status_rank (fst (sp_status s))) then s
                       else mkSpan (sp_valid s) (sp_recording s) (sp_trace_id s)
                              (sp_span_id s) (sp_sampled s) (Error, "panic recovered")
                              (sp_attrs s) (sp_events s) (sp_errors s) (sp_ended s)) w in
  let w := update_span (req_ctx r)
             (fun s => mkSpan (sp_valid s) (sp_recording s) (sp_trace_id s) (sp_span_id s)
                         (sp_sampled s) (sp_status s) (sp_attrs s) (sp_events s)
                         (sp_errors s ++
                            [(("panic: " ++ fmt_v v)%string,
                              [("panic.value", AStr (fmt_v v))])])%list
                         (sp_ended s)) w in
  let w := set_resp (mkRecorder
                       (<["Content-Type" := ["application/json"]]> (HeaderMap (resp w)))
                       (wroteHeader (resp w)) (Code (resp w)) (snapHeader (resp w))
                       (Body (resp w))) w in
  let w := header_written wr 500 w in
  set_resp (recorder_Write (sniff w (JSONLine (error_body v)))
              (JSONLine (error_body v)) (resp w)) w.

Lemma recovery_deferred_run wr r v w :
  root_writer wr = true -> panicking w = Some v ->
  recovery_deferred wr r w = Returned tt (recovered wr r v w).
Proof.
  intros Hr Hp. unfold recovery_deferred, recover_.
  unfold bind at 1. cbv beta iota. rewrite Hp. cbv beta iota.
  unfold span_SetStatus, span_RecordError, on_span, header_Set, json_Encode,
    Logger.Global.
  rewrite !bind_modify, bind_assoc_pt, bind_get.
  rewrite (bind_returned _ _ _ _ _ (LogPanic_plain _ _ _)).
  rewrite !bind_modify.
  rewrite (bind_returned _ _ _ _ _ (WriteHeader_root wr 500 Hr _)).
  rewrite bind_assoc_pt.
  rewrite (bind_returned _ _ _ _ _ (Write_root wr _ Hr _)).
  reflexivity.
Qed.

Lemma recovered_panicking wr r v w : panicking (recovered wr r v w) = None.
Proof. unfold recovered. cbv zeta. wsimpl. reflexivity. Qed.

Lemma recovered_slog_calls wr r v w : slog_calls (recovered wr r v w) = slog_calls w.
Proof. unfold recovered. cbv zeta. wsimpl. reflexivity. Qed.

Lemma recovered_resp wr r v w : root_writer wr = true ->
  resp (recovered wr r v w) =
  recorder_Write (sniff w (JSONLine (error_body v))) (JSONLine (error_body v))
    (recorder_WriteHeader 500
       (mkRecorder (<["Content-Type" := ["application/json"]]> (HeaderMap (resp w)))
          (wroteHeader (resp w)) (Code (resp w)) (snapHeader (resp w))
          (Body (resp w)))).
Proof.
  intros Hr. unfold recovered. cbv zeta. wsimpl.
  rewrite header_written_resp by assumption. wsimpl. reflexivity.
Qed.

(** [Recovery] always stops the panic of the handler it wraps. *)
Lemma Recovery_stops_panic next wr r w0 v w1 :
  root_writer wr = true ->
  next wr r w0 = Panicked v w1 ->
  Recovery next wr r w0 =
  Returned tt (set_panicking (panicking w0)
                 (recovered wr r v (set_panicking (Some v) w1))).
Proof.
  intros Hr Hn. unfold Recovery, defer_. rewrite Hn.
  rewrite (recovery_deferred_run wr r v) by (assumption || reflexivity).
  now rewrite recovered_panicking.
Qed.

(** C2 (as amended): when the handler panics before any response header
    has been written, [Recovery] returns normally (the panic does not
    escape), the status is exactly 500, the content type the client sees
    is application/json, and the body is what the handler left followed
    by one JSON object whose [code] field is the number 500. *)
Theorem Recovery_answers_500 next wr r w0 v w1 :
  root_writer wr = true ->
  next wr r w0 = Panicked v w1 ->
  wroteHeader (resp w1) = false ->
  exists w2,
    Recovery next wr r w0 = Returned tt w2 /\
    Code (resp w2) = 500 /\
    wroteHeader (resp w2) = true /\
    result_header (resp w2) !! "Content-Type" = Some ["application/json"] /\
    Body (resp w2) = (Body (resp w1) ++ [JSONLine (error_body v)])%list /\
    json_field (error_body v) "code" = Some (AInt 500).
Proof.
  intros Hr Hn Hw.
  exists (set_panicking (panicking w0) (recovered wr r v (set_panicking (Some v) w1))).
  split; [exact (Recovery_stops_panic _ _ _ _ _ _ Hr Hn)|].
  pose proof (recovered_resp wr r v (set_panicking (Some v) w1) Hr) as HR.
  revert HR. generalize (recovered wr r v (set_panicking (Some v) w1)) as w'.
  intros w' HR. cbn [resp set_panicking] in *.
  rewrite HR, recorder_answer_first by exact Hw.
  unfold result_header. cbn [Code wroteHeader snapHeader Body].
  repeat split. apply lookup_insert_eq.
Qed.

(** When the handler did write a header before it panicked, the status
    and the headers the client sees stay as the handler sent them; only
    the JSON object is added to the body. *)
Lemma Recovery_after_header next wr r w0 v w1 :
  root_writer wr = true ->
  next wr r w0 = Panicked v w1 ->
  wroteHeader (resp w1) = true ->
  exists w2,
    Recovery next wr r w0 = Returned tt w2 /\
    Code (resp w2) = Code (resp w1) /\
    result_header (resp w2) = result_header (resp w1) /\
    Body (resp w2) = (Body (resp w1) ++ [JSONLine (error_body v)])%list.
Proof.
  intros Hr Hn Hw.
  exists (set_panicking (panicking w0) (recovered wr r v (set_panicking (Some v) w1))).
  split; [exact (Recovery_stops_panic _ _ _ _ _ _ Hr Hn)|].
  pose proof (recovered_resp wr r v (set_panicking (Some v) w1) Hr) as HR.
  revert HR. generalize (recovered wr r v (set_panicking (Some v) w1)) as w'.
  intros w' HR. cbn [resp set_panicking] in *.
  rewrite HR, recorder_answer_late by exact Hw.
  unfold result_header. cbn [Code wroteHeader snapHeader Body]. rewrite Hw.
  repeat split.
Qed.

(** A handler that answers 200 and then panics. *)
Definition writes_then_panics : Handler := fun w _ =>
  WriteHeader w 200 ;;;
  Write w (Raw "partial") ;;;
  panic_ (PanicString "test panic").

(** A handler that panics at once. *)
Definition panics : Handler := fun _ _ => panic_ (PanicString "test panic").

Definition get_request : Request := mkRequest "GET" "/test" "" ∅ None "".

Lemma Recovery_answers_500_witness :
  exists w2,
    Recovery panics Base get_request empty_world = Returned tt w2 /\
    Code (resp w2) = 500 /\
    wroteHeader (resp w2) = true /\
    result_header (resp w2) !! "Content-Type" = Some ["application/json"] /\
    Body (resp w2) =
      (Body (resp empty_world) ++ [JSONLine (error_body (PanicString "test panic"))])%list /\
    json_field (error_body (PanicString "test panic")) "code" = Some (AInt 500).
Proof.
  apply (Recovery_answers_500 panics Base get_request empty_world
           (PanicString "test panic") empty_world); reflexivity.
Defined.

(** C2, as stated, fails: the handler below panics, the request passes
    through [Recovery], and the status the client sees is 200. *)
Lemma Recovery_keeps_written_status :
  exists w2,
    Recovery writes_then_panics Base get_request empty_world = Returned tt w2 /\
    Code (resp w2) = 200 /\
    Body (resp w2) = [Raw "partial"; JSONLine (error_body (PanicString "test panic"))].
Proof.
  eexists. split; [vm_compute; reflexivity|]. split; reflexivity.
Qed.

(** C6: what the code does at a panic.  [Recovery] hands the panic to
    [LogPanic] after it has recovered it itself, so no call at all is
    made on the logging backend, whatever the handler and the request:
    the calls after [Recovery] are the calls the handler made.  The span
    of the request, if it records, is marked failed by [Recovery]
    itself. *)
Theorem Recovery_logs_nothing next wr r w0 v w1 :
  root_writer wr = true ->
  next wr r w0 = Panicked v w1 ->
  slog_calls (res_world (Recovery next wr r w0)) = slog_calls w1 /\
  Logger.calls_at Logger.LevelCritical (res_world (Recovery next wr r w0)) =
    Logger.calls_at Logger.LevelCritical w1.
Proof.
  intros Hr Hn. rewrite (Recovery_stops_panic _ _ _ _ _ _ Hr Hn).
  unfold Logger.calls_at. cbn [res_world slog_calls set_panicking].
  rewrite recovered_slog_calls. split; reflexivity.
Qed.

Lemma Recovery_logs_nothing_witness :
  slog_calls (res_world (Recovery panics Base get_request empty_world)) =
    slog_calls empty_world /\
  Logger.calls_at Logger.LevelCritical
    (res_world (Recovery panics Base get_request empty_world)) =
    Logger.calls_at Logger.LevelCritical empty_world.
Proof.
  apply (Recovery_logs_nothing panics Base get_request empty_world
           (PanicString "test panic") empty_world); reflexivity.
Defined.

(** Run as the deferred call itself, [LogPanic] does what its comment
    says: it logs the value and the stack trace at Critical level and
    panics again with the same value. *)
Lemma LogPanic_deferred l ctx v w :
  panicking w = Some v ->
  exists w',
    Logger.LogPanic DeferredCall l ctx w = Panicked v w' /\
    exists call,
      slog_calls w' = (slog_calls w ++ [call])%list /\
      lc_level call = Logger.LevelCritical /\
      lc_msg call = "Panic recovered" /\
      firstn 4 (lc_args call) =
        [AStr "panic.value"; AStr (fmt_v v);
         AStr "panic.stack_trace"; AStr (stack_trace w)].
Proof.
  intros Hp. unfold Logger.LogPanic, recover_. unfold bind at 1. rewrite Hp.
  rewrite !bind_get.
  unfold span_SetStatus, span_RecordError, on_span, Logger.slog_Log.
  rewrite !bind_modify. unfold panic_.
  eexists. split; [reflexivity|].
  eexists. split; [cbn; autorewrite with world; reflexivity|].
  cbn. repeat split.
  unfold Logger.addTraceContext. destruct (valid_span _ _); [|reflexivity].
  destruct (negb _); reflexivity.
Qed.

(** The span of the request, when the handler panics under [Recovery]:
    it carries the status Error. *)
Lemma Recovery_marks_span next wr r w0 v w1 k s :
  root_writer wr = true ->
  next wr r w0 = Panicked v w1 ->
  req_ctx r = Some k ->
  spans w1 !! k = Some s ->
  sp_recording s = true -> sp_ended s = false ->
  fst (sp_status s) <> Ok ->
  exists s', spans (res_world (Recovery next wr r w0)) !! k = Some s' /\
             sp_status s' = (Error, "panic recovered") /\
             sp_errors s' = (sp_errors s ++
               [(("panic: " ++ fmt_v v)%string, [("panic.value", AStr (fmt_v v))])])%list.
Proof.
  intros Hr Hn Hc Hs Hrec Hend Hst.
  rewrite (Recovery_stops_panic _ _ _ _ _ _ Hr Hn).
  cbn [res_world]. unfold recovered. cbv zeta. wsimpl. rewrite Hc.
  assert (Hrank : Z.ltb (status_rank Error) (status_rank (fst (sp_status s))) = false).
  { destruct (fst (sp_status s)); try reflexivity. now contradict Hst. }
  eexists. split.
  - apply update_span_lookup.
    + apply update_span_lookup; [exact Hs|exact Hrec|exact Hend].
    + cbv beta. rewrite Hrank. exact Hrec.
    + cbv beta. rewrite Hrank. exact Hend.
  - cbv beta. rewrite Hrank. split; reflexivity.
Qed.

(** *** RecoverMiddleware of package helpers *)

(** C10: in [RecoverMiddleware] the deferred function asserts that the
    recovered value is a request.  For every panic whose value is not a
    request the assertion itself panics: the middleware ends in a panic
    (with the runtime's conversion error), and the response is left
    exactly as the handler left it, so no 500 answer is written. *)
Theorem RecoverMiddleware_panics_again log next wr r w0 v w1 :
  next wr r w0 = Panicked v w1 ->
  (forall req, v <> PanicRequest req) ->
  exists w2,
    Helpers.RecoverMiddleware log next wr r w0 =
      Panicked (Helpers.type_assertion_error v "*http.Request") w2 /\
    resp w2 = resp w1 /\ cells w2 = cells w1 /\ slog_calls w2 = slog_calls w1.
Proof.
  intros Hn Hv. unfold Helpers.RecoverMiddleware, defer_. rewrite Hn.
  unfold Helpers.recover_deferred, recover_. unfold bind at 1.
  cbn [panicking set_panicking].
  destruct v as [s|e|req|msg|ty txt];
    try (eexists; split; [reflexivity|repeat split]).
  exfalso. now apply (Hv req).
Qed.

Lemma RecoverMiddleware_panics_again_witness :
  exists w2,
    Helpers.RecoverMiddleware Logger.discard_logger panics Base get_request empty_world =
      Panicked (Helpers.type_assertion_error (PanicString "test panic") "*http.Request") w2 /\
    resp w2 = resp empty_world /\ cells w2 = cells empty_world /\
    slog_calls w2 = slog_calls empty_world.
Proof.
  apply (RecoverMiddleware_panics_again Logger.discard_logger panics Base get_request
           empty_world (PanicString "test panic") empty_world).
  - reflexivity.
  - intros req. discriminate.
Defined.

End RecoveryProps.

(** ** Properties of the CORS middleware (middleware.go) *)
Module CORSProps.
Import Runtime Middleware RuntimeProps.
Local Open Scope go_scope.

(** The world in which [CORS] decides between preflight and pass-through:
    the span event is added and the five headers are set. *)
Definition cors_set (r : Request) (w : World) : World :=
  header_set "Access-Control-Max-Age" "86400"
    (header_set "Access-Control-Allow-Credentials" "true"
       (header_set "Access-Control-Allow-Headers"
          "Accept, Content-Type, Content-Length, Accept-Encoding, X-CSRF-Token, Authorization, X-User-Email, X-User-Groups"
          (header_set "Access-Control-Allow-Methods" "GET, POST, PUT, DELETE, OPTIONS"
             (header_set "Access-Control-Allow-Origin" "*"
                (update_span (req_ctx r)
                   (fun s => mkSpan (sp_valid s) (sp_recording s) (sp_trace_id s)
                               (sp_span_id s) (sp_sampled s) (sp_status s) (sp_attrs s)
                               (sp_events s ++
                                  [("cors.processing",
                                    [("cors.origin", AStr (header_get (ReqHeader r) "Origin"));
                                     ("cors.method", AStr (Method r))])])%list
                               (sp_errors s) (sp_ended s)) w))))).

Lemma CORS_run next wr r w :
  CORS next wr r w =
  if String.eqb (Method r) "OPTIONS" then
    (WriteHeader wr 204 ;;;
     span_SetAttributes (req_ctx r) [("cors.preflight", ABool true)])
      (header_set "Content-Type" "text/plain" (cors_set r w))
  else next wr r (cors_set r w).
Proof.
  unfold CORS, span_AddEvent, on_span, cors_set.
  rewrite bind_modify.
  do 5 (cbv beta; rewrite bind_header_Set). cbv beta.
  destruct (String.eqb (Method r) "OPTIONS"); [|reflexivity].
  now rewrite bind_header_Set.
Qed.

Lemma cors_set_headers r w k v :
  In (k, v) cors_headers -> HeaderMap (resp (cors_set r w)) !! k = Some [v].
Proof.
  unfold cors_headers, cors_set. rewrite !header_set_HeaderMap.
  intros [H|[H|[H|[H|[H|[]]]]]]; injection H as <- <-;
    repeat first [apply lookup_insert_eq | rewrite lookup_insert_ne by discriminate].
Qed.

Lemma cors_set_rest r w :
  wroteHeader (resp (cors_set r w)) = wroteHeader (resp w) /\
  Code (resp (cors_set r w)) = Code (resp w) /\
  snapHeader (resp (cors_set r w)) = snapHeader (resp w) /\
  Body (resp (cors_set r w)) = Body (resp w) /\
  slog_calls (cors_set r w) = slog_calls w /\
  journal (cors_set r w) = journal w.
Proof.
  unfold cors_set.
  rewrite !header_set_wroteHeader, !header_set_Code, !header_set_snapHeader,
    !header_set_Body, !header_set_slog_calls, !header_set_journal,
    update_span_resp, update_span_slog_calls, update_span_journal.
  repeat split.
Qed.

(** C8: for a request that reaches [CORS] before any response header is
    written.  A preflight (OPTIONS) request is answered by [CORS] alone:
    the outcome is the same whatever the wrapped handler is, so the
    handler is not invoked; the status is exactly 204 and the five CORS
    headers are among the headers sent.  Any other request is handed to
    the wrapped handler, once, in a world where the five headers are
    set. *)
Theorem CORS_preflight_and_passthrough next wr r w :
  root_writer wr = true ->
  wroteHeader (resp w) = false ->
  (Method r = "OPTIONS" ->
   exists w',
     (forall next', CORS next' wr r w = Returned tt w') /\
     Code (resp w') = 204 /\
     wroteHeader (resp w') = true /\
     (forall k v, In (k, v) cors_headers -> result_header (resp w') !! k = Some [v]) /\
     Body (resp w') = Body (resp w) /\
     journal w' = journal w) /\
  (Method r <> "OPTIONS" ->
   exists w',
     CORS next wr r w = next wr r w' /\
     (forall k v, In (k, v) cors_headers -> result_header (resp w') !! k = Some [v]) /\
     wroteHeader (resp w') = false /\
     Body (resp w') = Body (resp w) /\
     journal w' = journal w).
Proof.
  intros Hr Hw. destruct (cors_set_rest r w) as (Hw' & Hc' & Hs' & Hb' & _ & Hj').
  split; intros Hm.
  - eexists. split; [|].
    + intros next'. rewrite CORS_run, Hm. change ("OPTIONS" =? "OPTIONS")%string with true.
      cbv iota. unfold span_SetAttributes, on_span.
      rewrite (bind_returned _ _ _ _ _ (WriteHeader_root wr 204 Hr _)).
      reflexivity.
    + unfold modify. autorewrite with world.
      rewrite header_written_resp by assumption.
      destruct (recorder_WriteHeader_first 204
                  (resp (header_set "Content-Type" "text/plain" (cors_set r w))))
        as (-> & -> & ->).
      { autorewrite with world. congruence. }
      unfold recorder_WriteHeader. autorewrite with world. rewrite Hw', Hw.
      cbn [Body]. autorewrite with world. rewrite Hb', Hj'. repeat split.
      intros k v Hin. pose proof (cors_set_headers r w k v Hin) as Hk.
      assert (k <> "Content-Type").
      { intros ->. unfold cors_headers in Hin.
        destruct Hin as [H|[H|[H|[H|[H|[]]]]]]; discriminate H. }
      now rewrite lookup_insert_ne.
  - exists (cors_set r w). split.
    + rewrite CORS_run. apply String.eqb_neq in Hm. now rewrite Hm.
    + unfold result_header. rewrite Hw', Hw, Hb', Hj'. repeat split.
      apply cors_set_headers.
Qed.

Definition options_request : Request := mkRequest "OPTIONS" "/test" "" ∅ None "".

Lemma CORS_preflight_and_passthrough_witness :
  exists w',
    (forall next', CORS next' Base options_request empty_world = Returned tt w') /\
    Code (resp w') = 204 /\
    wroteHeader (resp w') = true /\
    (forall k v, In (k, v) cors_headers -> result_header (resp w') !! k = Some [v]) /\
    Body (resp w') = Body (resp empty_world) /\
    journal w' = journal empty_world.
Proof.
  apply (proj1 (CORS_preflight_and_passthrough (fun _ _ => ret tt) Base options_request
                  empty_world eq_refl eq_refl)).
  reflexivity.
Defined.

(** A preflight request does not reach even a handler that would
    panic. *)
Lemma CORS_preflight_skips_panicking_handler :
  exists w', CORS (fun _ _ => panic_ (PanicString "reached")) Base options_request
               empty_world = Returned tt w' /\ Code (resp w') = 204.
Proof.
  eexists. split.
  - rewrite CORS_run. change (Method options_request =? "OPTIONS")%string with true.
    cbv iota. unfold span_SetAttributes, on_span.
    rewrite (bind_returned _ _ _ _ _ (WriteHeader_root Base 204 eq_refl _)).
    reflexivity.
  - unfold modify. rewrite update_span_resp, header_written_resp by reflexivity.
    destruct (cors_set_rest options_request empty_world) as (Hw & _).
    apply recorder_WriteHeader_first.
    now rewrite header_set_wroteHeader, Hw.
Qed.

End CORSProps.

(** ** Properties of package logger *)
Module LoggerProps.
Import Runtime Logger RuntimeProps.
Local Open Scope go_scope.

(** C7: [LogHTTPRequest] makes exactly one call on the logging backend,
    and its level follows the status code: Error from 500 on, Warn from
    400 to 499, Info for every other code; in particular 399 logs at
    Info, 400 and 499 at Warn, 500 at Error. *)
Theorem LogHTTPRequest_level l ctx method path (s d : Z) args w :
  exists call w',
    LogHTTPRequest l ctx method path s d args w = Returned tt w' /\
    slog_calls w' = (slog_calls w ++ [call])%list /\
    (500 <= s -> lc_level call = LevelError) /\
    (400 <= s < 500 -> lc_level call = LevelWarn) /\
    (s < 400 -> lc_level call = LevelInfo) /\
    (s = 399 -> lc_level call = LevelInfo) /\
    (s = 400 \/ s = 499 -> lc_level call = LevelWarn) /\
    (s = 500 -> lc_level call = LevelError).
Proof.
  unfold LogHTTPRequest.
  destruct (Z.leb_spec 500 s) as [H5|H5]; [|destruct (Z.leb_spec 400 s) as [H4|H4]];
    rewrite bind_get; unfold slog_Log, modify;
    (eexists; eexists; split; [reflexivity|]);
    (split; [reflexivity|]); cbn [lc_level]; repeat split; intros; try reflexivity; lia.
Qed.

(** The four boundary values. *)
Lemma LogHTTPRequest_boundaries l ctx w :
  map (fun s => lc_level <$> last (slog_calls (res_world
         (LogHTTPRequest l ctx "GET" "/" s 0 [] w))))
      [399; 400; 499; 500] =
  [Some LevelInfo; Some LevelWarn; Some LevelWarn; Some LevelError].
Proof.
  unfold LogHTTPRequest. cbn [map Z.leb Z.compare Pos.compare Pos.compare_cont].
  rewrite !bind_get. unfold slog_Log, modify. cbn [res_world slog_calls set_slog_calls].
  now rewrite !last_snoc.
Qed.

End LoggerProps.

(** ** Properties of the client (client.go) *)
Module ClientProps.
Import Runtime Middleware RuntimeProps.
Local Open Scope go_scope.

(** C5 (as amended): when the telemetry shutdown fails, [Client.Shutdown]
    logs the failure at Error level and returns that error, wrapped, at
    once: the only steps taken are the opening log line, the telemetry
    shutdown and the error log line; the logger is not closed. *)
Theorem Shutdown_stops_at_telemetry_failure c ctx p tp e w :
  client_telemetry c = Some p ->
  Telemetry.tracerProvider p = Some tp ->
  exists w' c1 c2,
    Shutdown (Some e) c ctx w =
      Returned (Some (Wrapf "failed to shutdown telemetry" e)) w' /\
    journal w' = (journal w ++ ["telemetry.Shutdown"])%list /\
    slog_calls w' = (slog_calls w ++ [c1; c2])%list /\
    lc_level c1 = Logger.LevelInfo /\
    lc_level c2 = Logger.LevelError /\
    lc_msg c2 = "Failed to shutdown telemetry".
Proof.
  intros Hc Hp. unfold Shutdown. rewrite Hc.
  unfold Logger.InfoContext, Logger.ErrorContext, Logger.logContext, telemetry_Shutdown,
    Logger.slog_Log, note.
  rewrite Hp. unfold bind, get, modify, ret. cbn.
  do 3 eexists. split; [reflexivity|]. cbn.
  rewrite <- app_assoc. repeat split.
Qed.

(** When there is no telemetry provider, or its shutdown succeeds, the
    logger is closed and [Shutdown] returns nil. *)
Lemma Shutdown_closes_logger sdk c ctx w :
  (client_telemetry c = None \/ sdk = None \/
   exists p, client_telemetry c = Some p /\ Telemetry.tracerProvider p = None) ->
  exists w',
    Shutdown sdk c ctx w = Returned None w' /\
    last (journal w') = Some "logger.Close".
Proof.
  intros H. unfold Shutdown.
  unfold Logger.InfoContext, Logger.logContext, telemetry_Shutdown, Logger.Close,
    Logger.slog_Log, note.
  destruct H as [H|[H|(p & H & Hp)]].
  - rewrite H. unfold bind, get, modify, ret. cbn. eexists. split; [reflexivity|].
    cbn. apply last_snoc.
  - subst sdk. destruct (client_telemetry c) as [p|].
    + unfold bind, get, modify, ret. cbn.
      destruct (Telemetry.tracerProvider p); cbn; (eexists; split; [reflexivity|]);
        cbn; apply last_snoc.
    + unfold bind, get, modify, ret. cbn. eexists. split; [reflexivity|].
      cbn. apply last_snoc.
  - rewrite H. unfold bind, get, modify, ret. cbn. rewrite Hp. cbn.
    eexists. split; [reflexivity|]. cbn. apply last_snoc.
Qed.

(** A client with tracing on, as [NewClient] would build it. *)
Definition failing_provider : Telemetry.Provider :=
  Telemetry.mkProvider 0
    (Some (Telemetry.mkTracerProvider ∅ Telemetry.AlwaysSample
             (Telemetry.mkExporter "test-project" (30 * Second)) (5 * Second) 512 2048))
    (Telemetry.tracing_config f64_one) None.

Definition test_client : Client :=
  mkClient (mkConfig "test-service" "1.0.0" "production" "test-project" "test-service"
              false false 0 false true false f64_one None)
           Logger.discard_logger (Some failing_provider).

Definition flush_error : GoError := External "*errors.errorString" "context deadline exceeded".

Lemma Shutdown_stops_at_telemetry_failure_witness :
  exists w' c1 c2,
    Shutdown (Some flush_error) test_client None empty_world =
      Returned (Some (Wrapf "failed to shutdown telemetry" flush_error)) w' /\
    journal w' = (journal empty_world ++ ["telemetry.Shutdown"])%list /\
    slog_calls w' = (slog_calls empty_world ++ [c1; c2])%list /\
    lc_level c1 = Logger.LevelInfo /\
    lc_level c2 = Logger.LevelError /\
    lc_msg c2 = "Failed to shutdown telemetry".
Proof.
  eapply (Shutdown_stops_at_telemetry_failure test_client None failing_provider _
            flush_error empty_world); reflexivity.
Defined.

(** C5, as stated, fails: with a failing telemetry shutdown the logger
    close is not among the steps [Shutdown] takes. *)
Lemma Shutdown_skips_logger_close :
  exists err w',
    Shutdown (Some flush_error) test_client None empty_world = Returned (Some err) w' /\
    journal w' = ["telemetry.Shutdown"] /\
    ~ In "logger.Close" (journal w').
Proof.
  do 2 eexists. split; [vm_compute; reflexivity|]. split; [reflexivity|].
  cbn. intros [H|[]]. discriminate H.
Qed.

End ClientProps.

(** ** More properties of package logger *)
Module LoggerMore.
Import Runtime Logger RuntimeProps.
Local Open Scope go_scope.

(** *** The package-level logger *)

(** [InitGlobal] runs its body once: whatever the first call does, it
    returns, it closes the once-guard, and every later call returns nil
    and changes nothing.  The first call, if it is the first, installs the
    logger [NewLogger] builds, or nothing when [NewLogger] fails; a failed
    first call is therefore never made up for. *)
Theorem InitGlobal_runs_once c1 c2 w :
  exists e w1,
    InitGlobal c1 w = Returned e w1 /\
    once_done w1 = true /\
    InitGlobal c2 w1 = Returned None w1 /\
    (once_done w = false ->
     match NewLogger c1 with
     | inr l => e = None /\ globalLogger w1 = Some l /\
                slog_default w1 = Some (lg_handler l)
     | inl err => e = Some err /\ globalLogger w1 = None /\
                  slog_default w1 = slog_default w
     end) /\
    (once_done w = true -> e = None /\ w1 = w).
Proof.
  unfold InitGlobal at 1. destruct (once_done w) eqn:Ho.
  - exists None, w. unfold InitGlobal. rewrite Ho. repeat split; discriminate.
  - destruct (NewLogger c1) as [err|l]; eexists; eexists;
      (split; [reflexivity|]); unfold InitGlobal; cbn;
      repeat split; discriminate.
Qed.

(** [Global] never hands out nil: without an installed logger it builds a
    logger on the discarding handler, which writes nowhere at any level;
    and it does not touch the world. *)
Theorem Global_never_nil w :
  exists l, Global w = Returned l w /\
    (globalLogger w = None -> forall level, sinks (lg_handler l) level = []) /\
    (forall g, globalLogger w = Some g -> l = g).
Proof.
  unfold Global, get. eexists. split; [reflexivity|].
  destruct (globalLogger w); split; intros; try discriminate; try reflexivity.
  congruence.
Qed.

(** *** The configuration *)

Lemma eqb_empty_false s : s <> "" -> String.eqb s "" = false.
Proof. intros H. now apply String.eqb_neq. Qed.

(** [SetDefaults] in closed form. *)
Lemma logger_SetDefaults_eq pid name ver lname con gcp lvl pretty :
  SetDefaults (mkLoggerConfig pid name ver lname con gcp lvl pretty) =
  mkLoggerConfig pid
    (if String.eqb name "" then "default-service" else name)
    (if String.eqb ver "" then "1.0.0" else ver)
    (if String.eqb lname "" then (if String.eqb name "" then "default-service" else name)
     else lname)
    con gcp lvl pretty.
Proof.
  unfold SetDefaults.
  cbn [lcfg_ProjectID lcfg_ServiceName lcfg_ServiceVersion lcfg_LogName
       lcfg_EnableConsole lcfg_EnableGCP lcfg_Level lcfg_Pretty].
  generalize (String.eqb name "") as b1. intros [|];
    cbn [lcfg_ProjectID lcfg_ServiceName lcfg_ServiceVersion lcfg_LogName
         lcfg_EnableConsole lcfg_EnableGCP lcfg_Level lcfg_Pretty];
    (generalize (String.eqb ver "") as b2; intros [|]);
    cbn [lcfg_ProjectID lcfg_ServiceName lcfg_ServiceVersion lcfg_LogName
         lcfg_EnableConsole lcfg_EnableGCP lcfg_Level lcfg_Pretty];
    (generalize (String.eqb lname "") as b3; intros [|]); reflexivity.
Qed.

(** [SetDefaults] fills the three names, leaves every other field alone,
    and applying it again changes nothing. *)
Theorem logger_SetDefaults_idempotent c :
  SetDefaults (SetDefaults c) = SetDefaults c /\
  lcfg_ServiceName (SetDefaults c) <> "" /\
  lcfg_ServiceVersion (SetDefaults c) <> "" /\
  lcfg_LogName (SetDefaults c) <> "" /\
  lcfg_ProjectID (SetDefaults c) = lcfg_ProjectID c /\
  lcfg_EnableGCP (SetDefaults c) = lcfg_EnableGCP c /\
  lcfg_EnableConsole (SetDefaults c) = lcfg_EnableConsole c /\
  lcfg_Level (SetDefaults c) = lcfg_Level c.
Proof.
  destruct c as [pid name ver lname con gcp lvl pretty].
  rewrite !logger_SetDefaults_eq.
  cbn [lcfg_ProjectID lcfg_ServiceName lcfg_ServiceVersion lcfg_LogName
       lcfg_EnableConsole lcfg_EnableGCP lcfg_Level lcfg_Pretty].
  destruct (String.eqb_spec name "") as [->|Hn], (String.eqb_spec ver "") as [->|Hv],
    (String.eqb_spec lname "") as [->|Hl];
    rewrite ?(eqb_empty_false _ Hn), ?(eqb_empty_false _ Hv), ?(eqb_empty_false _ Hl);
    cbn [String.eqb Ascii.eqb Bool.eqb];
    rewrite ?(eqb_empty_false _ Hn), ?(eqb_empty_false _ Hv), ?(eqb_empty_false _ Hl);
    repeat split; try assumption; try discriminate.
Qed.

(** [NewLogger] fails in exactly one case, GCP logging without a project
    id, and then with the wrapped validation error; otherwise the logger
    carries the defaulted configuration and no bound attribute. *)
Theorem NewLogger_fails_iff c :
  match NewLogger c with
  | inl e =>
      lcfg_EnableGCP c = true /\ lcfg_ProjectID c = "" /\
      error_string e =
        "invalid config: ProjectID is required when GCP logging is enabled"
  | inr l =>
      (lcfg_EnableGCP c = false \/ lcfg_ProjectID c <> "") /\
      lg_config l = SetDefaults c /\ lg_bound l = [] /\
      lg_handler l = createHandler (SetDefaults c)
  end.
Proof.
  unfold NewLogger, Validate.
  assert (Hp : lcfg_ProjectID (SetDefaults c) = lcfg_ProjectID c)
    by (destruct c; now rewrite logger_SetDefaults_eq).
  assert (Hg : lcfg_EnableGCP (SetDefaults c) = lcfg_EnableGCP c)
    by (destruct c; now rewrite logger_SetDefaults_eq).
  rewrite Hp, Hg.
  destruct (lcfg_EnableGCP c); cbn [andb].
  - destruct (String.eqb_spec (lcfg_ProjectID c) "").
    + repeat split; try assumption.
    + repeat split. now right.
  - repeat split. now left.
Qed.

(** *** Handlers *)

Lemma sinks_createHandler c level :
  sinks (createHandler c) level =
    ((if lcfg_EnableConsole c && Z.leb (lcfg_Level c) level then ["stdout"] else []) ++
     (if lcfg_EnableGCP c && Z.leb (lcfg_Level c) level then ["stderr"] else []))%list.
Proof.
  unfold createHandler.
  destruct (lcfg_EnableConsole c), (lcfg_Pretty c), (lcfg_EnableGCP c);
    cbn; destruct (Z.leb (lcfg_Level c) level); reflexivity.
Qed.

(** Where a record goes through the handler [createHandler] builds: to
    standard output when the console is on, to standard error when GCP is
    on, to both when both are, each only from the configured level on; and
    nowhere when neither is on.  When some output is on, [Enabled] is the
    level test, so a record is handled exactly when it is written
    somewhere. *)
Theorem createHandler_sinks c level :
  sinks (createHandler c) level =
    ((if lcfg_EnableConsole c && Z.leb (lcfg_Level c) level then ["stdout"] else []) ++
     (if lcfg_EnableGCP c && Z.leb (lcfg_Level c) level then ["stderr"] else []))%list /\
  (lcfg_EnableConsole c || lcfg_EnableGCP c = true ->
   Enabled (createHandler c) level = Z.leb (lcfg_Level c) level) /\
  (lcfg_EnableConsole c || lcfg_EnableGCP c = false ->
   createHandler c = DiscardText).
Proof.
  split; [apply sinks_createHandler|]. unfold createHandler.
  destruct (lcfg_EnableConsole c), (lcfg_Pretty c), (lcfg_EnableGCP c);
    cbn; destruct (Z.leb (lcfg_Level c) level); cbn; split;
    try reflexivity; try discriminate; intros _; reflexivity.
Qed.

(** [SetLevel] rebuilds the slog logger from the configuration: the new
    level is the threshold, and attributes bound earlier by [With] are
    not carried over. *)
Theorem SetLevel_rebuilds l level args :
  SetLevel (With l args) level = SetLevel l level /\
  lg_bound (SetLevel l level) = [] /\
  lcfg_Level (lg_config (SetLevel l level)) = level /\
  forall x, sinks (lg_handler (SetLevel l level)) x =
    ((if lcfg_EnableConsole (lg_config l) && Z.leb level x then ["stdout"] else []) ++
     (if lcfg_EnableGCP (lg_config l) && Z.leb level x then ["stderr"] else []))%list.
Proof.
  repeat split. intros x. unfold SetLevel. cbv zeta. cbn [lg_handler].
  apply sinks_createHandler.
Qed.

(** *** Trace fields *)

(** [addTraceContext] only appends: the caller's arguments stay in front,
    followed by no field without a valid span, by three key/value pairs
    with one, and by six when a project id is configured. *)
Theorem addTraceContext_appends sp projectID attrs :
  exists extra,
    addTraceContext sp projectID attrs = (attrs ++ extra)%list /\
    length extra = match sp with
                   | None => 0%nat
                   | Some _ => if String.eqb projectID "" then 6%nat else 12%nat
                   end /\
    (forall s, sp = Some s ->
       firstn 6 extra = [AStr "trace_id"; AStr (sp_trace_id s);
                         AStr "span_id"; AStr (sp_span_id s);
                         AStr "trace_sampled"; ABool (sp_sampled s)]).
Proof.
  unfold addTraceContext. destruct sp as [s|].
  - destruct (String.eqb projectID ""); cbn [negb]; cbv zeta.
    + eexists. split; [reflexivity|]. split; [reflexivity|].
      intros s' [= <-]. reflexivity.
    + eexists. split; [now rewrite <- app_assoc|]. split; [reflexivity|].
      intros s' [= <-]. reflexivity.
  - exists []. split; [now rewrite app_nil_r|]. split; [reflexivity|]. discriminate.
Qed.

Lemma pair_induction {A} (P : list A -> Prop) :
  P [] -> (forall a, P [a]) -> (forall a b l, P l -> P (a :: b :: l)) ->
  forall l, P l.
Proof.
  intros H0 H1 H2 l.
  enough (P l /\ forall a, P (a :: l)) by tauto.
  induction l as [|b l [IH1 IH2]]; split; auto.
Qed.

Lemma log_attrs_app args extra :
  Nat.Even (length args) ->
  log_attrs (args ++ extra) = (log_attrs args ++ log_attrs extra)%list.
Proof.
  induction args as [|a|a b l IH] using pair_induction; intros He.
  - reflexivity.
  - destruct He as [n Hn]. cbn in Hn. lia.
  - assert (Hl : Nat.Even (length l)).
    { destruct He as [n Hn]. cbn in Hn. exists (n - 1)%nat. lia. }
    cbn [app log_attrs]. rewrite (IH Hl).
    destruct a; try reflexivity. now destruct (negb (isSystemLogField s)).
Qed.

(** The attributes [addLogToSpan] derives from log arguments never carry
    a trace field: each has a key [log.<key>] for a key that is no system
    field. *)
Theorem log_attrs_no_system_field args :
  Forall (fun kv => exists key, fst kv = "log." ++ key /\ isSystemLogField key = false)
         (log_attrs args).
Proof.
  induction args as [|a|a b l IH] using pair_induction; cbn [log_attrs].
  - constructor.
  - constructor.
  - destruct a; try exact IH.
    destruct (isSystemLogField s) eqn:Hs; cbn [negb]; [exact IH|].
    constructor; [|exact IH]. now exists s.
Qed.

(** The fields [addTraceContext] appends are all dropped again by
    [addLogToSpan]: for arguments given as key/value pairs, the span
    attributes are those of the caller's arguments alone. *)
Theorem log_attrs_drops_trace_context sp projectID args :
  Nat.Even (length args) ->
  log_attrs (addTraceContext sp projectID args) = log_attrs args.
Proof.
  intros He. unfold addTraceContext. destruct sp as [s|]; [|reflexivity].
  destruct (String.eqb projectID ""); cbn [negb]; cbv zeta.
  - rewrite log_attrs_app by assumption. cbn. apply app_nil_r.
  - rewrite <- app_assoc, log_attrs_app by assumption. cbn. apply app_nil_r.
Qed.

Lemma log_attrs_drops_trace_context_witness :
  log_attrs (addTraceContext
               (Some (mkSpan true true "4bf92f3577b34da6a3ce929d0e0e4736" "00f067aa0ba902b7"
                        true (Unset, "") [] [] [] false))
               "test-project" [AStr "user"; AStr "alice"]) =
  log_attrs [AStr "user"; AStr "alice"].
Proof.
  apply (log_attrs_drops_trace_context _ "test-project" [AStr "user"; AStr "alice"]).
  exists 1%nat. reflexivity.
Defined.

(** *** Error logging *)

(** [LogError] makes exactly one call on the backend, at Error level and
    with the caller's message; it writes nothing to the response.  With a
    nil error the span is left alone; with an error the arguments start
    with the error text and type, before the caller's. *)
Theorem LogError_one_record l ctx err msg args w :
  exists call w',
    LogError l ctx err msg args w = Returned tt w' /\
    slog_calls w' = (slog_calls w ++ [call])%list /\
    lc_level call = LevelError /\
    lc_msg call = msg /\
    resp w' = resp w /\
    (err = None -> spans w' = spans w) /\
    (forall e, err = Some e ->
       exists extra,
         lc_args call = ([AStr "error"; AStr (error_string e);
                          AStr "error.type"; AStr (error_type e)] ++ args ++ extra)%list).
Proof.
  unfold LogError. destruct err as [e|].
  - rewrite bind_get. unfold span_RecordError, span_SetStatus, on_span, slog_Log.
    rewrite !bind_modify. unfold modify.
    eexists. eexists. split; [reflexivity|]. wsimpl.
    repeat split; try discriminate.
    intros e' [= <-].
    destruct (addTraceContext_appends (valid_span ctx w) (lcfg_ProjectID (lg_config l))
                ([AStr "error"; AStr (error_string e);
                  AStr "error.type"; AStr (error_type e)] ++ args)) as (extra & -> & _).
    exists extra. cbn [lc_args]. now rewrite <- app_assoc.
  - unfold ErrorContext, logContext. rewrite bind_get. unfold slog_Log, modify.
    eexists. eexists. split; [reflexivity|]. wsimpl.
    repeat split; discriminate.
Qed.

End LoggerMore.

(** ** More properties of the middleware (middleware.go, client.go) *)
Module MiddlewareMore.
Import Runtime Middleware RuntimeProps.
Local Open Scope go_scope.

(** *** Chains *)

(** Appending to a chain composes the handlers: the appended middleware
    wrap the handler first, the chain's own middleware wrap the result;
    the empty chain leaves the handler as it is. *)
Theorem Then_Append mc mws h :
  Then (Append mc mws) h = Then mc (Then (NewChain mws) h) /\
  Then (NewChain []) h = h /\
  middlewares (Append (Append mc mws) []) = middlewares (Append mc mws).
Proof.
  split; [|split].
  - rewrite !ChainProps.Then_fold. unfold Append, NewChain. cbn [middlewares].
    apply fold_right_app.
  - reflexivity.
  - unfold Append. cbn [middlewares]. apply app_nil_r.
Qed.

(** The chain [StandardChain] builds, composed with a handler, is the
    nesting [HTTPHandler] writes out by hand; so is the one of [APIChain]
    without a timeout.  With a positive timeout the timeout middleware
    sits between [Recovery] and [CORS]. *)
Theorem StandardChain_is_HTTPHandler otel timeoutMw timeout h :
  Then (StandardChain otel) h = HTTPHandler otel h /\
  (timeout <= 0 -> Then (APIChain otel timeoutMw timeout) h = HTTPHandler otel h) /\
  (0 < timeout ->
   Then (APIChain otel timeoutMw timeout) h =
   otel (RequestID (Logging (Recovery (timeoutMw timeout (CORS h)))))).
Proof.
  split; [reflexivity|]. unfold APIChain.
  destruct (Z.ltb_spec 0 timeout); split; intros; try lia; reflexivity.
Qed.

(** *** Recovery *)

(** When the handler returns, [Recovery] is transparent: the outcome is
    the handler's, nothing is written, logged or marked on top of it. *)
Theorem Recovery_transparent next wr r w w1 :
  next wr r w = Returned tt w1 ->
  Recovery next wr r w = Returned tt (set_panicking (panicking w) w1).
Proof.
  intros Hn. unfold Recovery, defer_. rewrite Hn. reflexivity.
Qed.

Definition hello : Handler := fun w _ => Write w (Raw "OK").

Lemma Recovery_transparent_witness :
  Recovery hello Base RecoveryProps.get_request empty_world =
  Returned tt (set_panicking (panicking empty_world)
                 (res_world (hello Base RecoveryProps.get_request empty_world))).
Proof.
  apply (Recovery_transparent hello Base RecoveryProps.get_request empty_world).
  reflexivity.
Defined.

(** *** RequestID *)

(** [RequestID] hands the request on exactly once, with the response
    header [X-Request-ID] set to one value: the inbound header if there is
    one, else the trace id of the valid span of the request, else the
    clock reading.  It writes no header line and no body itself. *)
Theorem RequestID_sets_header next wr r w :
  exists id w',
    RequestID next wr r w = next wr r w' /\
    HeaderMap (resp w') !! "X-Request-Id" = Some [id] /\
    (header_get (ReqHeader r) "X-Request-Id" <> "" ->
     id = header_get (ReqHeader r) "X-Request-Id") /\
    (header_get (ReqHeader r) "X-Request-Id" = "" ->
     match valid_span (req_ctx r) w with
     | Some s => if String.eqb (sp_trace_id s) "" then id = pretty (now_unix_nano w)
                 else id = sp_trace_id s
     | None => id = pretty (now_unix_nano w)
     end) /\
    wroteHeader (resp w') = wroteHeader (resp w) /\
    Body (resp w') = Body (resp w) /\
    slog_calls w' = slog_calls w.
Proof.
  unfold RequestID. cbv zeta.
  destruct (String.eqb_spec (header_get (ReqHeader r) "X-Request-Id") "") as [He|Hne].
  - rewrite bind_assoc_pt, bind_get.
    destruct (valid_span (req_ctx r) w) as [s|] eqn:Hs.
    + destruct (String.eqb_spec (sp_trace_id s) "") as [Ht|Ht].
      * unfold time_Now. rewrite bind_assoc_pt, bind_get, bind_ret.
        unfold span_SetAttributes, on_span. rewrite bind_modify, bind_header_Set.
        eexists. eexists. split; [reflexivity|]. autorewrite with world.
        rewrite lookup_insert_eq.
        destruct (String.eqb_spec (sp_trace_id s) ""); [|contradiction].
        repeat split. intros Hc. now rewrite He in Hc.
      * rewrite bind_ret.
        unfold span_SetAttributes, on_span. rewrite bind_modify, bind_header_Set.
        eexists. eexists. split; [reflexivity|]. autorewrite with world.
        rewrite lookup_insert_eq.
        destruct (String.eqb_spec (sp_trace_id s) ""); [contradiction|].
        repeat split. intros Hc. now rewrite He in Hc.
    + rewrite He. change ("" =? "")%string with true. cbv iota.
      unfold time_Now. rewrite bind_assoc_pt, bind_get, bind_ret.
      unfold span_SetAttributes, on_span. rewrite bind_modify, bind_header_Set.
      eexists. eexists. split; [reflexivity|]. autorewrite with world.
      rewrite lookup_insert_eq.
      repeat split. intros Hc. now contradict Hc.
  - rewrite bind_ret.
    unfold span_SetAttributes, on_span. rewrite bind_modify, bind_header_Set.
    eexists. eexists. split; [reflexivity|]. autorewrite with world.
    rewrite lookup_insert_eq. repeat split. intros Hc. contradiction.
Qed.

(** *** Logging *)

(** The level [LogHTTPRequest] logs a status code at. *)
Definition http_level (s : Z) : Z :=
  if Z.leb 500 s then Logger.LevelError
  else if Z.leb 400 s then Logger.LevelWarn
  else Logger.LevelInfo.

(** The status code a wrapper of the root package holds. *)
Definition status_of (c : nat) (w : World) : Z :=
  match cells w !! c with
  | Some cell => statusCode cell
  | None => 0
  end.

Lemma LogHTTPRequest_call l ctx method path s d args w :
  exists call,
    Logger.LogHTTPRequest l ctx method path s d args w =
      Returned tt (set_slog_calls (slog_calls w ++ [call]) w) /\
    lc_level call = http_level s /\
    lc_handler call = lg_handler l /\
    firstn 6 (lc_args call) = [AStr "http.method"; AStr method;
                               AStr "http.path"; AStr path;
                               AStr "http.status_code"; AInt s].
Proof.
  unfold Logger.LogHTTPRequest, http_level.
  destruct (Z.leb 500 s); [|destruct (Z.leb 400 s)];
    rewrite bind_get; unfold Logger.slog_Log, modify;
    (eexists; split; [reflexivity|]); cbn [lc_level lc_handler lc_args];
    repeat split;
    unfold Logger.addTraceContext; destruct (valid_span ctx w); try reflexivity;
    destruct (negb _); reflexivity.
Qed.

Lemma bind_new_cell {B} code (k : nat -> M B) w :
  bind (new_cell code) k w =
  k (fresh (dom (cells w)))
    (set_cells (<[fresh (dom (cells w)) := mkCell code false]> (cells w)) w).
Proof. reflexivity. Qed.

(** What [Logging] does after the handler has returned in world [w1],
    with the status code [code] in its wrapper. *)
Lemma Logging_after next wr r w w1 :
  next (Wrapped (fresh (dom (cells w))) wr) r
       (set_cells (<[fresh (dom (cells w)) := mkCell 200 false]> (cells w)) w)
    = Returned tt w1 ->
  exists call w2,
    Logging next wr r w = Returned tt w2 /\
    slog_calls w2 = (slog_calls w1 ++ [call])%list /\
    lc_level call = http_level (status_of (fresh (dom (cells w))) w1) /\
    firstn 6 (lc_args call) =
      [AStr "http.method"; AStr (Method r); AStr "http.path"; AStr (RequestURI r);
       AStr "http.status_code"; AInt (status_of (fresh (dom (cells w))) w1)] /\
    resp w2 = resp w1 /\ cells w2 = cells w1 /\ panicking w2 = panicking w1.
Proof.
  intros Hn. unfold Logging, time_Now. rewrite bind_get, bind_new_cell.
  cbv zeta. rewrite (bind_returned _ _ _ _ _ Hn).
  rewrite bind_get. unfold cell_status. rewrite bind_get.
  fold (status_of (fresh (dom (cells w))) w1).
  unfold span_SetAttributes, on_span. rewrite bind_modify.
  set (w1' := update_span _ _ w1).
  assert (Hif : exists w1'',
             (if Z.leb 400 (status_of (fresh (dom (cells w))) w1)
              then span_SetStatus (req_ctx r) Error
                     ("HTTP " ++ pretty (status_of (fresh (dom (cells w))) w1))%string
              else ret tt) w1' = Returned tt w1'' /\
             slog_calls w1'' = slog_calls w1 /\ resp w1'' = resp w1 /\
             cells w1'' = cells w1 /\ panicking w1'' = panicking w1).
  { destruct (Z.leb 400 _).
    - eexists. split; [reflexivity|]. subst w1'. now autorewrite with world.
    - eexists. split; [reflexivity|]. subst w1'. now autorewrite with world. }
  destruct Hif as (w1'' & Hif & Hs & Hr & Hc & Hp).
  rewrite (bind_returned _ _ _ _ _ Hif).
  unfold Logger.Global. rewrite bind_get.
  match goal with
  | |- context [Logger.LogHTTPRequest ?l ?c ?m ?p ?s ?d ?a w1''] =>
      destruct (LogHTTPRequest_call l c m p s d a w1'') as (call & -> & Hl & _ & Ha)
  end.
  exists call. eexists. split; [reflexivity|].
  cbn [slog_calls resp cells panicking set_slog_calls]. rewrite Hs, Hr, Hc, Hp.
  repeat split; assumption.
Qed.

(** [Logging] makes exactly one log call per request that returns, after
    the handler, at the level of the status code its wrapper holds then;
    the response is left as the handler left it.  A panic of the handler
    passes through without a log record. *)
Theorem Logging_one_record next wr r w :
  match next (Wrapped (fresh (dom (cells w))) wr) r
          (set_cells (<[fresh (dom (cells w)) := mkCell 200 false]> (cells w)) w) with
  | Returned _ w1 =>
      exists call w2,
        Logging next wr r w = Returned tt w2 /\
        slog_calls w2 = (slog_calls w1 ++ [call])%list /\
        lc_level call = http_level (status_of (fresh (dom (cells w))) w1) /\
        resp w2 = resp w1
  | Panicked v w1 => Logging next wr r w = Panicked v w1
  end.
Proof.
  destruct (next _ r _) as [[] w1|v w1] eqn:Hn.
  - destruct (Logging_after _ _ _ _ _ Hn) as (call & w2 & H1 & H2 & H3 & _ & H4 & _).
    now exists call, w2.
  - unfold Logging, time_Now. rewrite bind_get, bind_new_cell. cbv zeta.
    now rewrite (bind_panicked _ _ _ _ _ Hn).
Qed.

End MiddlewareMore.

(** ** Response writers and what the middleware see through them *)
Module WriterProps.
Import Runtime Middleware RuntimeProps MiddlewareMore.
Local Open Scope go_scope.

(** *** The wrapper of the root package *)

(** A cell that holds [code] still holds it after [code] went down the
    writers below. *)
Lemma header_written_cell wr code c : forall w,
  cells w !! c = Some (mkCell code false) ->
  cells (header_written wr code w) !! c = Some (mkCell code false).
Proof.
  induction wr as [|c' inner IH|c' inner IH]; intros w Hc; cbn [header_written].
  - exact Hc.
  - apply IH. cbn [cells set_cells].
    destruct (decide (c' = c)) as [->|Hne].
    + apply lookup_insert_eq.
    + now rewrite lookup_insert_ne.
  - exact Hc.
Qed.

Lemma header_written_status wr code c w :
  status_of c (header_written (Wrapped c wr) code w) = code.
Proof.
  unfold status_of. cbn [header_written].
  rewrite (header_written_cell wr code c); [reflexivity|].
  cbn [cells set_cells]. apply lookup_insert_eq.
Qed.

(** A handler that calls [WriteHeader] with each code of a list in
    turn. *)
Fixpoint write_headers (codes : list Z) (wr : Writer) : M unit :=
  match codes with
  | [] => ret tt
  | code :: rest => WriteHeader wr code ;;; write_headers rest wr
  end.

Lemma last_cons_default {A} (l : list A) : forall x d d',
  List.last (x :: l) d = List.last (x :: l) d'.
Proof.
  induction l as [|y l IH]; intros x d d'; [reflexivity|].
  change (List.last (y :: l) d = List.last (y :: l) d'). apply IH.
Qed.

Lemma write_headers_written c wr codes : root_writer wr = true -> forall w,
  wroteHeader (resp w) = true ->
  exists w',
    write_headers codes (Wrapped c wr) w = Returned tt w' /\
    resp w' = resp w /\
    status_of c w' = List.last codes (status_of c w).
Proof.
  intros Hr. induction codes as [|code rest IH]; intros w Hw.
  - exists w. repeat split.
  - cbn [write_headers].
    assert (Hr' : root_writer (Wrapped c wr) = true) by exact Hr.
    rewrite (bind_returned _ _ _ _ _ (WriteHeader_root _ code Hr' w)).
    destruct (IH (header_written (Wrapped c wr) code w)) as (w' & Hrun & Hresp & Hst).
    { rewrite header_written_resp by assumption.
      now rewrite recorder_WriteHeader_written. }
    exists w'. split; [exact Hrun|]. split.
    + rewrite Hresp, header_written_resp by assumption.
      now rewrite recorder_WriteHeader_written.
    + rewrite Hst, header_written_status.
      destruct rest as [|x rest]; [reflexivity|].
      change (List.last (code :: x :: rest) (status_of c w))
        with (List.last (x :: rest) (status_of c w)).
      apply last_cons_default.
Qed.

(** The wrapper of the root package stores every status code it is
    handed, the connection keeps the first: after a handler has called
    [WriteHeader] several times, the client has the first code and the
    wrapper, which [Logging] reads, the last. *)
Theorem responseWriter_keeps_last_status c wr code codes w :
  root_writer wr = true ->
  wroteHeader (resp w) = false ->
  exists w',
    write_headers (code :: codes) (Wrapped c wr) w = Returned tt w' /\
    Code (resp w') = code /\
    status_of c w' = List.last codes code.
Proof.
  intros Hr Hw. cbn [write_headers].
  assert (Hr' : root_writer (Wrapped c wr) = true) by exact Hr.
  rewrite (bind_returned _ _ _ _ _ (WriteHeader_root _ code Hr' w)).
  destruct (recorder_WriteHeader_first code (resp w) Hw) as (Hc & Hwr & _).
  destruct (write_headers_written c wr codes Hr (header_written (Wrapped c wr) code w))
    as (w' & Hrun & Hresp & Hst).
  { now rewrite header_written_resp. }
  exists w'. split; [exact Hrun|]. split.
  - now rewrite Hresp, header_written_resp.
  - now rewrite Hst, header_written_status.
Qed.

Lemma responseWriter_keeps_last_status_witness :
  exists w',
    write_headers [200; 500] (Wrapped 0 Base) empty_world = Returned tt w' /\
    Code (resp w') = 200 /\
    status_of 0 w' = List.last [500] 200.
Proof.
  apply (responseWriter_keeps_last_status 0 Base 200 [500] empty_world); reflexivity.
Defined.

(** *** Logging around Recovery *)

(** In the order the chains use ([Logging] outside [Recovery]), a panic
    of the handler before any header is written is answered with 500 and
    logged by [Logging] as a request with status code 500, at Error
    level; that record is the only one made after the panic. *)
Theorem panic_is_logged_as_500 next wr r w v w1 :
  root_writer wr = true ->
  next (Wrapped (fresh (dom (cells w))) wr) r
       (set_cells (<[fresh (dom (cells w)) := mkCell 200 false]> (cells w)) w)
    = Panicked v w1 ->
  wroteHeader (resp w1) = false ->
  exists call w2,
    Logging (Recovery next) wr r w = Returned tt w2 /\
    Code (resp w2) = 500 /\
    slog_calls w2 = (slog_calls w1 ++ [call])%list /\
    lc_level call = Logger.LevelError /\
    firstn 6 (lc_args call) =
      [AStr "http.method"; AStr (Method r); AStr "http.path"; AStr (RequestURI r);
       AStr "http.status_code"; AInt 500].
Proof.
  intros Hr Hn Hw.
  assert (Hr' : root_writer (Wrapped (fresh (dom (cells w))) wr) = true) by exact Hr.
  pose proof (RecoveryProps.Recovery_stops_panic _ _ _ _ _ _ Hr' Hn) as Hrec.
  destruct (Logging_after _ _ _ _ _ Hrec) as (call & w2 & H1 & H2 & H3 & H4 & H5 & _).
  assert (Hst : status_of (fresh (dom (cells w)))
                  (set_panicking (panicking
                     (set_cells (<[fresh (dom (cells w)) := mkCell 200 false]> (cells w)) w))
                     (RecoveryProps.recovered (Wrapped (fresh (dom (cells w))) wr) r v
                        (set_panicking (Some v) w1))) = 500).
  { unfold status_of. cbn [cells set_panicking]. unfold RecoveryProps.recovered.
    cbv zeta. cbn [cells set_resp]. apply header_written_status. }
  rewrite Hst in H3, H4.
  exists call, w2. split; [exact H1|]. split; [|split; [|split]].
  - rewrite H5. cbn [resp set_panicking].
    rewrite RecoveryProps.recovered_resp by assumption.
    cbn [resp set_panicking]. unfold recorder_Write, recorder_WriteHeader.
    cbn. rewrite Hw. reflexivity.
  - rewrite H2. cbn [slog_calls set_panicking].
    now rewrite RecoveryProps.recovered_slog_calls.
  - exact H3.
  - exact H4.
Qed.

Lemma panic_is_logged_as_500_witness :
  exists call w2,
    Logging (Recovery RecoveryProps.panics) Base RecoveryProps.get_request empty_world
      = Returned tt w2 /\
    Code (resp w2) = 500 /\
    slog_calls w2 =
      (slog_calls
         (set_cells (<[fresh (dom (cells empty_world)) := mkCell 200 false]>
                       (cells empty_world)) empty_world) ++ [call])%list /\
    lc_level call = Logger.LevelError /\
    firstn 6 (lc_args call) =
      [AStr "http.method"; AStr (Method RecoveryProps.get_request);
       AStr "http.path"; AStr (RequestURI RecoveryProps.get_request);
       AStr "http.status_code"; AInt 500].
Proof.
  apply (panic_is_logged_as_500 RecoveryProps.panics Base RecoveryProps.get_request
           empty_world (PanicString "test panic")); reflexivity.
Defined.

(** *** The wrapper of package helpers *)

(** The status cells a writer goes through. *)
Fixpoint uses_cell (c : nat) (wr : Writer) : bool :=
  match wr with
  | Base => false
  | Wrapped c' inner | WrappedOnce c' inner => Nat.eqb c c' || uses_cell c inner
  end.

Lemma header_written_other_cell wr code c : uses_cell c wr = false -> forall w,
  cells (header_written wr code w) !! c = cells w !! c.
Proof.
  induction wr as [|c' inner IH|c' inner IH]; intros Hu w; cbn [header_written];
    try reflexivity.
  cbn [uses_cell] in Hu. apply orb_false_iff in Hu as [Hne Hu].
  apply Nat.eqb_neq in Hne.
  rewrite (IH Hu). cbn [cells set_cells]. now rewrite lookup_insert_ne.
Qed.

(** The wrapper of package helpers forwards the first [WriteHeader] and
    remembers its code; from then on [WriteHeader] on it does nothing at
    all, whatever the code. *)
Theorem helpers_responseWriter_once c inner a b w :
  root_writer inner = true ->
  uses_cell c inner = false ->
  (forall cell, cells w !! c = Some cell -> written cell = false) ->
  exists w1,
    WriteHeader (WrappedOnce c inner) a w = Returned tt w1 /\
    cells w1 !! c = Some (mkCell a true) /\
    resp w1 = recorder_WriteHeader a (resp w) /\
    WriteHeader (WrappedOnce c inner) b w1 = Returned tt w1.
Proof.
  intros Hr Hu Hc. cbn [WriteHeader]. rewrite bind_get.
  assert (Hd : match cells w !! c with Some cell => written cell | None => false end
               = false).
  { destruct (cells w !! c) as [cell|] eqn:E; [now apply Hc|reflexivity]. }
  rewrite Hd. rewrite bind_modify.
  rewrite (WriteHeader_root inner a Hr).
  eexists. split; [reflexivity|].
  assert (Hcell : cells (header_written inner a
                           (set_cells (<[c := mkCell a true]> (cells w)) w)) !! c
                  = Some (mkCell a true)).
  { rewrite header_written_other_cell by assumption.
    cbn [cells set_cells]. apply lookup_insert_eq. }
  split; [exact Hcell|]. split.
  - now rewrite header_written_resp.
  - rewrite bind_get, Hcell. reflexivity.
Qed.

Lemma helpers_responseWriter_once_witness :
  exists w1,
    WriteHeader (WrappedOnce 0 Base) 404 empty_world = Returned tt w1 /\
    cells w1 !! 0%nat = Some (mkCell 404 true) /\
    resp w1 = recorder_WriteHeader 404 (resp empty_world) /\
    WriteHeader (WrappedOnce 0 Base) 200 w1 = Returned tt w1.
Proof.
  apply (helpers_responseWriter_once 0 Base 404 200 empty_world).
  - reflexivity.
  - reflexivity.
  - intros cell H. discriminate H.
Defined.

(** *** RecoverMiddleware of package helpers, on a request value *)

Definition header_del (k : string) (w : World) : World :=
  set_resp (mkRecorder (delete k (HeaderMap (resp w))) (wroteHeader (resp w))
              (Code (resp w)) (snapHeader (resp w)) (Body (resp w))) w.

Lemma bind_header_Del {B} k (K : unit -> M B) w :
  bind (header_Del k) K w = K tt (header_del k w).
Proof. reflexivity. Qed.

(** The one panic value [RecoverMiddleware] recovers is a request: then
    the panic stops, the span of that request is ended, and, when no
    header was written yet, the answer is the plain-text 500 of
    [http.Error].  [LogPanic] is called after the recovery, so it logs
    nothing. *)
Theorem RecoverMiddleware_request_panic log next wr r w0 req w1 :
  root_writer wr = true ->
  next wr r w0 = Panicked (PanicRequest req) w1 ->
  wroteHeader (resp w1) = false ->
  exists w2,
    Helpers.RecoverMiddleware log next wr r w0 = Returned tt w2 /\
    Code (resp w2) = 500 /\
    result_header (resp w2) !! "Content-Type" = Some ["text/plain; charset=utf-8"] /\
    result_header (resp w2) !! "X-Content-Type-Options" = Some ["nosniff"] /\
    Body (resp w2) =
      (Body (resp w1) ++
       [Raw ("Internal Server Error" ++ String (Ascii.ascii_of_nat 10) EmptyString)])%list /\
    slog_calls w2 = slog_calls w1.
Proof.
  intros Hr Hn Hw. unfold Helpers.RecoverMiddleware, defer_. rewrite Hn.
  unfold Helpers.recover_deferred, recover_. unfold bind at 1.
  cbn [panicking set_panicking].
  rewrite (bind_returned _ _ _ _ _ (RecoveryProps.LogPanic_plain _ _ _)).
  unfold span_End, on_span. rewrite bind_modify.
  set (wa := update_span _ _ _).
  assert (Ha : resp wa = resp w1 /\ slog_calls wa = slog_calls w1 /\ panicking wa = None).
  { subst wa. now autorewrite with world. }
  destruct Ha as (Ha & Hsa & Hpa). clearbody wa.
  unfold http_Error. rewrite bind_header_Del, !bind_header_Set.
  set (wb := header_set _ _ (header_set _ _ (header_del _ wa))).
  assert (Hb : wroteHeader (resp wb) = false /\ Body (resp wb) = Body (resp w1) /\
               HeaderMap (resp wb) !! "Content-Type" = Some ["text/plain; charset=utf-8"] /\
               HeaderMap (resp wb) !! "X-Content-Type-Options" = Some ["nosniff"] /\
               slog_calls wb = slog_calls w1 /\ panicking wb = None).
  { subst wb. autorewrite with world. unfold header_del. cbn [resp set_resp wroteHeader Body slog_calls panicking].
    rewrite Ha, Hw, Hsa, Hpa. repeat split.
    - rewrite lookup_insert_ne by discriminate. apply lookup_insert_eq.
    - apply lookup_insert_eq. }
  destruct Hb as (Hbw & Hbb & Hb1 & Hb2 & Hbs & Hbp). clearbody wb.
  rewrite (bind_returned _ _ _ _ _ (WriteHeader_root wr 500 Hr _)).
  rewrite (Write_root wr _ Hr).
  set (wc := header_written wr 500 wb).
  assert (Hc : resp wc = mkRecorder (HeaderMap (resp wb)) true 500 (HeaderMap (resp wb))
                           (Body (resp wb)) /\
               slog_calls wc = slog_calls w1 /\ panicking wc = None).
  { subst wc. rewrite header_written_resp by assumption. autorewrite with world.
    unfold recorder_WriteHeader. rewrite Hbw. auto. }
  destruct Hc as (Hc & Hcs & Hcp). clearbody wc.
  cbn [set_resp panicking]. rewrite Hcp.
  eexists. split; [reflexivity|].
  cbn [resp set_panicking set_resp slog_calls]. rewrite Hc, Hcs.
  unfold recorder_Write, result_header. cbn [wroteHeader Code HeaderMap snapHeader Body].
  rewrite Hbb. repeat split; assumption.
Qed.

Definition panics_with_request : Handler := fun _ r => panic_ (PanicRequest r).

Lemma RecoverMiddleware_request_panic_witness :
  exists w2,
    Helpers.RecoverMiddleware Logger.discard_logger panics_with_request Base
      RecoveryProps.get_request empty_world = Returned tt w2 /\
    Code (resp w2) = 500 /\
    result_header (resp w2) !! "Content-Type" = Some ["text/plain; charset=utf-8"] /\
    result_header (resp w2) !! "X-Content-Type-Options" = Some ["nosniff"] /\
    Body (resp w2) =
      (Body (resp empty_world) ++
       [Raw ("Internal Server Error" ++ String (Ascii.ascii_of_nat 10) EmptyString)])%list /\
    slog_calls w2 = slog_calls empty_world.
Proof.
  apply (RecoverMiddleware_request_panic Logger.discard_logger panics_with_request Base
           RecoveryProps.get_request empty_world RecoveryProps.get_request empty_world);
    reflexivity.
Defined.

End WriterProps.

(** ** More properties of package telemetry *)
Module TelemetryMore.
Import Telemetry TelemetryProps.

(** *** The remaining fields of [SetDefaults] *)

Lemma SetDefaults_ServiceVersion env c :
  ServiceVersion (SetDefaults env c) =
  if String.eqb (ServiceVersion c) "" then "1.0.0" else ServiceVersion c.
Proof.
  rewrite SetDefaults_stages. frames.
  unfold d_ServiceVersion at 1. frames. case_match; [reflexivity|]. now frames.
Qed.

Lemma SetDefaults_Environment env c :
  Environment (SetDefaults env c) =
  if String.eqb (Environment c) "" then
    if String.eqb (getenv env "ENVIRONMENT") "" then "production"
    else getenv env "ENVIRONMENT"
  else Environment c.
Proof.
  rewrite SetDefaults_stages. frames.
  unfold d_Environment at 1. cbv zeta. frames.
  destruct (String.eqb (Environment c) ""); [|now frames].
  cbn [Environment set_Environment].
  destruct (String.eqb (getenv env "ENVIRONMENT") ""); reflexivity.
Qed.

Lemma SetDefaults_ProjectID env c :
  ProjectID (SetDefaults env c) =
  if String.eqb (ProjectID c) "" then
    if String.eqb (getenv env "GOOGLE_CLOUD_PROJECT") "" then getenv env "GCP_PROJECT"
    else getenv env "GOOGLE_CLOUD_PROJECT"
  else ProjectID c.
Proof.
  rewrite SetDefaults_stages. frames.
  unfold d_ProjectID at 1. cbv zeta. frames.
  destruct (String.eqb (ProjectID c) ""); [|now frames].
  cbn [ProjectID set_ProjectID].
  destruct (String.eqb (getenv env "GOOGLE_CLOUD_PROJECT") ""); reflexivity.
Qed.

Lemma SetDefaults_ExportTimeout env c :
  ExportTimeout (SetDefaults env c) =
  if Z.eqb (ExportTimeout c) 0 then (30 * Second)%Z else ExportTimeout c.
Proof.
  rewrite SetDefaults_stages. frames.
  unfold d_ExportTimeout at 1. frames. case_match; [reflexivity|]. now frames.
Qed.

Lemma SetDefaults_BatchTimeout env c :
  BatchTimeout (SetDefaults env c) =
  if Z.eqb (BatchTimeout c) 0 then (5 * Second)%Z else BatchTimeout c.
Proof.
  rewrite SetDefaults_stages. frames.
  unfold d_BatchTimeout at 1. frames. case_match; [reflexivity|]. now frames.
Qed.

Lemma SetDefaults_Attributes env c :
  Attributes (SetDefaults env c) =
  match Attributes c with None => Some ∅ | Some m => Some m end.
Proof.
  rewrite SetDefaults_stages.
  unfold d_Attributes at 1. frames. destruct (Attributes c) eqn:E.
  - frames. exact E.
  - reflexivity.
Qed.

(** *** A stage leaves a configuration alone once its field is set *)

Lemma nonempty_eqb_false s : s <> "" -> String.eqb s "" = false.
Proof. intros H. now apply String.eqb_neq. Qed.

Lemma d_ServiceName_fix c : ServiceName c <> "" -> d_ServiceName c = c.
Proof. intros H. unfold d_ServiceName. now rewrite nonempty_eqb_false. Qed.

Lemma d_ServiceVersion_fix c : ServiceVersion c <> "" -> d_ServiceVersion c = c.
Proof. intros H. unfold d_ServiceVersion. now rewrite nonempty_eqb_false. Qed.

Lemma d_Environment_fix env c : Environment c <> "" -> d_Environment env c = c.
Proof. intros H. unfold d_Environment. now rewrite nonempty_eqb_false. Qed.

Lemma d_TraceRatio_fix c : f64_eq (TraceRatio c) f64_zero = false -> d_TraceRatio c = c.
Proof. intros H. unfold d_TraceRatio. now rewrite H. Qed.

Lemma d_ProjectID_fix env c :
  (ProjectID c = "" ->
   getenv env "GOOGLE_CLOUD_PROJECT" = "" /\ getenv env "GCP_PROJECT" = "") ->
  d_ProjectID env c = c.
Proof.
  intros H. unfold d_ProjectID. cbv zeta.
  destruct (String.eqb_spec (ProjectID c) "") as [He|Hne]; [|reflexivity].
  destruct (H He) as [-> ->]. destruct c. cbn in *. now subst.
Qed.

Lemma d_ExportTimeout_fix c : ExportTimeout c <> 0 -> d_ExportTimeout c = c.
Proof. intros H. unfold d_ExportTimeout. now destruct (Z.eqb_spec (ExportTimeout c) 0). Qed.

Lemma d_BatchTimeout_fix c : BatchTimeout c <> 0 -> d_BatchTimeout c = c.
Proof. intros H. unfold d_BatchTimeout. now destruct (Z.eqb_spec (BatchTimeout c) 0). Qed.

Lemma d_MaxBatchSize_fix c : MaxBatchSize c <> 0 -> d_MaxBatchSize c = c.
Proof. intros H. unfold d_MaxBatchSize. now destruct (Z.eqb_spec (MaxBatchSize c) 0). Qed.

Lemma d_MaxQueueSize_fix c : MaxQueueSize c <> 0 -> d_MaxQueueSize c = c.
Proof. intros H. unfold d_MaxQueueSize. now destruct (Z.eqb_spec (MaxQueueSize c) 0). Qed.

Lemma d_Attributes_fix c : Attributes c <> None -> d_Attributes c = c.
Proof. intros H. unfold d_Attributes. now destruct (Attributes c). Qed.

(** [SetDefaults] is idempotent: a configuration that went through it
    once is a fixed point, in the same process environment. *)
Theorem telemetry_SetDefaults_idempotent env c :
  SetDefaults env (SetDefaults env c) = SetDefaults env c.
Proof.
  rewrite (SetDefaults_stages env (SetDefaults env c)).
  rewrite d_ServiceName_fix.
  2:{ rewrite SetDefaults_ServiceName.
      destruct (String.eqb_spec (ServiceName c) ""); [discriminate|assumption]. }
  rewrite d_ServiceVersion_fix.
  2:{ rewrite SetDefaults_ServiceVersion.
      destruct (String.eqb_spec (ServiceVersion c) ""); [discriminate|assumption]. }
  rewrite d_Environment_fix.
  2:{ rewrite SetDefaults_Environment.
      destruct (String.eqb_spec (Environment c) ""); [|assumption].
      destruct (String.eqb_spec (getenv env "ENVIRONMENT") ""); [discriminate|assumption]. }
  rewrite d_TraceRatio_fix.
  2:{ rewrite SetDefaults_TraceRatio.
      destruct (f64_eq (TraceRatio c) f64_zero) eqn:E; [reflexivity|exact E]. }
  rewrite d_ProjectID_fix.
  2:{ rewrite SetDefaults_ProjectID.
      destruct (String.eqb_spec (ProjectID c) ""); [|contradiction].
      destruct (String.eqb_spec (getenv env "GOOGLE_CLOUD_PROJECT") "");
        [now split|contradiction]. }
  rewrite d_ExportTimeout_fix.
  2:{ rewrite SetDefaults_ExportTimeout.
      destruct (Z.eqb_spec (ExportTimeout c) 0); [discriminate|assumption]. }
  rewrite d_BatchTimeout_fix.
  2:{ rewrite SetDefaults_BatchTimeout.
      destruct (Z.eqb_spec (BatchTimeout c) 0); [discriminate|assumption]. }
  rewrite d_MaxBatchSize_fix.
  2:{ rewrite SetDefaults_MaxBatchSize.
      destruct (Z.eqb_spec (MaxBatchSize c) 0); [discriminate|assumption]. }
  rewrite d_MaxQueueSize_fix.
  2:{ rewrite SetDefaults_MaxQueueSize.
      destruct (Z.eqb_spec (MaxQueueSize c) 0); [discriminate|assumption]. }
  apply d_Attributes_fix.
  rewrite SetDefaults_Attributes. now destruct (Attributes c).
Qed.

(** *** Why [NewProvider] fails *)

Lemma tenth_in_range :
  f64_lt f64_tenth f64_zero = false /\ f64_gt f64_tenth f64_one = false.
Proof. split; reflexivity. Qed.

(** The range and size checks of [Validate], on defaulted fields. *)
Lemma validate_tail c ve :
  (if f64_lt (if f64_eq (TraceRatio c) f64_zero then f64_tenth else TraceRatio c) f64_zero
      || f64_gt (if f64_eq (TraceRatio c) f64_zero then f64_tenth else TraceRatio c) f64_one
   then Some (Errorf "TraceRatio must be between 0.0 and 1.0")
   else if Z.leb (if Z.eqb (MaxBatchSize c) 0 then 512 else MaxBatchSize c) 0
        then Some (Errorf "MaxBatchSize must be positive")
        else if Z.leb (if Z.eqb (MaxQueueSize c) 0 then 2048 else MaxQueueSize c) 0
             then Some (Errorf "MaxQueueSize must be positive")
             else None) = Some ve ->
  (ve = Errorf "TraceRatio must be between 0.0 and 1.0" /\
   (f64_lt (TraceRatio c) f64_zero = true \/ f64_gt (TraceRatio c) f64_one = true)) \/
  (ve = Errorf "MaxBatchSize must be positive" /\ MaxBatchSize c < 0) \/
  (ve = Errorf "MaxQueueSize must be positive" /\ MaxQueueSize c < 0).
Proof.
  destruct (f64_eq (TraceRatio c) f64_zero).
  - rewrite (proj1 tenth_in_range), (proj2 tenth_in_range). cbn [orb].
    destruct (Z.eqb_spec (MaxBatchSize c) 0), (Z.eqb_spec (MaxQueueSize c) 0);
      repeat case_match; intros [= <-]; try discriminate;
      first [ right; left; split; [reflexivity|lia]
            | right; right; split; [reflexivity|lia] ].
  - destruct (f64_lt (TraceRatio c) f64_zero) eqn:Hlt; cbn [orb].
    { intros [= <-]. left. split; [reflexivity|now left]. }
    destruct (f64_gt (TraceRatio c) f64_one) eqn:Hgt.
    { intros [= <-]. left. split; [reflexivity|now right]. }
    destruct (Z.eqb_spec (MaxBatchSize c) 0), (Z.eqb_spec (MaxQueueSize c) 0);
      repeat case_match; intros [= <-]; try discriminate;
      first [ right; left; split; [reflexivity|lia]
            | right; right; split; [reflexivity|lia] ].
Qed.

Lemma Validate_unfold c :
  Validate c =
  if String.eqb (ServiceName c) "" then Some (Errorf "ServiceName is required")
  else if EnableTracing c && String.eqb (ProjectID c) "" then
    Some (Errorf "ProjectID is required when tracing is enabled")
  else if f64_lt (TraceRatio c) f64_zero || f64_gt (TraceRatio c) f64_one then
    Some (Errorf "TraceRatio must be between 0.0 and 1.0")
  else if Z.leb (MaxBatchSize c) 0 then Some (Errorf "MaxBatchSize must be positive")
  else if Z.leb (MaxQueueSize c) 0 then Some (Errorf "MaxQueueSize must be positive")
  else None.
Proof. reflexivity. Qed.

(** [NewProvider] fails for these reasons only: tracing is on and no
    project id is given or found in the environment; the ratio is below
    0 or above 1; a size is negative; or, with tracing on, the resource
    merge or the exporter fails.  In particular it never fails for a
    missing service name, which [SetDefaults] fills in. *)
Theorem NewProvider_failure_causes env c st e st' :
  NewProvider env c st = (inl e, st') ->
  (e = Wrapf "invalid telemetry config"
         (Errorf "ProjectID is required when tracing is enabled") /\
   EnableTracing c = true /\ ProjectID c = "" /\
   getenv env "GOOGLE_CLOUD_PROJECT" = "" /\ getenv env "GCP_PROJECT" = "") \/
  (e = Wrapf "invalid telemetry config" (Errorf "TraceRatio must be between 0.0 and 1.0") /\
   (f64_lt (TraceRatio c) f64_zero = true \/ f64_gt (TraceRatio c) f64_one = true)) \/
  (e = Wrapf "invalid telemetry config" (Errorf "MaxBatchSize must be positive") /\
   MaxBatchSize c < 0) \/
  (e = Wrapf "invalid telemetry config" (Errorf "MaxQueueSize must be positive") /\
   MaxQueueSize c < 0) \/
  (EnableTracing c = true /\
   exists cause, e = Wrapf "failed to setup tracing" cause /\
     ((gcp_detect env <> None /\ resource_merge_error env <> None) \/
      exporter_error env <> None)).
Proof.
  unfold NewProvider. cbv zeta.
  destruct (Validate (SetDefaults env c)) as [ve|] eqn:HV.
  - intros [= <- <-]. rewrite Validate_unfold in HV.
    rewrite SetDefaults_ServiceName, SetDefaults_EnableTracing, SetDefaults_ProjectID,
      SetDefaults_TraceRatio, SetDefaults_MaxBatchSize, SetDefaults_MaxQueueSize in HV.
    assert (Hn : String.eqb (if String.eqb (ServiceName c) "" then "default-service"
                             else ServiceName c) "" = false).
    { destruct (String.eqb_spec (ServiceName c) ""); [reflexivity|].
      now apply nonempty_eqb_false. }
    rewrite Hn in HV.
    assert (Htail : forall ve',
      (if f64_lt (if f64_eq (TraceRatio c) f64_zero then f64_tenth else TraceRatio c)
               f64_zero
          || f64_gt (if f64_eq (TraceRatio c) f64_zero then f64_tenth else TraceRatio c)
               f64_one
       then Some (Errorf "TraceRatio must be between 0.0 and 1.0")
       else if Z.leb (if Z.eqb (MaxBatchSize c) 0 then 512 else MaxBatchSize c) 0
            then Some (Errorf "MaxBatchSize must be positive")
            else if Z.leb (if Z.eqb (MaxQueueSize c) 0 then 2048 else MaxQueueSize c) 0
                 then Some (Errorf "MaxQueueSize must be positive")
                 else None) = Some ve' ->
      (Wrapf "invalid telemetry config" ve' =
         Wrapf "invalid telemetry config" (Errorf "TraceRatio must be between 0.0 and 1.0") /\
       (f64_lt (TraceRatio c) f64_zero = true \/ f64_gt (TraceRatio c) f64_one = true)) \/
      (Wrapf "invalid telemetry config" ve' =
         Wrapf "invalid telemetry config" (Errorf "MaxBatchSize must be positive") /\
       MaxBatchSize c < 0) \/
      (Wrapf "invalid telemetry config" ve' =
         Wrapf "invalid telemetry config" (Errorf "MaxQueueSize must be positive") /\
       MaxQueueSize c < 0) \/
      (EnableTracing c = true /\
       exists cause, Wrapf "invalid telemetry config" ve' =
                       Wrapf "failed to setup tracing" cause /\
         ((gcp_detect env <> None /\ resource_merge_error env <> None) \/
          exporter_error env <> None))).
    { intros ve' H. destruct (validate_tail c ve' H) as [[-> H1]|[[-> H1]|[-> H1]]].
      - left. now split.
      - right. left. now split.
      - right. right. left. now split. }
    destruct (EnableTracing c) eqn:HT; cbn [andb] in HV; [|right; now apply Htail].
    destruct (String.eqb_spec (ProjectID c) "") as [Hp|Hp].
    + destruct (String.eqb_spec (getenv env "GOOGLE_CLOUD_PROJECT") "") as [Hg|Hg].
      * destruct (String.eqb_spec (getenv env "GCP_PROJECT") "") as [Hg'|Hg'].
        -- injection HV as <-. left. repeat split; assumption.
        -- right. now apply Htail.
      * rewrite (nonempty_eqb_false _ Hg) in HV. right. now apply Htail.
    + rewrite (nonempty_eqb_false _ Hp) in HV. right. now apply Htail.
  - rewrite SetDefaults_EnableTracing. clear HV.
    generalize (SetDefaults env c) as c'. intros c'.
    destruct (EnableTracing c) eqn:HT; [|discriminate].
    unfold setupTracing, createResource.
    destruct (gcp_detect env) as [g|] eqn:Hg.
    + destruct (resource_merge_error env) as [me|] eqn:Hm.
      * intros [= <- <-]. do 4 right. split; [reflexivity|].
        eexists. split; [reflexivity|]. left. split; discriminate.
      * destruct (exporter_error env) as [ee|] eqn:He; [|discriminate].
        intros [= <- <-]. do 4 right. split; [reflexivity|].
        eexists. split; [reflexivity|]. right. discriminate.
    + destruct (exporter_error env) as [ee|] eqn:He; [|discriminate].
      intros [= <- <-]. do 4 right. split; [reflexivity|].
      eexists. split; [reflexivity|]. right. discriminate.
Qed.

Definition negative_batch_config : Config :=
  mkConfig "test-service" "" "" "test-project" false false f64_half false 0 0 (-1) 0 None.

Lemma NewProvider_failure_causes_witness :
  exists e st', NewProvider test_env negative_batch_config init_state = (inl e, st') /\
    e = Wrapf "invalid telemetry config" (Errorf "MaxBatchSize must be positive") /\
    MaxBatchSize negative_batch_config < 0.
Proof.
  exists (Wrapf "invalid telemetry config" (Errorf "MaxBatchSize must be positive")),
    init_state.
  assert (H : NewProvider test_env negative_batch_config init_state =
              (inl (Wrapf "invalid telemetry config"
                      (Errorf "MaxBatchSize must be positive")), init_state))
    by (vm_compute; reflexivity).
  split; [exact H|].
  destruct (NewProvider_failure_causes _ _ _ _ _ H)
    as [(He & _)|[(He & _)|[(He & Hlt)|[(He & _)|(Ht & _)]]]];
    try discriminate He; try discriminate Ht.
  split; [reflexivity|exact Hlt].
Defined.

(** *** Construction without tracing *)

(** With tracing off, an accepted configuration gives a provider without
    a tracer provider of its own: the process-wide tracer provider is left
    as it was, the provider's tracer is taken from it under the service
    name, and the propagators are installed all the same. *)
Theorem NewProvider_without_tracing env c st p st' :
  EnableTracing c = false ->
  NewProvider env c st = (inr p, st') ->
  tracerProvider p = None /\
  tracer p = Some (mkTracer (ServiceName (SetDefaults env c)) (otel_tracer_provider st)) /\
  otel_tracer_provider st' = otel_tracer_provider st /\
  otel_propagators st' = ["tracecontext"; "baggage"] /\
  globalProvider st' = globalProvider st.
Proof.
  intros HT. unfold NewProvider. cbv zeta.
  pose proof (SetDefaults_EnableTracing env c) as HE. rewrite HT in HE.
  generalize dependent (SetDefaults env c). intros c' HE.
  destruct (Validate c'); [discriminate|].
  rewrite HE. cbn. intros [= <- <-]. cbn. repeat split.
Qed.

Lemma NewProvider_without_tracing_witness :
  exists p st',
    NewProvider test_env base_config init_state = (inr p, st') /\
    tracerProvider p = None /\
    tracer p = Some (mkTracer (ServiceName (SetDefaults test_env base_config))
                       (otel_tracer_provider init_state)) /\
    otel_tracer_provider st' = otel_tracer_provider init_state /\
    otel_propagators st' = ["tracecontext"; "baggage"] /\
    globalProvider st' = globalProvider init_state.
Proof.
  run_succeeds HN p st'.
  exists p, st'. split; [reflexivity|].
  exact (NewProvider_without_tracing test_env base_config init_state p st' eq_refl HN).
Defined.

(** *** The project id of the package-level provider *)

(** [GetGlobalProjectID] is empty before any provider is installed; after
    a successful [InitGlobal] it is the project id of the configuration,
    or else the first of the two environment variables that is set. *)
Theorem GetGlobalProjectID_after_InitGlobal env c st st' :
  InitGlobal env c st = (None, st') ->
  GetGlobalProjectID init_state = "" /\
  GetGlobalProjectID st' =
    (if String.eqb (ProjectID c) "" then
       if String.eqb (getenv env "GOOGLE_CLOUD_PROJECT") "" then getenv env "GCP_PROJECT"
       else getenv env "GOOGLE_CLOUD_PROJECT"
     else ProjectID c).
Proof.
  unfold InitGlobal. destruct (NewProvider env c st) as [[e|p] st1] eqn:HN; [discriminate|].
  intros [= <-]. split; [reflexivity|].
  unfold GetGlobalProjectID, GetProjectID. cbn [globalProvider].
  destruct (NewProvider_ok_inv _ _ _ _ _ HN) as (_ & _ & -> & _).
  apply SetDefaults_ProjectID.
Qed.

Lemma GetGlobalProjectID_after_InitGlobal_witness :
  GetGlobalProjectID init_state = "" /\
  GetGlobalProjectID (snd (InitGlobal test_env other_config init_state)) =
    (if String.eqb (ProjectID other_config) "" then
       if String.eqb (getenv test_env "GOOGLE_CLOUD_PROJECT") ""
       then getenv test_env "GCP_PROJECT"
       else getenv test_env "GOOGLE_CLOUD_PROJECT"
     else ProjectID other_config).
Proof.
  assert (Hok : match fst (InitGlobal test_env other_config init_state) with
               | None => true
               | Some _ => false
               end = true) by (vm_compute; reflexivity).
  destruct (InitGlobal test_env other_config init_state) as [[e|] st'] eqn:HI;
    [discriminate Hok|].
  exact (GetGlobalProjectID_after_InitGlobal test_env other_config init_state st' HI).
Defined.

End TelemetryMore.

(** ** Properties of the client constructor (client.go) *)
Module ClientInitProps.
Import Runtime Middleware ClientInit RuntimeProps.
Local Open Scope go_scope.

Ltac proj_config :=
  cbn [ServiceName ServiceVersion Environment ProjectID LogName EnableConsole EnableGCP
       LogLevel PrettyLog EnableTracing EnableMetrics TraceRatio Attributes].

(** [SetDefaults] of the root package in closed form. *)
Lemma root_SetDefaults_eq name ver envr pid lname con gcp lvl pretty trc met ratio attrs :
  SetDefaults (mkConfig name ver envr pid lname con gcp lvl pretty trc met ratio attrs) =
  mkConfig (if String.eqb name "" then "default-service" else name)
           (if String.eqb ver "" then "1.0.0" else ver)
           (if String.eqb envr "" then "production" else envr)
           pid
           (if String.eqb lname "" then (if String.eqb name "" then "default-service" else name)
            else lname)
           con gcp
           (if Z.eqb lvl 0 then Logger.LevelInfo else lvl)
           pretty trc met
           (if f64_eq ratio f64_zero then f64_tenth else ratio)
           attrs.
Proof.
  destruct name as [|a1 s1], ver as [|a2 s2], envr as [|a3 s3], lname as [|a4 s4],
    ratio as [sg|sg| |sg m e], lvl as [|p|p]; try destruct sg; reflexivity.
Qed.

Lemma root_SetDefaults_fields c :
  ProjectID (SetDefaults c) = ProjectID c /\
  EnableTracing (SetDefaults c) = EnableTracing c /\
  EnableGCP (SetDefaults c) = EnableGCP c /\
  TraceRatio (SetDefaults c) =
    (if f64_eq (TraceRatio c) f64_zero then f64_tenth else TraceRatio c) /\
  ServiceName (SetDefaults c) <> "".
Proof.
  destruct c. rewrite root_SetDefaults_eq. proj_config. repeat split.
  destruct (String.eqb_spec ServiceName0 ""); [discriminate|assumption].
Qed.

(** After the root validation the logger configuration is accepted. *)
Lemma logger_accepts c :
  Validate c = None ->
  exists log, Logger.NewLogger (logger_config c) = inr log /\
              lg_config log = Logger.SetDefaults (logger_config c).
Proof.
  intros HV. unfold Logger.NewLogger, Logger.Validate.
  assert (Hp : lcfg_ProjectID (Logger.SetDefaults (logger_config c)) = ProjectID c).
  { unfold logger_config. now rewrite LoggerMore.logger_SetDefaults_eq. }
  rewrite Hp. unfold Validate in HV.
  destruct (String.eqb (ServiceName c) ""); [discriminate|].
  destruct (String.eqb (ProjectID c) ""); [discriminate|].
  rewrite andb_false_r. eexists. split; reflexivity.
Qed.

(** After the root validation the telemetry configuration passes the
    validation of package telemetry. *)
Lemma telemetry_accepts env c :
  Validate c = None ->
  Telemetry.Validate (Telemetry.SetDefaults env (telemetry_config c)) = None.
Proof.
  intros HV. unfold Telemetry.Validate.
  rewrite TelemetryProps.SetDefaults_ServiceName, TelemetryProps.SetDefaults_EnableTracing,
    TelemetryMore.SetDefaults_ProjectID, TelemetryProps.SetDefaults_TraceRatio,
    TelemetryProps.SetDefaults_MaxBatchSize, TelemetryProps.SetDefaults_MaxQueueSize.
  unfold telemetry_config.
  cbn [Telemetry.ServiceName Telemetry.EnableTracing Telemetry.ProjectID
       Telemetry.TraceRatio Telemetry.MaxBatchSize Telemetry.MaxQueueSize].
  unfold Validate in HV.
  destruct (String.eqb (ServiceName c) "") eqn:Hn; [discriminate|]. rewrite Hn.
  destruct (String.eqb (ProjectID c) "") eqn:Hp; [discriminate|]. rewrite Hp.
  rewrite andb_false_r.
  destruct (f64_lt (TraceRatio c) f64_zero || f64_gt (TraceRatio c) f64_one) eqn:Hr;
    [discriminate|].
  destruct (f64_eq (TraceRatio c) f64_zero).
  - rewrite (proj1 TelemetryMore.tenth_in_range), (proj2 TelemetryMore.tenth_in_range).
    reflexivity.
  - rewrite Hr. reflexivity.
Qed.

(** Whether [NewProvider] succeeds depends on the configuration and the
    environment, not on the state it starts from. *)
Lemma NewProvider_again env c st p st1 st2 :
  Telemetry.NewProvider env c st = (inr p, st1) ->
  exists p2 st3,
    Telemetry.NewProvider env c st2 = (inr p2, st3) /\
    Telemetry.p_addr p2 = Telemetry.next_addr st2 /\
    Telemetry.config p2 = Telemetry.config p /\
    Telemetry.next_addr st3 = S (Telemetry.next_addr st2).
Proof.
  unfold Telemetry.NewProvider. cbv zeta.
  generalize (Telemetry.SetDefaults env c) as c'. intros c'.
  destruct (Telemetry.Validate c'); [discriminate|].
  destruct (Telemetry.EnableTracing c').
  - unfold Telemetry.setupTracing.
    destruct (Telemetry.createResource env c'); [discriminate|].
    destruct (Telemetry.exporter_error env); [discriminate|].
    cbn. intros [= <- <-]. eexists. eexists. split; [reflexivity|]. cbn. repeat split.
  - cbn. intros [= <- <-]. eexists. eexists. split; [reflexivity|]. cbn. repeat split.
Qed.

(** The telemetry part of the constructor, for a validated
    configuration. *)
Lemma init_telemetry_inv env c st r st' :
  Validate c = None ->
  init_telemetry env c st = (r, st') ->
  match r with
  | inl e =>
      EnableTracing c = true /\
      exists cause,
        e = Wrapf "failed to initialize telemetry" (Wrapf "failed to setup tracing" cause) /\
        (Telemetry.resource_merge_error env <> None \/
         Telemetry.exporter_error env <> None)
  | inr None => EnableTracing c = false /\ st' = st
  | inr (Some p) =>
      EnableTracing c = true /\
      exists g, Telemetry.Global st' = Some g /\
                Telemetry.p_addr p = Telemetry.next_addr st /\
                Telemetry.p_addr g = S (Telemetry.p_addr p) /\
                Telemetry.config g = Telemetry.config p /\
                Telemetry.config p = Telemetry.SetDefaults env (telemetry_config c)
  end.
Proof.
  intros HV. unfold init_telemetry.
  destruct (EnableTracing c) eqn:HT; [|now intros [= <- <-]].
  destruct (Telemetry.NewProvider env (telemetry_config c) st) as [[e|p] st1] eqn:HN.
  - intros [= <- <-]. split; [reflexivity|].
    revert HN. unfold Telemetry.NewProvider.
    rewrite (telemetry_accepts env c HV).
    rewrite TelemetryProps.SetDefaults_EnableTracing.
    unfold telemetry_config at 1. cbn [Telemetry.EnableTracing]. rewrite HT.
    unfold Telemetry.setupTracing, Telemetry.createResource.
    destruct (Telemetry.gcp_detect env).
    + destruct (Telemetry.resource_merge_error env) eqn:Hm.
      * intros [= <- _]. eexists. split; [reflexivity|]. left. discriminate.
      * destruct (Telemetry.exporter_error env) eqn:He; [|discriminate].
        intros [= <- _]. eexists. split; [reflexivity|]. right. discriminate.
    + destruct (Telemetry.exporter_error env) eqn:He; [|discriminate].
      intros [= <- _]. eexists. split; [reflexivity|]. right. discriminate.
  - destruct (NewProvider_again _ _ _ _ _ st1 HN) as (g & st3 & HN2 & Ha & Hc & _).
    destruct (TelemetryProps.NewProvider_ok_inv _ _ _ _ _ HN)
      as (_ & Hpa & Hpc & Hnext & _).
    unfold Telemetry.InitGlobal. rewrite HN2. intros [= <- <-].
    split; [reflexivity|]. exists g. cbn [Telemetry.Global Telemetry.globalProvider].
    repeat split; try assumption. now rewrite Ha, Hnext, Hpa.
Qed.

(** The global logger after the [InitGlobal] call of the constructor. *)
Lemma InitGlobal_accepts lc log w :
  Logger.NewLogger lc = inr log ->
  exists w1,
    Logger.InitGlobal lc w = Returned None w1 /\
    slog_calls w1 = slog_calls w /\ resp w1 = resp w /\ spans w1 = spans w /\
    (once_done w = false -> globalLogger w1 = Some log) /\
    (once_done w = true -> w1 = w).
Proof.
  intros HL. unfold Logger.InitGlobal. destruct (once_done w).
  - exists w. repeat split; discriminate.
  - rewrite HL. eexists. split; [reflexivity|]. repeat split; discriminate.
Qed.

(** [NewClient] always returns, and it fails for two reasons only: the
    configuration is rejected, in which case nothing has been touched, or
    tracing is on and the tracing setup fails.  The logger errors it is
    prepared to wrap cannot occur: a configuration that passed the root
    validation has a project id, which is all the logger asks for. *)
Theorem NewClient_failure_causes env ctx config st w :
  exists r st' w',
    NewClient env ctx config st w = Returned (r, st') w' /\
    forall e, r = inl e ->
      (exists ve, e = Wrapf "invalid config" ve /\
                  Validate (SetDefaults config) = Some ve /\ w' = w /\ st' = st) \/
      (EnableTracing config = true /\
       exists cause,
         e = Wrapf "failed to initialize telemetry" (Wrapf "failed to setup tracing" cause) /\
         (Telemetry.resource_merge_error env <> None \/
          Telemetry.exporter_error env <> None)).
Proof.
  unfold NewClient. cbv zeta.
  destruct (Validate (SetDefaults config)) as [ve|] eqn:HV.
  - eexists. eexists. eexists. split; [reflexivity|].
    intros e [= <-]. left. exists ve. repeat split.
  - destruct (logger_accepts _ HV) as (log & HL & _). rewrite HL.
    destruct (InitGlobal_accepts _ _ w HL) as (w1 & HG & _).
    rewrite (bind_returned _ _ _ _ _ HG).
    destruct (init_telemetry env (SetDefaults config) st) as [[e|tel] st1] eqn:HT.
    + eexists. eexists. eexists. split; [reflexivity|].
      intros e' [= <-]. right.
      destruct (init_telemetry_inv _ _ _ _ _ HV HT) as (Htr & cause & -> & Hc).
      split; [|exists cause; split; [reflexivity|exact Hc]].
      rewrite <- (proj1 (proj2 (root_SetDefaults_fields config))). exact Htr.
    + unfold Logger.InfoContext, Logger.logContext. rewrite bind_assoc_pt, bind_get.
      unfold Logger.slog_Log. rewrite bind_modify.
      eexists. eexists. eexists. split; [reflexivity|]. discriminate.
Qed.

(** What a successful [NewClient] leaves: the client holds the defaulted
    configuration and a logger built from it; the package-level logger is
    that logger's twin when this is the first initialisation and is left
    alone otherwise; one record reports the initialisation.  With tracing
    on, the client's provider and the package-level provider are two
    instances built one after the other from the same configuration. *)
Theorem NewClient_success env ctx config st w c st' w' :
  NewClient env ctx config st w = Returned (inr c, st') w' ->
  client_config c = SetDefaults config /\
  Logger.NewLogger (logger_config (SetDefaults config)) = inr (client_logger c) /\
  (once_done w = false -> globalLogger w' = Some (client_logger c)) /\
  (once_done w = true -> globalLogger w' = globalLogger w) /\
  (exists call, slog_calls w' = (slog_calls w ++ [call])%list /\
                lc_level call = Logger.LevelInfo /\
                lc_msg call = "Middleware client initialized") /\
  (EnableTracing config = false -> client_telemetry c = None /\ st' = st) /\
  (EnableTracing config = true ->
   exists p g, client_telemetry c = Some p /\ Telemetry.Global st' = Some g /\
               Telemetry.p_addr p = Telemetry.next_addr st /\
               Telemetry.p_addr g = S (Telemetry.p_addr p) /\
               Telemetry.config g = Telemetry.config p).
Proof.
  unfold NewClient. cbv zeta.
  destruct (Validate (SetDefaults config)) as [ve|] eqn:HV; [discriminate|].
  destruct (logger_accepts _ HV) as (log & HL & _). rewrite HL.
  destruct (InitGlobal_accepts _ _ w HL) as (w1 & HG & Hs & _ & _ & Hg0 & Hg1).
  rewrite (bind_returned _ _ _ _ _ HG).
  destruct (init_telemetry env (SetDefaults config) st) as [[e|tel] st1] eqn:HT;
    [discriminate|].
  unfold Logger.InfoContext, Logger.logContext. rewrite bind_assoc_pt, bind_get.
  unfold Logger.slog_Log. rewrite bind_modify. unfold ret. intros [= <- <- <-].
  cbn [client_config client_logger client_telemetry globalLogger slog_calls
       set_slog_calls].
  pose proof (init_telemetry_inv _ _ _ _ _ HV HT) as Hinv.
  rewrite (proj1 (proj2 (root_SetDefaults_fields config))) in Hinv.
  split; [reflexivity|]. split; [reflexivity|].
  split; [exact Hg0|]. split; [intros Ho; now rewrite (Hg1 Ho)|].
  split; [eexists; rewrite Hs; repeat split|].
  destruct tel as [p|].
  - destruct Hinv as (Htr & g & H1 & H2 & H3 & H4 & _).
    split; [intros Hf; rewrite Hf in Htr; discriminate Htr|].
    intros _. exists p, g. repeat split; assumption.
  - destruct Hinv as (Htr & ->). split; [intros _; split; reflexivity|].
    intros Hf. rewrite Hf in Htr. discriminate Htr.
Qed.

Definition client_config_ok : Config :=
  mkConfig "test-service" "1.0.0" "" "test-project" "" false false 0 false true false
           f64_zero None.

Lemma NewClient_success_witness :
  exists c st' w',
    NewClient Telemetry.test_env None client_config_ok Telemetry.init_state empty_world
      = Returned (inr c, st') w' /\
    client_config c = SetDefaults client_config_ok /\
    globalLogger w' = Some (client_logger c) /\
    exists p g, client_telemetry c = Some p /\ Telemetry.Global st' = Some g /\
                Telemetry.p_addr g = S (Telemetry.p_addr p) /\
                Telemetry.config g = Telemetry.config p.
Proof.
  assert (Hok : match NewClient Telemetry.test_env None client_config_ok
                        Telemetry.init_state empty_world with
                | Returned (inr _, _) _ => true
                | _ => false
                end = true) by (vm_compute; reflexivity).
  destruct (NewClient Telemetry.test_env None client_config_ok Telemetry.init_state
              empty_world) as [[[e|c] st'] w'|v w'] eqn:HN; try discriminate Hok.
  clear Hok. exists c, st', w'. split; [reflexivity|].
  destruct (NewClient_success _ _ _ _ _ _ _ _ HN) as (H1 & _ & H3 & _ & _ & _ & H7).
  split; [exact H1|]. split; [exact (H3 eq_refl)|].
  destruct (H7 eq_refl) as (p & g & Hp & Hg & _ & Ha & Hc).
  exists p, g. repeat split; assumption.
Defined.

End ClientInitProps.

(** ** Properties of the span helpers (tracing.go) and of the logger
    methods that take a span *)
Module TracingProps.
Import Runtime Tracing RuntimeProps.
Local Open Scope go_scope.

(** A span update on a span that is there: it applies while the span
    records and has not ended. *)
Lemma update_span_at k f w s :
  spans w !! k = Some s ->
  spans (update_span (Some k) f w) !! k =
  Some (if sp_recording s && negb (sp_ended s) then f s else s).
Proof.
  intros Hs. unfold update_span. rewrite Hs.
  destruct (sp_recording s && negb (sp_ended s)); [|exact Hs].
  cbn [spans set_spans]. apply lookup_insert_eq.
Qed.

(** [RecordError] does nothing for a nil error.  For an error, on a span
    that records and whose status is not Ok, the status becomes Error
    with the description and one error is recorded, with the type and the
    message of the error in front of the caller's attributes; nothing
    else in the world changes. *)
Theorem RecordError_marks_span span err description attrs w :
  (err = None -> RecordError span err description attrs w = Returned tt w) /\
  (forall e k s,
     err = Some e -> span = Some k -> spans w !! k = Some s ->
     sp_recording s = true -> sp_ended s = false -> fst (sp_status s) <> Ok ->
     exists w' s',
       RecordError span err description attrs w = Returned tt w' /\
       spans w' !! k = Some s' /\
       sp_status s' = (Error, description) /\
       sp_errors s' =
         (sp_errors s ++
          [(error_string e,
            [("error.type", AStr (error_type e));
             ("error.message", AStr (error_string e))] ++ attrs)])%list /\
       sp_events s' = sp_events s /\
       resp w' = resp w /\ slog_calls w' = slog_calls w) /\
  RecordErrorContext span err description attrs w = RecordError span err description attrs w.
Proof.
  split; [now intros ->|]. split; [|reflexivity].
  intros e k s -> -> Hs Hrec Hend Hst. unfold RecordError.
  unfold span_SetStatus, span_RecordError, on_span. rewrite bind_modify. unfold modify.
  assert (Hrank : Z.ltb (status_rank Error) (status_rank (fst (sp_status s))) = false).
  { destruct (fst (sp_status s)); try reflexivity. now contradict Hst. }
  eexists. eexists. split; [reflexivity|]. split.
  - apply update_span_lookup.
    + apply update_span_lookup; [exact Hs|exact Hrec|exact Hend].
    + cbv beta. rewrite Hrank. exact Hrec.
    + cbv beta. rewrite Hrank. exact Hend.
  - cbv beta. rewrite Hrank. autorewrite with world. repeat split.
Qed.

(** The accessors agree with each other and with the validity test the
    logger uses: [GetTraceContext] yields the results of [GetTraceID] and
    [GetSpanID], and its flag is [IsSampled] restricted to valid span
    contexts; without a valid span context both identifiers are empty. *)
Theorem GetTraceContext_agrees ctx w :
  GetTraceContext ctx w =
    (GetTraceID ctx w, GetSpanID ctx w, IsTraceEnabled ctx w && IsSampled ctx w) /\
  (IsTraceEnabled ctx w = false -> GetTraceID ctx w = "" /\ GetSpanID ctx w = "") /\
  (IsTraceEnabled ctx w = true <-> exists s, valid_span ctx w = Some s) /\
  (forall s, valid_span ctx w = Some s ->
     GetTraceID ctx w = sp_trace_id s /\ GetSpanID ctx w = sp_span_id s).
Proof.
  unfold GetTraceContext, GetTraceID, GetSpanID, IsTraceEnabled, IsSampled, span_of,
    valid_span.
  destruct ctx as [k|]; [destruct (spans w !! k) as [s|]; [destruct (sp_valid s) eqn:Hv|]|];
    cbn; repeat split; intros; try discriminate; try congruence; eauto;
    try (match goal with H : exists _, _ |- _ => destruct H; discriminate end);
    try (match goal with H : Some _ = Some _ |- _ => injection H as <-; reflexivity end).
Qed.

(** The deferred [span.End()] of [TraceFunction] runs on every way out:
    whether the traced function returns (with or without an error) or
    panics, the started span, if it records, has ended afterwards; the
    result or the panic of the function is passed on unchanged. *)
Theorem TraceFunction_ends_span start fn w k w1 :
  start w = Returned (Some k) w1 ->
  (exists s, spans (res_world (fn (Some k) w1)) !! k = Some s /\ sp_recording s = true) ->
  (exists s', spans (res_world (TraceFunction start fn w)) !! k = Some s' /\
              sp_ended s' = true) /\
  match fn (Some k) w1 with
  | Returned err _ => exists w3, TraceFunction start fn w = Returned err w3
  | Panicked v _ => exists w3, TraceFunction start fn w = Panicked v w3
  end.
Proof.
  intros Hstart (s & Hs & Hrec). unfold TraceFunction.
  rewrite (bind_returned _ _ _ _ _ Hstart). unfold defer_value, time_Now.
  rewrite bind_get.
  destruct (fn (Some k) w1) as [err w2|v w2] eqn:Hfn; cbn [res_world] in Hs.
  - rewrite (bind_returned _ _ _ _ _ Hfn). rewrite bind_get.
    unfold span_SetAttributes, on_span. rewrite bind_modify.
    assert (Hrest : exists w2' s2,
              bind (match err with
                    | Some _ => RecordError (Some k) err "function execution failed" []
                    | None => ret tt
                    end) (fun _ => ret err)
                (update_span (Some k)
                   (fun s0 => mkSpan (sp_valid s0) (sp_recording s0) (sp_trace_id s0)
                                (sp_span_id s0) (sp_sampled s0) (sp_status s0)
                                (sp_attrs s0 ++
                                   [("duration_ms",
                                     AInt (Z.quot (now_unix_nano w2 - now_unix_nano w1)
                                             1000000))])
                                (sp_events s0) (sp_errors s0) (sp_ended s0)) w2)
              = Returned err w2' /\
              spans w2' !! k = Some s2 /\ sp_recording s2 = true).
    { pose proof (update_span_at k
        (fun s0 => mkSpan (sp_valid s0) (sp_recording s0) (sp_trace_id s0)
                     (sp_span_id s0) (sp_sampled s0) (sp_status s0)
                     (sp_attrs s0 ++
                        [("duration_ms",
                          AInt (Z.quot (now_unix_nano w2 - now_unix_nano w1) 1000000))])
                     (sp_events s0) (sp_errors s0) (sp_ended s0)) w2 s Hs) as Ha.
      destruct err as [e|].
      - unfold RecordError, span_SetStatus, span_RecordError, on_span.
        rewrite bind_assoc_pt, !bind_modify. unfold modify, bind, ret.
        eexists. eexists. split; [reflexivity|].
        split.
        + erewrite update_span_at; [reflexivity|].
          erewrite update_span_at; [reflexivity|exact Ha].
        + repeat (match goal with
                  | |- context [if ?b then _ else _] => destruct b
                  end; cbn [sp_recording]); exact Hrec.
      - rewrite bind_ret. eexists. eexists. split; [reflexivity|].
        split; [exact Ha|].
        destruct (sp_recording s && negb (sp_ended s)); exact Hrec. }
    destruct Hrest as (w2' & s2 & Hrun & Hs2 & Hrec2).
    rewrite Hrun. unfold span_End, on_span, modify.
    split; [|eexists; reflexivity].
    cbn [res_world spans set_panicking].
    eexists. split.
    + apply update_span_at. cbn [spans set_panicking]. exact Hs2.
    + rewrite Hrec2. destruct (sp_ended s2) eqn:He; [exact He|reflexivity].
  - rewrite (bind_panicked _ _ _ _ _ Hfn). unfold span_End, on_span, modify.
    autorewrite with world. cbn [panicking set_panicking].
    split; [|eexists; reflexivity].
    cbn [res_world spans set_panicking].
    eexists. split.
    + apply update_span_at. cbn [spans set_panicking]. exact Hs.
    + rewrite Hrec. destruct (sp_ended s) eqn:He; [exact He|reflexivity].
Qed.

(** A world with one recording span, and a tracer that hands it out. *)
Definition traced_span : Span :=
  mkSpan true true "4bf92f3577b34da6a3ce929d0e0e4736" "00f067aa0ba902b7" true
         (Unset, "") [] [] [] false.

Definition traced_world : World :=
  set_spans (<[0%nat := traced_span]> ∅) empty_world.

Definition start_traced : M Context := ret (Some 0%nat).

Definition failing_fn : Context -> M (option GoError) :=
  fun _ => ret (Some (Errorf "boom")).

Lemma TraceFunction_ends_span_witness :
  (exists s', spans (res_world (TraceFunction start_traced failing_fn traced_world))
                !! 0%nat = Some s' /\ sp_ended s' = true) /\
  exists w3, TraceFunction start_traced failing_fn traced_world =
             Returned (Some (Errorf "boom")) w3.
Proof.
  apply (TraceFunction_ends_span start_traced failing_fn traced_world 0 traced_world).
  - reflexivity.
  - exists traced_span. split; reflexivity.
Defined.

(** *** The logger methods with an explicit span *)

(** [LogErrorWithSpan] with an error records it on the span itself and
    then once more through [addLogToSpan]: a valid recording span ends up
    with the same error recorded twice, the status Error with the
    message, one more event, and one record goes to the backend at Error
    level. *)
Theorem LogErrorWithSpan_records_twice l ctx k e msg args w s :
  spans w !! k = Some s ->
  sp_valid s = true -> sp_recording s = true -> sp_ended s = false ->
  fst (sp_status s) <> Ok ->
  exists w' s' call,
    LoggerSpan.LogErrorWithSpan l ctx (Some k) (Some e) msg args w = Returned tt w' /\
    spans w' !! k = Some s' /\
    sp_status s' = (Error, msg) /\
    sp_errors s' =
      (sp_errors s ++
       [(error_string e, [("error.message", AStr (error_string e));
                          ("error.type", AStr (error_type e))]);
        (error_string e, [("error.message", AStr (error_string e));
                          ("error.type", AStr (error_type e))])])%list /\
    length (sp_events s') = S (length (sp_events s)) /\
    slog_calls w' = (slog_calls w ++ [call])%list /\
    lc_level call = Logger.LevelError /\ lc_msg call = msg.
Proof.
  intros Hs Hv Hrec Hend Hst.
  assert (Hrank : forall d, fst (sp_status s) = d ->
            Z.ltb (status_rank Error) (status_rank d) = false).
  { intros d <-. destruct (fst (sp_status s)); try reflexivity. now contradict Hst. }
  unfold LoggerSpan.LogErrorWithSpan.
  unfold span_RecordError at 1, span_SetStatus at 1, on_span.
  rewrite !bind_modify.
  set (w1 := update_span (Some k) _ (update_span (Some k) _ w)).
  assert (H1 : exists s1, spans w1 !! k = Some s1 /\
             sp_valid s1 = true /\ sp_recording s1 = true /\ sp_ended s1 = false /\
             sp_status s1 = (Error, msg) /\ sp_events s1 = sp_events s /\
             sp_errors s1 = (sp_errors s ++
               [(error_string e, [("error.message", AStr (error_string e));
                                  ("error.type", AStr (error_type e))])])%list).
  { subst w1. eexists. split.
    - apply update_span_lookup.
      + apply update_span_lookup; [exact Hs|exact Hrec|exact Hend].
      + exact Hrec.
      + exact Hend.
    - cbv beta. cbn [sp_status fst]. rewrite (Hrank _ eq_refl). now cbn. }
  destruct H1 as (s1 & Hs1 & Hv1 & Hrec1 & Hend1 & Hst1 & Hev1 & Her1).
  unfold Logger.addLogToSpan. rewrite bind_assoc_pt, bind_get.
  unfold valid_span at 1. rewrite Hs1, Hv1.
  change (Z.eqb Logger.LevelError Logger.LevelError || Z.eqb Logger.LevelError Logger.LevelCritical)
    with true. cbv iota.
  unfold span_AddEvent, span_RecordError, span_SetStatus, on_span.
  repeat first [rewrite bind_assoc_pt | rewrite bind_modify].
  set (w2 := update_span (Some k) _ (update_span (Some k) _ (update_span (Some k) _ w1))).
  assert (H2 : exists s2, spans w2 !! k = Some s2 /\
             sp_status s2 = (Error, msg) /\
             sp_errors s2 = (sp_errors s1 ++
               [(error_string e, [("error.message", AStr (error_string e));
                                  ("error.type", AStr (error_type e))])])%list /\
             length (sp_events s2) = S (length (sp_events s1))).
  { subst w2. eexists. split.
    - apply update_span_lookup.
      + apply update_span_lookup.
        * apply update_span_lookup; [exact Hs1|exact Hrec1|exact Hend1].
        * exact Hrec1.
        * exact Hend1.
      + exact Hrec1.
      + exact Hend1.
    - cbv beta. cbn [sp_status fst sp_errors sp_events]. rewrite Hst1. cbn [fst].
      change (Z.ltb (status_rank Error) (status_rank Error)) with false. cbv iota.
      cbn [sp_status sp_errors sp_events]. repeat split.
      rewrite length_app. cbn. lia. }
  destruct H2 as (s2 & Hs2 & Hst2 & Her2 & Hev2).
  rewrite bind_get. unfold Logger.slog_Log, modify.
  eexists. exists s2. eexists. split; [reflexivity|].
  cbn [spans slog_calls set_slog_calls lc_level lc_msg].
  split; [exact Hs2|]. split; [exact Hst2|]. split.
  { rewrite Her2, Her1, <- app_assoc. reflexivity. }
  split; [now rewrite Hev2, Hev1|].
  subst w2 w1. autorewrite with world. repeat split.
Qed.

Lemma LogErrorWithSpan_records_twice_witness :
  exists w' s' call,
    LoggerSpan.LogErrorWithSpan Logger.discard_logger None (Some 0%nat)
      (Some (Errorf "boom")) "operation failed" [] traced_world = Returned tt w' /\
    spans w' !! 0%nat = Some s' /\
    sp_status s' = (Error, "operation failed") /\
    sp_errors s' =
      (sp_errors traced_span ++
       [(error_string (Errorf "boom"),
         [("error.message", AStr (error_string (Errorf "boom")));
          ("error.type", AStr (error_type (Errorf "boom")))]);
        (error_string (Errorf "boom"),
         [("error.message", AStr (error_string (Errorf "boom")));
          ("error.type", AStr (error_type (Errorf "boom")))])])%list /\
    length (sp_events s') = S (length (sp_events traced_span)) /\
    slog_calls w' = (slog_calls traced_world ++ [call])%list /\
    lc_level call = Logger.LevelError /\ lc_msg call = "operation failed".
Proof.
  apply (LogErrorWithSpan_records_twice Logger.discard_logger None 0 (Errorf "boom")
           "operation failed" [] traced_world traced_span); try reflexivity.
  discriminate.
Defined.

End TracingProps.

(** ** Examples for panic logging, span marking and client shutdown *)
Module Examples.
Import Runtime Middleware RuntimeProps.
Local Open Scope go_scope.

(** A goroutine that is panicking with a string. *)
Definition panicking_world : World :=
  set_panicking (Some (PanicString "test panic")) empty_world.

Lemma LogPanic_deferred_witness :
  exists w',
    Logger.LogPanic DeferredCall Logger.discard_logger None panicking_world =
      Panicked (PanicString "test panic") w' /\
    exists call,
      slog_calls w' = (slog_calls panicking_world ++ [call])%list /\
      lc_level call = Logger.LevelCritical /\
      lc_msg call = "Panic recovered" /\
      firstn 4 (lc_args call) =
        [AStr "panic.value"; AStr (fmt_v (PanicString "test panic"));
         AStr "panic.stack_trace"; AStr (stack_trace panicking_world)].
Proof.
  apply (RecoveryProps.LogPanic_deferred Logger.discard_logger None
           (PanicString "test panic") panicking_world).
  reflexivity.
Defined.

(** A request whose context carries a recording span. *)
Definition request_span : Span :=
  mkSpan true true "4bf92f3577b34da6a3ce929d0e0e4736" "00f067aa0ba902b7" true
         (Unset, "") [] [] [] false.

Definition span_world : World := set_spans (<[0%nat := request_span]> ∅) empty_world.

Definition traced_request : Request := mkRequest "GET" "/test" "" ∅ (Some 0%nat) "".

Lemma Recovery_marks_span_witness :
  exists s',
    spans (res_world (Recovery RecoveryProps.panics Base traced_request span_world))
      !! 0%nat = Some s' /\
    sp_status s' = (Error, "panic recovered") /\
    sp_errors s' =
      (sp_errors request_span ++
       [(("panic: " ++ fmt_v (PanicString "test panic"))%string,
         [("panic.value", AStr (fmt_v (PanicString "test panic")))])])%list.
Proof.
  apply (RecoveryProps.Recovery_marks_span RecoveryProps.panics Base traced_request
           span_world (PanicString "test panic") span_world 0 request_span);
    try reflexivity.
  discriminate.
Defined.

Lemma Shutdown_closes_logger_witness :
  exists w',
    Shutdown None ClientProps.test_client None empty_world = Returned None w' /\
    last (journal w') = Some "logger.Close".
Proof.
  apply (ClientProps.Shutdown_closes_logger None ClientProps.test_client None empty_world).
  right. left. reflexivity.
Defined.

End Examples.
